(** * glslViewer: the reload/reconfigure engine, the watcher slot and the
      command dispatcher, as a shallow embedding.

    Sources embedded here:
    - [src/sandbox.cpp]  : [Sandbox::reloadShaders], [Sandbox::_updateBuffers],
      [Sandbox::onFileChange], [Sandbox::haveChange], [Sandbox::renderDone], ...
    - the program's main file : [declareCommands], [runCmd],
      [fileWatcherThread] and the render loop of [main].

    Mutable C++ objects are records threaded through the functions; the
    collaborators that are not part of these two files (filesystem, window,
    shader-text scanners) are gathered in the record [Env]. *)

From Stdlib Require Import ZArith QArith String Ascii List DecimalString.
From stdpp Require Import gmap strings list fin_maps.

Open Scope string_scope.
Open Scope Z_scope.

(* ===================================================================== *)
(** ** Text helpers ([tools/text.h]) *)
(* ===================================================================== *)

Module Text.

(** [beginsWith(a, b)]: the string [a] starts with [b]. *)
Definition beginsWith (a b : string) : bool := String.prefix b a.

(** Literal occurrence of [needle] somewhere in [hay] (what
    [std::string::find] decides). *)
Fixpoint contains (needle hay : string) : bool :=
  String.prefix needle hay ||
  match hay with
  | EmptyString => false
  | String _ rest => contains needle rest
  end.

(** [toString(int)] for the non-negative pass numbers: decimal digits. *)
Definition toString (i : nat) : string :=
  NilZero.string_of_uint (Nat.to_uint i).

Definition emit (tolerate_empty : bool) (tok : string) (rest : list string)
  : list string :=
  if tolerate_empty || negb (String.eqb tok "") then tok :: rest else rest.

Fixpoint split_from (sep : ascii) (tolerate_empty : bool)
    (tok : string) (s : string) : list string :=
  match s with
  | EmptyString => emit tolerate_empty tok []
  | String c rest =>
      if Ascii.eqb c sep
      then emit tolerate_empty tok (split_from sep tolerate_empty "" rest)
      else split_from sep tolerate_empty (tok +:+ String c "") rest
  end.

(** Modelled from the spec: [split(string, sep, tolerate_empty = false)] of
    [tools/text.h] is not in the sources ("split on a fixed delimiter").
    Tokens are the maximal runs between separators; empty tokens are kept
    only when the third argument is [true], the way the callers that number
    source lines pass it. *)
Definition split (s : string) (sep : ascii) (tolerate_empty : bool)
  : list string :=
  split_from sep tolerate_empty "" s.

Definition comma : ascii := ","%char.
Definition space : ascii := " "%char.

(** [values[i]] on a vector of strings; reading past the end is undefined
    in C++ and yields the empty string here. *)
Definition at_ (l : list string) (i : nat) : string := nth i l "".

Definition digit_of (c : ascii) : option Z :=
  let n := nat_of_ascii c in
  if ((48 <=? n)%nat && (n <=? 57)%nat)%bool
  then Some (Z.of_nat (n - 48)) else None.

(** Digits with at most one decimal point: numerator and power of ten. *)
Fixpoint scan_decimal (s : string) (num : Z) (den : positive)
    (dot ndig : bool) : option (Z * positive) :=
  match s with
  | EmptyString => if ndig then Some (num, den) else None
  | String c rest =>
      if Ascii.eqb c "."%char
      then if dot then None else scan_decimal rest num den true ndig
      else match digit_of c with
           | Some d =>
               scan_decimal rest (10 * num + d)
                 (if dot then (10 * den)%positive else den) dot true
           | None => None
           end
  end.

Definition parse_decimal (s : string) : option Q :=
  match s with
  | String "-" rest =>
      match scan_decimal rest 0 1 false false with
      | Some (n, d) => Some (Qmake (- n) d)
      | None => None
      end
  | _ =>
      match scan_decimal s 0 1 false false with
      | Some (n, d) => Some (Qmake n d)
      | None => None
      end
  end.

(** Modelled from the spec: [toFloat] of [tools/text.h] is not in the
    sources.  The float a numeric token denotes is idealised as the rational
    its decimal literal denotes (exact for integer tokens); a token that is
    no number reads as zero. *)
Definition toFloat (s : string) : Q :=
  match parse_decimal s with Some q => q | None => 0%Q end.

Definition isNumber (s : string) : bool :=
  match parse_decimal s with Some _ => true | None => false end.

End Text.

(* ===================================================================== *)
(** ** Graphics objects ([gl/shader.h], [gl/fbo.h]) *)
(* ===================================================================== *)

Module Gl.

(** Modelled from the spec: the graphics backend is a collaborator
    ("compile-and-link a program from two source strings", "allocate/resize
    a framebuffer with a requested pixel layout").  A [Shader] is what the
    engine handed to it: its preprocessor defines and the pair of sources of
    the last [load]. *)
Record Shader := mkShader {
  defines : gmap string string;
  program : option (string * string)
}.

Definition Shader_new : Shader := mkShader ∅ None.

Definition addDefine (d v : string) (sh : Shader) : Shader :=
  mkShader (<[d := v]> (defines sh)) (program sh).

Definition delDefine (d : string) (sh : Shader) : Shader :=
  mkShader (delete d (defines sh)) (program sh).

Definition detach (sh : Shader) : Shader := mkShader (defines sh) None.

Definition load (frag vert : string) (sh : Shader) : Shader :=
  mkShader (defines sh) (Some (frag, vert)).

Inductive FboType :=
  | COLOR_TEXTURE
  | COLOR_TEXTURE_DEPTH_BUFFER
  | COLOR_DEPTH_TEXTURES.

Definition FboType_eqb (a b : FboType) : bool :=
  match a, b with
  | COLOR_TEXTURE, COLOR_TEXTURE
  | COLOR_TEXTURE_DEPTH_BUFFER, COLOR_TEXTURE_DEPTH_BUFFER
  | COLOR_DEPTH_TEXTURES, COLOR_DEPTH_TEXTURES => true
  | _, _ => false
  end.

Record Fbo := mkFbo {
  isAllocated : bool;
  fbo_width : Z;
  fbo_height : Z;
  getType : FboType
}.

Definition Fbo_new : Fbo := mkFbo false 0 0 COLOR_TEXTURE.

Definition allocate (w h : Z) (t : FboType) (_ : Fbo) : Fbo := mkFbo true w h t.

End Gl.

(* ===================================================================== *)
(** ** The 3D scene collaborator ([scene.h]) *)
(* ===================================================================== *)

Module Scene.

(** Modelled from the spec: the scene is a black box "beyond these call
    contracts": [loadShaders], [addDefine]/[delDefine] and the
    [haveChange]/[unflagChange] pair. *)
Record t := mk {
  shaders : option (string * string);
  defines : gmap string string;
  change : bool
}.

Definition empty : t := mk None ∅ false.

Definition loadShaders (frag vert : string) (sc : t) : t :=
  mk (Some (frag, vert)) (defines sc) (change sc).

Definition addDefine (d v : string) (sc : t) : t :=
  mk (shaders sc) (<[d := v]> (defines sc)) (change sc).

Definition delDefine (d : string) (sc : t) : t :=
  mk (shaders sc) (delete d (defines sc)) (change sc).

Definition haveChange (sc : t) : bool := change sc.

Definition unflagChange (sc : t) : t := mk (shaders sc) (defines sc) false.

End Scene.

(* ===================================================================== *)
(** ** The uniform registry ([uniforms.h]) *)
(* ===================================================================== *)

Module Uniforms.

(** A registered uniform function; its [assign] and [print] closures do not
    take part in the reload logic and are left out. *)
Record UniformFunction := mkFunction {
  type : string;
  present : bool
}.

Definition set_present (b : bool) (f : UniformFunction) : UniformFunction :=
  mkFunction (type f) b.

(** What [std::map::operator[]] default-constructs for a missing key. *)
Definition UniformFunction_default : UniformFunction := mkFunction "" false.

(** A user-defined uniform: arity, values, changed flag. *)
Record UniformData := mkData {
  size : nat;
  value : list Q;
  bChange : bool
}.

Record t := mk {
  functions : gmap string UniformFunction;
  data : gmap string UniformData;
  buffers : list Gl.Fbo;
  cubemap : bool;
  m_change : bool
}.

Definition set_functions (x : gmap string UniformFunction) (u : t) : t :=
  mk x (data u) (buffers u) (cubemap u) (m_change u).
Definition set_data (x : gmap string UniformData) (u : t) : t :=
  mk (functions u) x (buffers u) (cubemap u) (m_change u).
Definition set_buffers (x : list Gl.Fbo) (u : t) : t :=
  mk (functions u) (data u) x (cubemap u) (m_change u).
Definition set_m_change (x : bool) (u : t) : t :=
  mk (functions u) (data u) (buffers u) (cubemap u) x.

(** [functions[name]]: the entry, default-constructed and inserted when the
    key is missing, as [std::map::operator[]] does. *)
Definition at_ (name : string) (m : gmap string UniformFunction)
  : gmap string UniformFunction * UniformFunction :=
  match m !! name with
  | Some f => (m, f)
  | None => (<[name := UniformFunction_default]> m, UniformFunction_default)
  end.

(** Modelled from the spec: [Uniforms::checkPresenceIn] is not in the
    sources.  "For every registered entry, set [present] to whether its name
    literally occurs in either source string." *)
Definition checkPresenceIn (vert_src frag_src : string) (u : t) : t :=
  set_functions
    (map_imap (fun name f =>
       Some (set_present (Text.contains name vert_src
                          || Text.contains name frag_src) f))
       (functions u)) u.

(** Modelled from the spec: the registry's own dirty flag ("each must offer
    its own are-you-dirty / clear-yourself pair"). *)
Definition flagChange (u : t) : t := set_m_change true u.

Definition clear_bChange (d : UniformData) : UniformData :=
  mkData (size d) (value d) false.

Definition unflagChange (u : t) : t :=
  set_m_change false (set_data (clear_bChange <$> data u) u).

Definition haveChange (u : t) : bool := m_change u.

(** Modelled from the spec: [Uniforms::parseLine] is not in the sources.
    "Split on a fixed delimiter; first token is the uniform name (create the
    entry if it does not exist, inferring arity/type from the number of
    remaining numeric tokens: 1 -> scalar, 2 -> vec2, 3 -> vec3, 4 -> vec4);
    remaining tokens are parsed as floats and stored; marks the entry
    changed."  A line that is no such assignment is ignored. *)
Definition parseLine (line : string) (u : t) : t :=
  match Text.split line Text.comma false with
  | name :: vals =>
      if ((1 <=? length vals)%nat && (length vals <=? 4)%nat
          && forallb Text.isNumber vals)%bool
      then set_m_change true
             (set_data (<[name := mkData (length vals)
                                    (Text.toFloat <$> vals) true]> (data u)) u)
      else u
  | [] => u
  end.

End Uniforms.

(* ===================================================================== *)
(** ** The watch registry ([io/fs.h]) *)
(* ===================================================================== *)

Inductive FileType :=
  | FRAG_SHADER
  | VERT_SHADER
  | GEOMETRY
  | IMAGE
  | CUBEMAP
  | GLSL_DEPENDENCY.

Definition FileType_eqb (a b : FileType) : bool :=
  match a, b with
  | FRAG_SHADER, FRAG_SHADER | VERT_SHADER, VERT_SHADER
  | GEOMETRY, GEOMETRY | IMAGE, IMAGE | CUBEMAP, CUBEMAP
  | GLSL_DEPENDENCY, GLSL_DEPENDENCY => true
  | _, _ => false
  end.

Record WatchFile := mkWatchFile {
  type : FileType;
  path : string;
  lastChange : Z;
  vFlip : bool
}.

Abbreviation WatchFileList := (list WatchFile).

Definition is_dependency (f : WatchFile) : bool :=
  FileType_eqb (type f) GLSL_DEPENDENCY.

(* ===================================================================== *)
(** ** Collaborators outside the two source files *)
(* ===================================================================== *)

(** What the engine reads from the outside world at one call: the shader-text
    scanners of [tools/text.h], the filesystem, the window and the built-in
    shader strings.  [count_buffers] counts the pass markers of a source
    (its [int] result is a number of markers, a natural number here).  [loadFromPath path include_folders into deps] returns
    the success flag together with the contents of its two out-parameters;
    [stat] is [None] when the call fails (the [struct stat] is then left as
    it was); [uninit_mtime] and [uninit_vFlip] are what the uninitialised
    locals [struct stat st] and [WatchFile file] happen to hold. *)
Record Env := mkEnv {
  count_buffers : string -> nat;
  check_for_postprocessing : string -> bool;
  merge : list string -> list string -> list string;
  loadFromPath :
    string -> list string -> string -> list string ->
    bool * string * list string;
  stat : string -> option Z;
  uninit_mtime : Z;
  uninit_vFlip : bool;
  getWindowWidth : Z;
  getWindowHeight : Z;
  billboard_vert : string;
  fxaa_frag : string
}.

(** [stat(path, &st); ... st.st_mtime]. *)
Definition stat_mtime (E : Env) (p : string) (st : Z) : Z :=
  match stat E p with Some t => t | None => st end.

(* ===================================================================== *)
(** ** [class Sandbox] *)
(* ===================================================================== *)

(** The members the reload engine, the change tracking and the commands work
    on.  [saved] is the list of image files [onScreenshot] has written, most
    recent first; members that only drive the debug overlay are left out. *)
Record Sandbox := mkSandbox {
  frag_index : Z;
  vert_index : Z;
  geom_index : Z;
  fxaa : bool;
  include_folders : list string;
  screenshotFile : string;
  uniforms : Uniforms.t;
  m_frag_source : string;
  m_vert_source : string;
  m_frag_dependencies : list string;
  m_vert_dependencies : list string;
  m_buffers_total : Z;
  m_buffers_shaders : list Gl.Shader;
  m_canvas_shader : Gl.Shader;
  m_postprocessing : bool;
  m_postprocessing_shader : Gl.Shader;
  m_scene_fbo : Gl.Fbo;
  m_record_fbo : Gl.Fbo;
  m_record_fdelta : Q;
  m_record_start : Q;
  m_record_head : Q;
  m_record_end : Q;
  m_record_counter : nat;
  m_record : bool;
  m_histogram : bool;
  m_scene : Scene.t;
  m_frame : nat;
  m_change : bool;
  m_initialized : bool;
  saved : list string
}.

Definition set_screenshotFile (x : string) (s : Sandbox) : Sandbox :=
  mkSandbox (frag_index s) (vert_index s) (geom_index s) (fxaa s)
    (include_folders s) x (uniforms s) (m_frag_source s) (m_vert_source s)
    (m_frag_dependencies s) (m_vert_dependencies s) (m_buffers_total s)
    (m_buffers_shaders s) (m_canvas_shader s) (m_postprocessing s)
    (m_postprocessing_shader s) (m_scene_fbo s) (m_record_fbo s)
    (m_record_fdelta s) (m_record_start s) (m_record_head s) (m_record_end
    s) (m_record_counter s) (m_record s) (m_histogram s) (m_scene s)
    (m_frame s) (m_change s) (m_initialized s) (saved s).
Definition set_uniforms (x : Uniforms.t) (s : Sandbox) : Sandbox :=
  mkSandbox (frag_index s) (vert_index s) (geom_index s) (fxaa s)
    (include_folders s) (screenshotFile s) x (m_frag_source s)
    (m_vert_source s) (m_frag_dependencies s) (m_vert_dependencies s)
    (m_buffers_total s) (m_buffers_shaders s) (m_canvas_shader s)
    (m_postprocessing s) (m_postprocessing_shader s) (m_scene_fbo s)
    (m_record_fbo s) (m_record_fdelta s) (m_record_start s) (m_record_head
    s) (m_record_end s) (m_record_counter s) (m_record s) (m_histogram s)
    (m_scene s) (m_frame s) (m_change s) (m_initialized s) (saved s).
Definition set_m_frag_source (x : string) (s : Sandbox) : Sandbox :=
  mkSandbox (frag_index s) (vert_index s) (geom_index s) (fxaa s)
    (include_folders s) (screenshotFile s) (uniforms s) x (m_vert_source s)
    (m_frag_dependencies s) (m_vert_dependencies s) (m_buffers_total s)
    (m_buffers_shaders s) (m_canvas_shader s) (m_postprocessing s)
    (m_postprocessing_shader s) (m_scene_fbo s) (m_record_fbo s)
    (m_record_fdelta s) (m_record_start s) (m_record_head s) (m_record_end
    s) (m_record_counter s) (m_record s) (m_histogram s) (m_scene s)
    (m_frame s) (m_change s) (m_initialized s) (saved s).
Definition set_m_vert_source (x : string) (s : Sandbox) : Sandbox :=
  mkSandbox (frag_index s) (vert_index s) (geom_index s) (fxaa s)
    (include_folders s) (screenshotFile s) (uniforms s) (m_frag_source s) x
    (m_frag_dependencies s) (m_vert_dependencies s) (m_buffers_total s)
    (m_buffers_shaders s) (m_canvas_shader s) (m_postprocessing s)
    (m_postprocessing_shader s) (m_scene_fbo s) (m_record_fbo s)
    (m_record_fdelta s) (m_record_start s) (m_record_head s) (m_record_end
    s) (m_record_counter s) (m_record s) (m_histogram s) (m_scene s)
    (m_frame s) (m_change s) (m_initialized s) (saved s).
Definition set_m_frag_dependencies (x : list string) (s : Sandbox) : Sandbox :=
  mkSandbox (frag_index s) (vert_index s) (geom_index s) (fxaa s)
    (include_folders s) (screenshotFile s) (uniforms s) (m_frag_source s)
    (m_vert_source s) x (m_vert_dependencies s) (m_buffers_total s)
    (m_buffers_shaders s) (m_canvas_shader s) (m_postprocessing s)
    (m_postprocessing_shader s) (m_scene_fbo s) (m_record_fbo s)
    (m_record_fdelta s) (m_record_start s) (m_record_head s) (m_record_end
    s) (m_record_counter s) (m_record s) (m_histogram s) (m_scene s)
    (m_frame s) (m_change s) (m_initialized s) (saved s).
Definition set_m_vert_dependencies (x : list string) (s : Sandbox) : Sandbox :=
  mkSandbox (frag_index s) (vert_index s) (geom_index s) (fxaa s)
    (include_folders s) (screenshotFile s) (uniforms s) (m_frag_source s)
    (m_vert_source s) (m_frag_dependencies s) x (m_buffers_total s)
    (m_buffers_shaders s) (m_canvas_shader s) (m_postprocessing s)
    (m_postprocessing_shader s) (m_scene_fbo s) (m_record_fbo s)
    (m_record_fdelta s) (m_record_start s) (m_record_head s) (m_record_end
    s) (m_record_counter s) (m_record s) (m_histogram s) (m_scene s)
    (m_frame s) (m_change s) (m_initialized s) (saved s).
Definition set_m_buffers_total (x : Z) (s : Sandbox) : Sandbox :=
  mkSandbox (frag_index s) (vert_index s) (geom_index s) (fxaa s)
    (include_folders s) (screenshotFile s) (uniforms s) (m_frag_source s)
    (m_vert_source s) (m_frag_dependencies s) (m_vert_dependencies s) x
    (m_buffers_shaders s) (m_canvas_shader s) (m_postprocessing s)
    (m_postprocessing_shader s) (m_scene_fbo s) (m_record_fbo s)
    (m_record_fdelta s) (m_record_start s) (m_record_head s) (m_record_end
    s) (m_record_counter s) (m_record s) (m_histogram s) (m_scene s)
    (m_frame s) (m_change s) (m_initialized s) (saved s).
Definition set_m_buffers_shaders (x : list Gl.Shader) (s : Sandbox) : Sandbox :=
  mkSandbox (frag_index s) (vert_index s) (geom_index s) (fxaa s)
    (include_folders s) (screenshotFile s) (uniforms s) (m_frag_source s)
    (m_vert_source s) (m_frag_dependencies s) (m_vert_dependencies s)
    (m_buffers_total s) x (m_canvas_shader s) (m_postprocessing s)
    (m_postprocessing_shader s) (m_scene_fbo s) (m_record_fbo s)
    (m_record_fdelta s) (m_record_start s) (m_record_head s) (m_record_end
    s) (m_record_counter s) (m_record s) (m_histogram s) (m_scene s)
    (m_frame s) (m_change s) (m_initialized s) (saved s).
Definition set_m_canvas_shader (x : Gl.Shader) (s : Sandbox) : Sandbox :=
  mkSandbox (frag_index s) (vert_index s) (geom_index s) (fxaa s)
    (include_folders s) (screenshotFile s) (uniforms s) (m_frag_source s)
    (m_vert_source s) (m_frag_dependencies s) (m_vert_dependencies s)
    (m_buffers_total s) (m_buffers_shaders s) x (m_postprocessing s)
    (m_postprocessing_shader s) (m_scene_fbo s) (m_record_fbo s)
    (m_record_fdelta s) (m_record_start s) (m_record_head s) (m_record_end
    s) (m_record_counter s) (m_record s) (m_histogram s) (m_scene s)
    (m_frame s) (m_change s) (m_initialized s) (saved s).
Definition set_m_postprocessing (x : bool) (s : Sandbox) : Sandbox :=
  mkSandbox (frag_index s) (vert_index s) (geom_index s) (fxaa s)
    (include_folders s) (screenshotFile s) (uniforms s) (m_frag_source s)
    (m_vert_source s) (m_frag_dependencies s) (m_vert_dependencies s)
    (m_buffers_total s) (m_buffers_shaders s) (m_canvas_shader s) x
    (m_postprocessing_shader s) (m_scene_fbo s) (m_record_fbo s)
    (m_record_fdelta s) (m_record_start s) (m_record_head s) (m_record_end
    s) (m_record_counter s) (m_record s) (m_histogram s) (m_scene s)
    (m_frame s) (m_change s) (m_initialized s) (saved s).
Definition set_m_postprocessing_shader (x : Gl.Shader) (s : Sandbox) : Sandbox :=
  mkSandbox (frag_index s) (vert_index s) (geom_index s) (fxaa s)
    (include_folders s) (screenshotFile s) (uniforms s) (m_frag_source s)
    (m_vert_source s) (m_frag_dependencies s) (m_vert_dependencies s)
    (m_buffers_total s) (m_buffers_shaders s) (m_canvas_shader s)
    (m_postprocessing s) x (m_scene_fbo s) (m_record_fbo s) (m_record_fdelta
    s) (m_record_start s) (m_record_head s) (m_record_end s)
    (m_record_counter s) (m_record s) (m_histogram s) (m_scene s) (m_frame
    s) (m_change s) (m_initialized s) (saved s).
Definition set_m_scene_fbo (x : Gl.Fbo) (s : Sandbox) : Sandbox :=
  mkSandbox (frag_index s) (vert_index s) (geom_index s) (fxaa s)
    (include_folders s) (screenshotFile s) (uniforms s) (m_frag_source s)
    (m_vert_source s) (m_frag_dependencies s) (m_vert_dependencies s)
    (m_buffers_total s) (m_buffers_shaders s) (m_canvas_shader s)
    (m_postprocessing s) (m_postprocessing_shader s) x (m_record_fbo s)
    (m_record_fdelta s) (m_record_start s) (m_record_head s) (m_record_end
    s) (m_record_counter s) (m_record s) (m_histogram s) (m_scene s)
    (m_frame s) (m_change s) (m_initialized s) (saved s).
Definition set_m_record_fbo (x : Gl.Fbo) (s : Sandbox) : Sandbox :=
  mkSandbox (frag_index s) (vert_index s) (geom_index s) (fxaa s)
    (include_folders s) (screenshotFile s) (uniforms s) (m_frag_source s)
    (m_vert_source s) (m_frag_dependencies s) (m_vert_dependencies s)
    (m_buffers_total s) (m_buffers_shaders s) (m_canvas_shader s)
    (m_postprocessing s) (m_postprocessing_shader s) (m_scene_fbo s) x
    (m_record_fdelta s) (m_record_start s) (m_record_head s) (m_record_end
    s) (m_record_counter s) (m_record s) (m_histogram s) (m_scene s)
    (m_frame s) (m_change s) (m_initialized s) (saved s).
Definition set_m_record_fdelta (x : Q) (s : Sandbox) : Sandbox :=
  mkSandbox (frag_index s) (vert_index s) (geom_index s) (fxaa s)
    (include_folders s) (screenshotFile s) (uniforms s) (m_frag_source s)
    (m_vert_source s) (m_frag_dependencies s) (m_vert_dependencies s)
    (m_buffers_total s) (m_buffers_shaders s) (m_canvas_shader s)
    (m_postprocessing s) (m_postprocessing_shader s) (m_scene_fbo s)
    (m_record_fbo s) x (m_record_start s) (m_record_head s) (m_record_end s)
    (m_record_counter s) (m_record s) (m_histogram s) (m_scene s) (m_frame
    s) (m_change s) (m_initialized s) (saved s).
Definition set_m_record_start (x : Q) (s : Sandbox) : Sandbox :=
  mkSandbox (frag_index s) (vert_index s) (geom_index s) (fxaa s)
    (include_folders s) (screenshotFile s) (uniforms s) (m_frag_source s)
    (m_vert_source s) (m_frag_dependencies s) (m_vert_dependencies s)
    (m_buffers_total s) (m_buffers_shaders s) (m_canvas_shader s)
    (m_postprocessing s) (m_postprocessing_shader s) (m_scene_fbo s)
    (m_record_fbo s) (m_record_fdelta s) x (m_record_head s) (m_record_end
    s) (m_record_counter s) (m_record s) (m_histogram s) (m_scene s)
    (m_frame s) (m_change s) (m_initialized s) (saved s).
Definition set_m_record_head (x : Q) (s : Sandbox) : Sandbox :=
  mkSandbox (frag_index s) (vert_index s) (geom_index s) (fxaa s)
    (include_folders s) (screenshotFile s) (uniforms s) (m_frag_source s)
    (m_vert_source s) (m_frag_dependencies s) (m_vert_dependencies s)
    (m_buffers_total s) (m_buffers_shaders s) (m_canvas_shader s)
    (m_postprocessing s) (m_postprocessing_shader s) (m_scene_fbo s)
    (m_record_fbo s) (m_record_fdelta s) (m_record_start s) x (m_record_end
    s) (m_record_counter s) (m_record s) (m_histogram s) (m_scene s)
    (m_frame s) (m_change s) (m_initialized s) (saved s).
Definition set_m_record_end (x : Q) (s : Sandbox) : Sandbox :=
  mkSandbox (frag_index s) (vert_index s) (geom_index s) (fxaa s)
    (include_folders s) (screenshotFile s) (uniforms s) (m_frag_source s)
    (m_vert_source s) (m_frag_dependencies s) (m_vert_dependencies s)
    (m_buffers_total s) (m_buffers_shaders s) (m_canvas_shader s)
    (m_postprocessing s) (m_postprocessing_shader s) (m_scene_fbo s)
    (m_record_fbo s) (m_record_fdelta s) (m_record_start s) (m_record_head
    s) x (m_record_counter s) (m_record s) (m_histogram s) (m_scene s)
    (m_frame s) (m_change s) (m_initialized s) (saved s).
Definition set_m_record_counter (x : nat) (s : Sandbox) : Sandbox :=
  mkSandbox (frag_index s) (vert_index s) (geom_index s) (fxaa s)
    (include_folders s) (screenshotFile s) (uniforms s) (m_frag_source s)
    (m_vert_source s) (m_frag_dependencies s) (m_vert_dependencies s)
    (m_buffers_total s) (m_buffers_shaders s) (m_canvas_shader s)
    (m_postprocessing s) (m_postprocessing_shader s) (m_scene_fbo s)
    (m_record_fbo s) (m_record_fdelta s) (m_record_start s) (m_record_head
    s) (m_record_end s) x (m_record s) (m_histogram s) (m_scene s) (m_frame
    s) (m_change s) (m_initialized s) (saved s).
Definition set_m_record (x : bool) (s : Sandbox) : Sandbox :=
  mkSandbox (frag_index s) (vert_index s) (geom_index s) (fxaa s)
    (include_folders s) (screenshotFile s) (uniforms s) (m_frag_source s)
    (m_vert_source s) (m_frag_dependencies s) (m_vert_dependencies s)
    (m_buffers_total s) (m_buffers_shaders s) (m_canvas_shader s)
    (m_postprocessing s) (m_postprocessing_shader s) (m_scene_fbo s)
    (m_record_fbo s) (m_record_fdelta s) (m_record_start s) (m_record_head
    s) (m_record_end s) (m_record_counter s) x (m_histogram s) (m_scene s)
    (m_frame s) (m_change s) (m_initialized s) (saved s).
Definition set_m_histogram (x : bool) (s : Sandbox) : Sandbox :=
  mkSandbox (frag_index s) (vert_index s) (geom_index s) (fxaa s)
    (include_folders s) (screenshotFile s) (uniforms s) (m_frag_source s)
    (m_vert_source s) (m_frag_dependencies s) (m_vert_dependencies s)
    (m_buffers_total s) (m_buffers_shaders s) (m_canvas_shader s)
    (m_postprocessing s) (m_postprocessing_shader s) (m_scene_fbo s)
    (m_record_fbo s) (m_record_fdelta s) (m_record_start s) (m_record_head
    s) (m_record_end s) (m_record_counter s) (m_record s) x (m_scene s)
    (m_frame s) (m_change s) (m_initialized s) (saved s).
Definition set_m_scene (x : Scene.t) (s : Sandbox) : Sandbox :=
  mkSandbox (frag_index s) (vert_index s) (geom_index s) (fxaa s)
    (include_folders s) (screenshotFile s) (uniforms s) (m_frag_source s)
    (m_vert_source s) (m_frag_dependencies s) (m_vert_dependencies s)
    (m_buffers_total s) (m_buffers_shaders s) (m_canvas_shader s)
    (m_postprocessing s) (m_postprocessing_shader s) (m_scene_fbo s)
    (m_record_fbo s) (m_record_fdelta s) (m_record_start s) (m_record_head
    s) (m_record_end s) (m_record_counter s) (m_record s) (m_histogram s) x
    (m_frame s) (m_change s) (m_initialized s) (saved s).
Definition set_m_frame (x : nat) (s : Sandbox) : Sandbox :=
  mkSandbox (frag_index s) (vert_index s) (geom_index s) (fxaa s)
    (include_folders s) (screenshotFile s) (uniforms s) (m_frag_source s)
    (m_vert_source s) (m_frag_dependencies s) (m_vert_dependencies s)
    (m_buffers_total s) (m_buffers_shaders s) (m_canvas_shader s)
    (m_postprocessing s) (m_postprocessing_shader s) (m_scene_fbo s)
    (m_record_fbo s) (m_record_fdelta s) (m_record_start s) (m_record_head
    s) (m_record_end s) (m_record_counter s) (m_record s) (m_histogram s)
    (m_scene s) x (m_change s) (m_initialized s) (saved s).
Definition set_m_change (x : bool) (s : Sandbox) : Sandbox :=
  mkSandbox (frag_index s) (vert_index s) (geom_index s) (fxaa s)
    (include_folders s) (screenshotFile s) (uniforms s) (m_frag_source s)
    (m_vert_source s) (m_frag_dependencies s) (m_vert_dependencies s)
    (m_buffers_total s) (m_buffers_shaders s) (m_canvas_shader s)
    (m_postprocessing s) (m_postprocessing_shader s) (m_scene_fbo s)
    (m_record_fbo s) (m_record_fdelta s) (m_record_start s) (m_record_head
    s) (m_record_end s) (m_record_counter s) (m_record s) (m_histogram s)
    (m_scene s) (m_frame s) x (m_initialized s) (saved s).
Definition set_m_initialized (x : bool) (s : Sandbox) : Sandbox :=
  mkSandbox (frag_index s) (vert_index s) (geom_index s) (fxaa s)
    (include_folders s) (screenshotFile s) (uniforms s) (m_frag_source s)
    (m_vert_source s) (m_frag_dependencies s) (m_vert_dependencies s)
    (m_buffers_total s) (m_buffers_shaders s) (m_canvas_shader s)
    (m_postprocessing s) (m_postprocessing_shader s) (m_scene_fbo s)
    (m_record_fbo s) (m_record_fdelta s) (m_record_start s) (m_record_head
    s) (m_record_end s) (m_record_counter s) (m_record s) (m_histogram s)
    (m_scene s) (m_frame s) (m_change s) x (saved s).
Definition set_saved (x : list string) (s : Sandbox) : Sandbox :=
  mkSandbox (frag_index s) (vert_index s) (geom_index s) (fxaa s)
    (include_folders s) (screenshotFile s) (uniforms s) (m_frag_source s)
    (m_vert_source s) (m_frag_dependencies s) (m_vert_dependencies s)
    (m_buffers_total s) (m_buffers_shaders s) (m_canvas_shader s)
    (m_postprocessing s) (m_postprocessing_shader s) (m_scene_fbo s)
    (m_record_fbo s) (m_record_fdelta s) (m_record_start s) (m_record_head
    s) (m_record_end s) (m_record_counter s) (m_record s) (m_histogram s)
    (m_scene s) (m_frame s) (m_change s) (m_initialized s) x.

(* ===================================================================== *)
(** ** [Sandbox]: change tracking, defines, reload engine *)
(* ===================================================================== *)

Inductive ShaderType := FRAGMENT | VERTEX.

Definition flagChange (s : Sandbox) : Sandbox := set_m_change true s.

Definition unflagChange (s : Sandbox) : Sandbox :=
  let s := set_m_change false s in
  let s := set_m_scene (Scene.unflagChange (m_scene s)) s in
  set_uniforms (Uniforms.unflagChange (uniforms s)) s.

Definition haveChange (s : Sandbox) : bool :=
  m_change s ||
  m_record s ||
  negb (String.eqb (screenshotFile s) "") ||
  Scene.haveChange (m_scene s) ||
  Uniforms.haveChange (uniforms s).

Definition getSource (ty : ShaderType) (s : Sandbox) : string :=
  match ty with FRAGMENT => m_frag_source s | VERTEX => m_vert_source s end.

(** [for (int i = 0; i < n; i++) v[i] = f(v[i]);] on a vector.  Indexing
    past the end is undefined in C++; the engine keeps [n] equal to the
    length (see [passes_ok]), and entries past the end do not exist here. *)
Definition for_first (n : Z) (f : Gl.Shader -> Gl.Shader)
    (v : list Gl.Shader) : list Gl.Shader :=
  imap (fun i sh => if Z.of_nat i <? n then f sh else sh) v.

Definition addDefine (d v : string) (s : Sandbox) : Sandbox :=
  let s := set_m_buffers_shaders
             (for_first (m_buffers_total s) (Gl.addDefine d v)
                (m_buffers_shaders s)) s in
  let s := if geom_index s =? -1
           then set_m_canvas_shader (Gl.addDefine d v (m_canvas_shader s)) s
           else set_m_scene (Scene.addDefine d v (m_scene s)) s in
  set_m_postprocessing_shader
    (Gl.addDefine d v (m_postprocessing_shader s)) s.

Definition delDefine (d : string) (s : Sandbox) : Sandbox :=
  let s := set_m_buffers_shaders
             (for_first (m_buffers_total s) (Gl.delDefine d)
                (m_buffers_shaders s)) s in
  let s := if geom_index s =? -1
           then set_m_canvas_shader (Gl.delDefine d (m_canvas_shader s)) s
           else set_m_scene (Scene.delDefine d (m_scene s)) s in
  set_m_postprocessing_shader (Gl.delDefine d (m_postprocessing_shader s)) s.

(** [uniforms.functions[name]] evaluated for its entry; the registry keeps
    the entry [operator[]] may have inserted. *)
Definition function_at (name : string) (s : Sandbox)
  : Sandbox * Uniforms.UniformFunction :=
  let '(fs, f) := Uniforms.at_ name (Uniforms.functions (uniforms s)) in
  (set_uniforms (Uniforms.set_functions fs (uniforms s)) s, f).

Definition set_function (name : string) (f : Uniforms.UniformFunction)
    (s : Sandbox) : Sandbox :=
  set_uniforms
    (Uniforms.set_functions
       (<[name := f]> (Uniforms.functions (uniforms s))) (uniforms s)) s.

(** The removal loop of [reloadShaders]:
    [for (int i = n - 1; i >= 0; i--) if (files[i].type == GLSL_DEPENDENCY)
       files.erase(files.begin() + i);] *)
Fixpoint erase_dependencies (n : nat) (files : WatchFileList) : WatchFileList :=
  match n with
  | O => files
  | S i =>
      erase_dependencies i
        match files !! i with
        | Some f => if is_dependency f then delete i files else files
        | None => files
        end
  end.

(** The insertion loop of [reloadShaders]: one freshly statted entry per
    path, pushed at the back; [st] is the [struct stat] local. *)
Fixpoint push_dependencies (E : Env) (deps : list string) (st : Z)
    (files : WatchFileList) : WatchFileList :=
  match deps with
  | [] => files
  | p :: rest =>
      let st := stat_mtime E p st in
      push_dependencies E rest st
        (files ++ [mkWatchFile GLSL_DEPENDENCY p st (uninit_vFlip E)])%list
  end.

(** The block "UPDATE shaders dependencies" of [reloadShaders]. *)
Definition replaceDependencies (E : Env) (new_dependencies : list string)
    (files : WatchFileList) : WatchFileList :=
  push_dependencies E new_dependencies (uninit_mtime E)
    (erase_dependencies (length files) files).

Definition buffer_define (i : nat) : string := "BUFFER_" +:+ Text.toString i.

(** One turn of the allocation loop of [_updateBuffers]. *)
Definition push_pass (E : Env) (s : Sandbox) (i : nat) : Sandbox :=
  (* New FBO *)
  let bs := (Uniforms.buffers (uniforms s) ++ [Gl.Fbo_new])%list in
  let bs := alter (Gl.allocate (getWindowWidth E) (getWindowHeight E)
                     Gl.COLOR_TEXTURE) i bs in
  let s := set_uniforms (Uniforms.set_buffers bs (uniforms s)) s in
  (* New Shader *)
  let shs := (m_buffers_shaders s ++ [Gl.Shader_new])%list in
  let shs := alter (Gl.addDefine (buffer_define i) "") i shs in
  let shs := alter (Gl.load (m_frag_source s) (billboard_vert E)) i shs in
  set_m_buffers_shaders shs s.

Definition _updateBuffers (E : Env) (s : Sandbox) : Sandbox :=
  if negb (m_buffers_total s
           =? Z.of_nat (length (Uniforms.buffers (uniforms s))))
  then
    let s := set_uniforms (Uniforms.set_buffers [] (uniforms s)) s in
    let s := set_m_buffers_shaders [] s in
    fold_left (push_pass E) (seq 0 (Z.to_nat (m_buffers_total s))) s
  else
    set_m_buffers_shaders
      (imap (fun i sh =>
               (* Reload shader code *)
               Gl.load (m_frag_source s) (billboard_vert E)
                 (Gl.addDefine (buffer_define i) "" sh))
         (m_buffers_shaders s)) s.

Definition scene_fbo_type (f : Uniforms.UniformFunction) : Gl.FboType :=
  if Uniforms.present f
  then Gl.COLOR_DEPTH_TEXTURES else Gl.COLOR_TEXTURE_DEPTH_BUFFER.

Definition reloadShaders (E : Env) (files : WatchFileList) (s : Sandbox)
  : Sandbox * WatchFileList :=
  let s := flagChange s in
  (* UPDATE scene shaders of models (materials) *)
  let s :=
    if geom_index s =? -1
    then set_m_canvas_shader
           (Gl.load (m_frag_source s) (m_vert_source s)
              (Gl.detach (m_canvas_shader s))) s
    else set_m_scene
           (Scene.loadShaders (m_frag_source s) (m_vert_source s)
              (m_scene s)) s in
  (* UPDATE shaders dependencies *)
  let new_dependencies :=
    merge E (m_frag_dependencies s) (m_vert_dependencies s) in
  let files := replaceDependencies E new_dependencies files in
  (* UPDATE uniforms *)
  let s := set_uniforms
             (Uniforms.flagChange
                (Uniforms.checkPresenceIn (m_vert_source s) (m_frag_source s)
                   (uniforms s))) s in
  let s := if Uniforms.cubemap (uniforms s)
           then addDefine "SCENE_CUBEMAP" "u_cubeMap"
                  (addDefine "SCENE_SH_ARRAY" "u_SH" s)
           else s in
  (* UPDATE Buffers *)
  let s := set_m_buffers_total
             (Z.of_nat (count_buffers E (m_frag_source s))) s in
  let s := _updateBuffers E s in
  (* UPDATE Postprocessing *)
  let havePostprocessing :=
    check_for_postprocessing E (getSource FRAGMENT s) in
  let s :=
    if havePostprocessing then
      let s := set_m_postprocessing_shader
                 (Gl.load (m_frag_source s) (billboard_vert E)
                    (Gl.addDefine "POSTPROCESSING" ""
                       (m_postprocessing_shader s))) s in
      set_m_postprocessing havePostprocessing s
    else if fxaa s then
      let s := set_m_postprocessing_shader
                 (Gl.load (fxaa_frag E) (billboard_vert E)
                    (m_postprocessing_shader s)) s in
      let '(s, f) := function_at "u_scene" s in
      let s := set_function "u_scene" (Uniforms.set_present true f) s in
      set_m_postprocessing true s
    else set_m_postprocessing false s in
  let s :=
    if m_postprocessing s || m_histogram s then
      let '(s, f) := function_at "u_sceneDepth" s in
      let type := scene_fbo_type f in
      if negb (Gl.isAllocated (m_scene_fbo s))
         || negb (Gl.FboType_eqb (Gl.getType (m_scene_fbo s)) type)
      then set_m_scene_fbo
             (Gl.allocate (getWindowWidth E) (getWindowHeight E) type
                (m_scene_fbo s)) s
      else s
    else s in
  (s, files).


(** [_files[index]] for an [int] index; [None] where C++ is undefined. *)
Definition file_at (files : WatchFileList) (index : Z) : option WatchFile :=
  if index <? 0 then None else files !! Z.to_nat index.

Definition path_at (files : WatchFileList) (index : Z) : string :=
  match file_at files index with Some f => path f | None => "" end.

Definition mem_string (x : string) (l : list string) : bool :=
  existsb (String.eqb x) l.

(** The first block of [onFileChange]: "IF the change is on a dependency
    file, re route to the correct shader that need to be reload". *)
Definition reroute (files : WatchFileList) (s : Sandbox) (file : WatchFile)
  : FileType * string :=
  let ty := type file in
  let filename := path file in
  if FileType_eqb ty GLSL_DEPENDENCY then
    if mem_string filename (m_frag_dependencies s)
    then (FRAG_SHADER, path_at files (frag_index s))
    else if mem_string filename (m_vert_dependencies s)
    then (VERT_SHADER, path_at files (vert_index s))
    else (ty, filename)
  else (ty, filename).

(** [Sandbox::onFileChange].  Reloading an image or a cubemap acts on
    texture objects only, which are not part of this model; an index outside
    the registry (undefined in C++) leaves everything as it is. *)
Definition onFileChange (E : Env) (files : WatchFileList) (index : Z)
    (s : Sandbox) : Sandbox * WatchFileList :=
  match file_at files index with
  | None => (s, files)
  | Some file =>
      let '(ty, filename) := reroute files s file in
      let '(s, files) :=
        match ty with
        | FRAG_SHADER =>
            let s := set_m_frag_source "" s in
            let s := set_m_frag_dependencies [] s in
            let '(ok, into, deps) :=
              loadFromPath E filename (include_folders s)
                (m_frag_source s) (m_frag_dependencies s) in
            let s := set_m_frag_dependencies deps (set_m_frag_source into s) in
            if ok then reloadShaders E files s else (s, files)
        | VERT_SHADER =>
            let s := set_m_vert_source "" s in
            let s := set_m_vert_dependencies [] s in
            let '(ok, into, deps) :=
              loadFromPath E filename (include_folders s)
                (m_vert_source s) (m_vert_dependencies s) in
            let s := set_m_vert_dependencies deps (set_m_vert_source into s) in
            if ok then reloadShaders E files s else (s, files)
        | _ => (s, files)
        end in
      (flagChange s, files)
  end.

(* ===================================================================== *)
(** ** [Sandbox]: drawing one frame *)
(* ===================================================================== *)

Definition pending_output (s : Sandbox) : bool :=
  negb (String.eqb (screenshotFile s) "") || m_record s.

(** [Sandbox::render], as far as it changes the engine's state: the lazy
    allocation of the record and scene framebuffers (the draw calls
    themselves leave the members of [Sandbox] alone). *)
Definition render (E : Env) (s : Sandbox) : Sandbox :=
  let s := if negb (geom_index s =? -1)
           then fst (function_at "u_lightShadowMap" s) else s in
  let s :=
    if pending_output s && negb (Gl.isAllocated (m_record_fbo s))
    then set_m_record_fbo
           (Gl.allocate (getWindowWidth E) (getWindowHeight E)
              Gl.COLOR_TEXTURE_DEPTH_BUFFER (m_record_fbo s)) s
    else s in
  if m_postprocessing s || m_histogram s then
    if negb (Gl.isAllocated (m_scene_fbo s)) then
      let '(s, f) := function_at "u_sceneDepth" s in
      set_m_scene_fbo
        (Gl.allocate (getWindowWidth E) (getWindowHeight E)
           (scene_fbo_type f) (m_scene_fbo s)) s
    else s
  else s.

(** [Sandbox::onScreenshot]: the frame is written when the name is not empty
    and the window is open. *)
Definition onScreenshot (isGL : bool) (file : string) (s : Sandbox) : Sandbox :=
  if negb (String.eqb file "") && isGL
  then set_saved (file :: saved s) s else s.

Fixpoint zeros (n : nat) : string :=
  match n with O => "" | S n => "0" +:+ zeros n end.

(** [toString(m_record_counter, 0, 5, '0') + ".png"]. *)
Definition frame_file (counter : nat) : string :=
  let digits := Text.toString counter in
  zeros (5 - String.length digits) +:+ digits +:+ ".png".

(** [Sandbox::renderDone]; the histogram it may refresh is a texture and is
    not part of this model. *)
Definition renderDone (isGL : bool) (s : Sandbox) : Sandbox :=
  let s :=
    (* RECORD *)
    if m_record s then
      let s := onScreenshot isGL (frame_file (m_record_counter s)) s in
      let s := set_m_record_head (m_record_head s + m_record_fdelta s)%Q s in
      let s := set_m_record_counter (S (m_record_counter s)) s in
      if Qle_bool (m_record_end s) (m_record_head s)
      then set_m_record false s else s
    (* SCREENSHOT *)
    else if negb (String.eqb (screenshotFile s) "") then
      let s := onScreenshot isGL (screenshotFile s) s in
      set_screenshotFile "" s
    else s in
  let s := set_m_frame (S (m_frame s)) s in
  let s := unflagChange s in
  if negb (m_initialized s)
  then flagChange (set_m_initialized true s)
  else s.

(** [Sandbox::record]. *)
Definition record (start end_ fps : Q) (s : Sandbox) : Sandbox :=
  let s := set_m_record_fdelta (1 / fps)%Q s in
  let s := set_m_record_start start s in
  let s := set_m_record_head start s in
  let s := set_m_record_end end_ s in
  let s := set_m_record_counter O s in
  set_m_record true s.

(* ===================================================================== *)
(** ** The program's globals and the render loop of [main] *)
(* ===================================================================== *)

(** [Sandbox::onViewportResize]; the camera it also resizes is outside the
    model. *)
Definition onViewportResize (newWidth newHeight : Z) (s : Sandbox) : Sandbox :=
  let s := set_uniforms
             (Uniforms.set_buffers
                (Gl.allocate newWidth newHeight Gl.COLOR_TEXTURE
                   <$> Uniforms.buffers (uniforms s)) (uniforms s)) s in
  let s :=
    if m_postprocessing s || m_histogram s then
      let '(s, f) := function_at "u_sceneDepth" s in
      set_m_scene_fbo
        (Gl.allocate newWidth newHeight (scene_fbo_type f) (m_scene_fbo s)) s
    else s in
  let s :=
    if m_record s || negb (String.eqb (screenshotFile s) "") then
      set_m_record_fbo
        (Gl.allocate newWidth newHeight Gl.COLOR_TEXTURE_DEPTH_BUFFER
           (m_record_fbo s)) s
    else s in
  flagChange s.

(** The global variables of the main file that the threads share. *)
Record World := mkWorld {
  bRun : bool;
  files : WatchFileList;
  fileChanged : Z;
  outputFile : string;
  fullFps : bool;
  timeOut : bool;
  sandbox : Sandbox
}.

Definition set_bRun (x : bool) (w : World) : World :=
  mkWorld x (files w) (fileChanged w) (outputFile w) (fullFps w) (timeOut w)
    (sandbox w).
Definition set_files (x : WatchFileList) (w : World) : World :=
  mkWorld (bRun w) x (fileChanged w) (outputFile w) (fullFps w) (timeOut w)
    (sandbox w).
Definition set_fileChanged (x : Z) (w : World) : World :=
  mkWorld (bRun w) (files w) x (outputFile w) (fullFps w) (timeOut w)
    (sandbox w).
Definition set_fullFps (x : bool) (w : World) : World :=
  mkWorld (bRun w) (files w) (fileChanged w) (outputFile w) x (timeOut w)
    (sandbox w).
Definition set_timeOut (x : bool) (w : World) : World :=
  mkWorld (bRun w) (files w) (fileChanged w) (outputFile w) (fullFps w) x
    (sandbox w).
Definition set_sandbox (x : Sandbox) (w : World) : World :=
  mkWorld (bRun w) (files w) (fileChanged w) (outputFile w) (fullFps w)
    (timeOut w) x.

(** What one turn of the render loop reads from outside: whether the window
    is still open ([isGL()]), whether the time limit has been reached
    ([timeLimit >= 0.0 && getTime() >= timeLimit]), and the collaborators. *)
Record FrameInput := mkFrameInput {
  isGL : bool;
  limit_reached : bool;
  env : Env
}.

Inductive FrameResult := LoopExit | Skipped | Rendered.

(** The consume step of the render loop:
    [if (fileChanged != -1) { lock; sandbox.onFileChange(files, fileChanged);
       fileChanged = -1; unlock; }] *)
Definition consume_change (E : Env) (w : World) : World :=
  if negb (fileChanged w =? -1) then
    let '(s, fl) := onFileChange E (files w) (fileChanged w) (sandbox w) in
    set_fileChanged (-1) (set_files fl (set_sandbox s w))
  else w.

(** The decision "skip the frame and try to keep it at 60fps". *)
Definition skip_frame (w : World) : bool :=
  negb (timeOut w) && negb (fullFps w) && negb (haveChange (sandbox w)).

(** One turn of [while (isGL() && bRun.load()) { ... }].  The window events
    [updateGL()] delivers (key presses, resizes) are not among the inputs of
    a turn; [renderUI] draws the debug overlay and the cursor, which the
    model leaves out. *)
Definition loop_body (i : FrameInput) (w : World) : World * FrameResult :=
  if negb (isGL i && bRun w) then (w, LoopExit)
  else
    (* Calculate if timeout required *)
    let w := if limit_reached i
             then set_sandbox
                    (set_screenshotFile (outputFile w) (sandbox w))
                    (set_timeOut true w)
             else w in
    (* Something change?? *)
    let w := consume_change (env i) w in
    if skip_frame w then (w, Skipped)
    else
      let s := render (env i) (sandbox w) in
      let s := renderDone (isGL i) s in
      let w := set_sandbox s w in
      if timeOut w && String.eqb (screenshotFile (sandbox w)) ""
      then (set_bRun false w, Rendered)
      else (w, Rendered).

(** The loop over the turns the inputs allow; the result carries the number
    of frames that were drawn. *)
Fixpoint render_loop (inputs : list FrameInput) (w : World) (drawn : nat)
  : World * nat :=
  match inputs with
  | [] => (w, drawn)
  | i :: rest =>
      match loop_body i w with
      | (w, LoopExit) => (w, drawn)
      | (w, Skipped) => render_loop rest w drawn
      | (w, Rendered) => render_loop rest w (S drawn)
      end
  end.

(* ===================================================================== *)
(** ** [fileWatcherThread] *)
(* ===================================================================== *)




(* ===================================================================== *)
(** ** Commands ([declareCommands], [Sandbox::setup]) and [runCmd] *)
(* ===================================================================== *)

(** [Command(begins_with, exec, description, mutex)]. *)
Record Command := mkCommand {
  begins_with : string;
  exec : string -> World -> World * bool;
  description : string;
  mutex : bool
}.

Definition values_of (line : string) : list string :=
  Text.split line Text.comma false.

Definition on_sandbox (f : Sandbox -> Sandbox) (w : World) : World :=
  set_sandbox (f (sandbox w)) w.

(** A command that prints something when the line is exactly its name, and
    does nothing else (the output stream is not part of the model). *)
Definition prints (name : string) (line : string) (w : World) : World * bool :=
  (w, String.eqb line name).

(** A command all of whose branches end in [return true]. *)
Definition always_handled (line : string) (w : World) : World * bool :=
  (w, true).

Definition is_on (v : string) : bool := String.eqb v "on".

Fixpoint index_of_path (p : string) (fl : WatchFileList) (i : nat)
  : option nat :=
  match fl with
  | [] => None
  | f :: rest =>
      if String.eqb (path f) p then Some i else index_of_path p rest (S i)
  end.

(** [filesMutex.lock(); fileChanged = i; filesMutex.unlock();] *)
Definition publish (w : World) (i : nat) : World :=
  set_fileChanged (Z.of_nat i) w.

(** The publishing loop of "reload": one turn per registry entry (the sleep
    between two turns only waits). *)
Definition publish_all (n : nat) (w : World) : World :=
  fold_left publish (seq 0 n) w.

Definition cmd_reload (line : string) (w : World) : World * bool :=
  if String.eqb line "reload" || String.eqb line "reload,all" then
    let w := set_fullFps true w in
    let w := publish_all (length (files w)) w in
    let w := set_fullFps false w in
    (w, true)
  else
    let values := values_of line in
    if (length values =? 2)%nat && String.eqb (Text.at_ values 0) "reload" then
      match index_of_path (Text.at_ values 1) (files w) 0 with
      | Some i => (publish w i, true)
      | None => (w, false)
      end
    else (w, false).

(** "frag" and "vert": print the source, print some of its lines, or write
    it to a file; only the returned flag concerns the model. *)
Definition cmd_source (name : string) (line : string) (w : World)
  : World * bool :=
  if String.eqb line name then (w, true)
  else (w, (length (values_of line) =? 2)%nat).

Definition cmd_dependencies (line : string) (w : World) : World * bool :=
  (w, String.eqb line "dependencies"
      || String.eqb line "dependencies,frag"
      || String.eqb line "dependencies,vert").

Definition cmd_update (line : string) (w : World) : World * bool :=
  if String.eqb line "update" then (on_sandbox flagChange w, false)
  else (w, false).

Definition cmd_wait (line : string) (w : World) : World * bool := (w, false).

Definition cmd_fullFps (line : string) (w : World) : World * bool :=
  if String.eqb line "fullFps" then (w, true)
  else
    let values := values_of line in
    if (length values =? 2)%nat
    then (set_fullFps (is_on (Text.at_ values 1)) w, false)
    else (w, false).

(** "cursor" toggles the mouse cross, which the model does not draw. *)
Definition cmd_cursor (line : string) (w : World) : World * bool :=
  (w, String.eqb line "cursor").

Definition cmd_screenshot (line : string) (w : World) : World * bool :=
  if String.eqb line "screenshot" && negb (String.eqb (outputFile w) "") then
    (on_sandbox (set_screenshotFile (outputFile w)) w, true)
  else
    let values := values_of line in
    if (length values =? 2)%nat
    then (on_sandbox (set_screenshotFile (Text.at_ values 1)) w, true)
    else (w, false).

(** "sequence" starts a recording and then polls until the render thread
    has carried it to 100%; the model keeps the start of the recording. *)
Definition cmd_sequence (line : string) (w : World) : World * bool :=
  let values := values_of line in
  if (3 <=? length values)%nat then
    let from := Text.toFloat (Text.at_ values 1) in
    let to := Text.toFloat (Text.at_ values 2) in
    let fps := if (length values =? 4)%nat
               then Text.toFloat (Text.at_ values 3) else 24%Q in
    let from := if Qle_bool to from then 0%Q else from in
    (on_sandbox (record from to fps) w, true)
  else (w, false).

Definition cmd_q (line : string) (w : World) : World * bool :=
  if String.eqb line "q" then (set_bRun false w, true) else (w, false).

Definition cmd_quit (line : string) (w : World) : World * bool :=
  if String.eqb line "quit" then (set_timeOut true w, true) else (w, false).

Definition cmd_exit (line : string) (w : World) : World * bool :=
  if String.eqb line "exit" then (set_timeOut true w, true) else (w, false).

(** The commands of [declareCommands], in the order of their [push_back]. *)
Definition declareCommands : list Command := [
  mkCommand "help" (prints "help")
    "help[,<command>]               print help for one or all command" false;
  mkCommand "version" (prints "version")
    "version                        return glslViewer version." false;
  mkCommand "window_width" (prints "window_width")
    "window_width                   return the width of the windows." false;
  mkCommand "window_height" (prints "window_height")
    "window_height                  return the height of the windows." false;
  mkCommand "pixel_density" (prints "pixel_density")
    "pixel_density                  return the pixel density." false;
  mkCommand "screen_size" (prints "screen_size")
    "screen_size                    return the screen size." false;
  mkCommand "viewport" (prints "viewport")
    "viewport                       return the viewport size." false;
  mkCommand "mouse" (prints "mouse")
    "mouse                          return the mouse position." false;
  mkCommand "fps" (prints "fps")
    "fps                            return u_fps, the number of frames per second." false;
  mkCommand "delta" (prints "delta")
    "delta                          return u_delta, the secs between frames." false;
  mkCommand "time" (prints "time")
    "time                           return u_time, the elapsed time." false;
  mkCommand "date" (prints "date")
    "date                           return u_date as YYYY, M, D and Secs." false;
  mkCommand "files" (prints "files")
    "files                          return a list of files." false;
  mkCommand "reload" cmd_reload
    "reload[,<filename>]            reload one or all files" false;
  mkCommand "frag" (cmd_source "frag")
    "frag[,<filename>]              returns or save the fragment shader source code." false;
  mkCommand "vert" (cmd_source "vert")
    "vert[,<filename>]              returns or save the vertex shader source code." false;
  mkCommand "dependencies" cmd_dependencies
    "dependencies[,vert|frag]       returns all the dependencies of the vertex o fragment shader or both." false;
  mkCommand "update" cmd_update
    "update                         force all uniforms to be updated" false;
  mkCommand "wait" cmd_wait
    "wait,<seconds>                 wait for X <seconds> before excecuting another command." true;
  mkCommand "fullFps" cmd_fullFps
    "fullFps[,on|off]               go to full FPS or not" false;
  mkCommand "cursor" cmd_cursor
    "cursor[,on|off]                show/hide cursor" false;
  mkCommand "screenshot" cmd_screenshot
    "screenshot[,<filename>]        saves a screenshot to a filename." false;
  mkCommand "sequence" cmd_sequence
    "sequence,<A_sec>,<B_sec>[,fps] saves a sequence of images from A to B second." false;
  mkCommand "q" cmd_q
    "q                              close glslViewer" false;
  mkCommand "quit" cmd_quit
    "quit                           close glslViewer" false;
  mkCommand "exit" cmd_exit
    "exit                           close glslViewer" false
].

Definition cmd_debug (line : string) (w : World) : World * bool :=
  if String.eqb line "debug" then (w, true)
  else
    let values := values_of line in
    if (length values =? 2)%nat then
      let v := Text.at_ values 1 in
      let w := on_sandbox (set_m_histogram (is_on v)) w in
      if negb (geom_index (sandbox w) =? -1) then
        (on_sandbox (fun s =>
           set_m_scene
             (if is_on v then Scene.addDefine "DEBUG" v (m_scene s)
              else Scene.delDefine "DEBUG" (m_scene s)) s) w, false)
      else (w, false)
    else (w, false).

Definition cmd_histogram (line : string) (w : World) : World * bool :=
  if String.eqb line "histogram" then (w, true)
  else
    let values := values_of line in
    if (length values =? 2)%nat
    then (on_sandbox (set_m_histogram (is_on (Text.at_ values 1))) w, false)
    else (w, false).

Definition cmd_define (line : string) (w : World) : World * bool :=
  let values := values_of line in
  if (length values =? 2)%nat then
    let v := Text.split (Text.at_ values 1) Text.space false in
    (on_sandbox (addDefine (Text.at_ v 0) (Text.at_ v 1)) w, true)
  else if (length values =? 3)%nat then
    (on_sandbox (addDefine (Text.at_ values 1) (Text.at_ values 2)) w, true)
  else (w, false).

Definition cmd_undefine (line : string) (w : World) : World * bool :=
  let values := values_of line in
  if (length values =? 2)%nat
  then (on_sandbox (delDefine (Text.at_ values 1)) w, true)
  else (w, false).

(** The commands [Sandbox::setup] adds behind those of [declareCommands]
    (lights and camera are outside the model: those handlers only keep their
    returned flag). *)
Definition setup_commands : list Command := [
  mkCommand "debug" cmd_debug
    "debug[,on|off]                 show/hide passes and textures elements" false;
  mkCommand "histogram" cmd_histogram
    "histogram[,on|off]             show/hide histogram" false;
  mkCommand "defines" (prints "defines")
    "defines                        return a list of active defines" false;
  mkCommand "define," cmd_define
    "define,<KEYWORD>               add a define to the shader" false;
  mkCommand "undefine," cmd_undefine
    "undefine,<KEYWORD>             remove a define on the shader" false;
  mkCommand "uniforms" always_handled
    "uniforms[,all|active]          return a list of all or active uniforms and their values." false;
  mkCommand "textures" (prints "textures")
    "textures                       return a list of textures as their uniform name and path." false;
  mkCommand "buffers" (prints "buffers")
    "buffers                        return a list of buffers as their uniform name." false;
  mkCommand "lights" (prints "lights")
    "lights                         get all light data." true;
  mkCommand "light_position" always_handled
    "light_position[,<x>,<y>,<z>]   get or set the light position." true;
  mkCommand "light_color" always_handled
    "light_color[,<r>,<g>,<b>]      get or set the light color." true;
  mkCommand "light_falloff" always_handled
    "light_falloff[,<value>]        get or set the light falloff distance." true;
  mkCommand "light_intensity" always_handled
    "light_intensity[,<value>]      get or set the light intensity." true;
  mkCommand "camera_distance" always_handled
    "camera_distance[,<dist>]       get or set the camera distance to the target." true;
  mkCommand "camera_fov" always_handled
    "camera_fov[,<field_of_view>]   get or set the camera field of view." true;
  mkCommand "camera_position" always_handled
    "camera_position[,<x>,<y>,<z>]  get or set the camera position." true;
  mkCommand "camera_exposure" always_handled
    "camera_exposure[,<aper.>,<shutter>,<sensit.>]  get or set the camera exposure values." true
].

(** The global [commands] once [main] has called [declareCommands()] and
    [sandbox.setup(files, commands)]. *)
Definition commands : list Command := (declareCommands ++ setup_commands)%list.

(** The search loop of [runCmd]; the flag is the local [resolve]. *)
Fixpoint runCmd_search (cmds : list Command) (cmd : string) (resolve : bool)
    (w : World) : World * bool :=
  match cmds with
  | [] => (w, resolve)
  | c :: rest =>
      if Text.beginsWith cmd (begins_with c) then
        (* Execute de command *)
        let '(w, resolve) := exec c cmd w in
        (* If got resolved stop searching *)
        if resolve then (w, resolve) else runCmd_search rest cmd resolve w
      else runCmd_search rest cmd resolve w
  end.

Definition parse_uniform (cmd : string) (w : World) : World :=
  on_sandbox (fun s => set_uniforms (Uniforms.parseLine cmd (uniforms s)) s) w.

(** [runCmd(_cmd, _mutex)] over a command list: what the calling thread
    does, the locks it takes around each step apart. *)
Definition runCmd_with (cmds : list Command) (cmd : string) (w : World)
  : World :=
  let '(w, resolve) := runCmd_search cmds cmd false w in
  (* If nothing match maybe the user is trying to define the content of a
     uniform *)
  if negb resolve then parse_uniform cmd w else w.

Definition runCmd (cmd : string) (w : World) : World :=
  runCmd_with commands cmd w.

(* ===================================================================== *)
(** ** [Sandbox::Sandbox()] *)
(* ===================================================================== *)

(** The uniform functions the constructor registers (the desktop build;
    the Raspberry Pi build leaves out the two depth samplers). *)
Definition constructor_functions : gmap string Uniforms.UniformFunction :=
  <["u_modelViewProjectionMatrix" := Uniforms.mkFunction "mat4" false]>
  (<["u_view2d" := Uniforms.mkFunction "mat3" false]>
  (<["u_lightShadowMap" := Uniforms.mkFunction "sampler2D" false]>
  (<["u_sceneDepth" := Uniforms.mkFunction "sampler2D" false]>
  (<["u_scene" := Uniforms.mkFunction "sampler2D" false]>
  (<["u_resolution" := Uniforms.mkFunction "vec2" false]>
  (<["u_mouse" := Uniforms.mkFunction "vec2" false]>
  (<["u_date" := Uniforms.mkFunction "vec4" false]>
  (<["u_delta" := Uniforms.mkFunction "float" false]>
  (<["u_time" := Uniforms.mkFunction "float" false]> ∅))))))))).

(** The member initialisers of the constructor. *)
Definition Sandbox_new : Sandbox := {|
  frag_index := -1; vert_index := -1; geom_index := -1;
  fxaa := false;
  include_folders := [];
  screenshotFile := "";
  uniforms := Uniforms.mk constructor_functions ∅ [] false false;
  m_frag_source := ""; m_vert_source := "";
  m_frag_dependencies := []; m_vert_dependencies := [];
  m_buffers_total := 0;
  m_buffers_shaders := [];
  m_canvas_shader := Gl.Shader_new;
  m_postprocessing := false;
  m_postprocessing_shader := Gl.Shader_new;
  m_scene_fbo := Gl.Fbo_new;
  m_record_fbo := Gl.Fbo_new;
  m_record_fdelta := (4166666667 # 100000000000)%Q;
  m_record_start := 0%Q; m_record_head := 0%Q; m_record_end := 0%Q;
  m_record_counter := O;
  m_record := false;
  m_histogram := false;
  m_scene := Scene.empty;
  m_frame := O;
  m_change := true;
  m_initialized := false;
  saved := []
|}.

(* ===================================================================== *)
(** ** [main]: the loop that loads the resources, and the start-up commands *)
(* ===================================================================== *)

Definition set_frag_index (x : Z) (s : Sandbox) : Sandbox :=
  mkSandbox x (vert_index s) (geom_index s) (fxaa s)
    (include_folders s) (screenshotFile s) (uniforms s) (m_frag_source s)
    (m_vert_source s) (m_frag_dependencies s) (m_vert_dependencies s)
    (m_buffers_total s) (m_buffers_shaders s) (m_canvas_shader s)
    (m_postprocessing s) (m_postprocessing_shader s) (m_scene_fbo s)
    (m_record_fbo s) (m_record_fdelta s) (m_record_start s) (m_record_head s)
    (m_record_end s) (m_record_counter s) (m_record s) (m_histogram s)
    (m_scene s) (m_frame s) (m_change s) (m_initialized s) (saved s).
Definition set_vert_index (x : Z) (s : Sandbox) : Sandbox :=
  mkSandbox (frag_index s) x (geom_index s) (fxaa s)
    (include_folders s) (screenshotFile s) (uniforms s) (m_frag_source s)
    (m_vert_source s) (m_frag_dependencies s) (m_vert_dependencies s)
    (m_buffers_total s) (m_buffers_shaders s) (m_canvas_shader s)
    (m_postprocessing s) (m_postprocessing_shader s) (m_scene_fbo s)
    (m_record_fbo s) (m_record_fdelta s) (m_record_start s) (m_record_head s)
    (m_record_end s) (m_record_counter s) (m_record s) (m_histogram s)
    (m_scene s) (m_frame s) (m_change s) (m_initialized s) (saved s).
Definition set_geom_index (x : Z) (s : Sandbox) : Sandbox :=
  mkSandbox (frag_index s) (vert_index s) x (fxaa s)
    (include_folders s) (screenshotFile s) (uniforms s) (m_frag_source s)
    (m_vert_source s) (m_frag_dependencies s) (m_vert_dependencies s)
    (m_buffers_total s) (m_buffers_shaders s) (m_canvas_shader s)
    (m_postprocessing s) (m_postprocessing_shader s) (m_scene_fbo s)
    (m_record_fbo s) (m_record_fdelta s) (m_record_start s) (m_record_head s)
    (m_record_end s) (m_record_counter s) (m_record s) (m_histogram s)
    (m_scene s) (m_frame s) (m_change s) (m_initialized s) (saved s).
Definition set_fxaa (x : bool) (s : Sandbox) : Sandbox :=
  mkSandbox (frag_index s) (vert_index s) (geom_index s) x
    (include_folders s) (screenshotFile s) (uniforms s) (m_frag_source s)
    (m_vert_source s) (m_frag_dependencies s) (m_vert_dependencies s)
    (m_buffers_total s) (m_buffers_shaders s) (m_canvas_shader s)
    (m_postprocessing s) (m_postprocessing_shader s) (m_scene_fbo s)
    (m_record_fbo s) (m_record_fdelta s) (m_record_start s) (m_record_head s)
    (m_record_end s) (m_record_counter s) (m_record s) (m_histogram s)
    (m_scene s) (m_frame s) (m_change s) (m_initialized s) (saved s).
Definition set_include_folders (x : list string) (s : Sandbox) : Sandbox :=
  mkSandbox (frag_index s) (vert_index s) (geom_index s) (fxaa s)
    x (screenshotFile s) (uniforms s) (m_frag_source s)
    (m_vert_source s) (m_frag_dependencies s) (m_vert_dependencies s)
    (m_buffers_total s) (m_buffers_shaders s) (m_canvas_shader s)
    (m_postprocessing s) (m_postprocessing_shader s) (m_scene_fbo s)
    (m_record_fbo s) (m_record_fdelta s) (m_record_start s) (m_record_head s)
    (m_record_end s) (m_record_counter s) (m_record s) (m_histogram s)
    (m_scene s) (m_frame s) (m_change s) (m_initialized s) (saved s).
Definition set_outputFile (x : string) (w : World) : World :=
  mkWorld (bRun w) (files w) (fileChanged w) x (fullFps w) (timeOut w)
    (sandbox w).

Module Main.

(** What the loop calls besides [stat]: [haveExt] of [io/fs.h] and the two
    loaders of the uniform registry, which take the watch registry by
    reference.  A loader returns the registry and the uniforms as it leaves
    them; [addTexture] also returns its flag. *)
Record Loaders := mkLoaders {
  haveExt : string -> string -> bool;
  addTexture : string -> string -> WatchFileList -> bool -> Uniforms.t
               -> bool * (Uniforms.t * WatchFileList);
  setCubeMap : string -> WatchFileList -> Uniforms.t
               -> Uniforms.t * WatchFileList
}.

(** The globals the loop writes, and its locals [st], [timeLimit],
    [textureCounter] and [vFlip].  The switches [verbose], [cursor] and
    [showCubebox] it also sets are outside the model. *)
Record Startup := mkStartup {
  world : World;
  cmds_arguments : list string;
  execute_exit : bool;
  st : Z;
  timeLimit : Q;
  textureCounter : nat;
  vFlip : bool
}.

Definition set_world (x : World) (m : Startup) : Startup :=
  mkStartup x (cmds_arguments m) (execute_exit m) (st m) (timeLimit m)
    (textureCounter m) (vFlip m).
Definition set_cmds_arguments (x : list string) (m : Startup) : Startup :=
  mkStartup (world m) x (execute_exit m) (st m) (timeLimit m)
    (textureCounter m) (vFlip m).
Definition set_execute_exit (x : bool) (m : Startup) : Startup :=
  mkStartup (world m) (cmds_arguments m) x (st m) (timeLimit m)
    (textureCounter m) (vFlip m).
Definition set_st (x : Z) (m : Startup) : Startup :=
  mkStartup (world m) (cmds_arguments m) (execute_exit m) x (timeLimit m)
    (textureCounter m) (vFlip m).
Definition set_timeLimit (x : Q) (m : Startup) : Startup :=
  mkStartup (world m) (cmds_arguments m) (execute_exit m) (st m) x
    (textureCounter m) (vFlip m).
Definition set_textureCounter (x : nat) (m : Startup) : Startup :=
  mkStartup (world m) (cmds_arguments m) (execute_exit m) (st m) (timeLimit m)
    x (vFlip m).
Definition set_vFlip (x : bool) (m : Startup) : Startup :=
  mkStartup (world m) (cmds_arguments m) (execute_exit m) (st m) (timeLimit m)
    (textureCounter m) x.

Definition on_world (f : World -> World) (m : Startup) : Startup :=
  set_world (f (world m)) m.

(** The state [main] enters the loop with. *)
Definition start (E : Env) : Startup :=
  mkStartup (mkWorld true [] 0 "" false false Sandbox_new) [] false
    (uninit_mtime E) (-1 # 1)%Q O true.

(** [argument.substr(pos)]. *)
Definition substr (pos : nat) (s : string) : string :=
  String.substring pos (String.length s - pos) s.

(** [argument.find_last_of(c)], [None] for [npos]. *)
Fixpoint find_last_of (c : ascii) (s : string) : option nat :=
  match s with
  | EmptyString => None
  | String a rest =>
      match find_last_of c rest with
      | Some i => Some (S i)
      | None => if Ascii.eqb a c then Some O else None
      end
  end.

(** [argument.substr(argument.find_last_of('-') + 1)]; [npos + 1] is 0. *)
Definition parameterPair (argument : string) : string :=
  substr (match find_last_of "-"%char argument with
          | Some i => S i
          | None => O
          end) argument.

Definition is_one_of (argument : string) (names : list string) : bool :=
  existsb (String.eqb argument) names.

(** [files.push_back(file); index = files.size() - 1], on a [WatchFile file]
    of which the type, the path and the change time have been set. *)
Definition push_file (ty : FileType) (argument : string) (E : Env)
    (set_index : Z -> Sandbox -> Sandbox) (m : Startup) : Startup :=
  let file := mkWatchFile ty argument (st m) (uninit_vFlip E) in
  let fl := (files (world m) ++ [file])%list in
  on_world (fun w =>
    set_sandbox (set_index (Z.of_nat (length fl) - 1) (sandbox w))
      (set_files fl w)) m.

(** Running a loader on the registry and the uniforms. *)
Definition loaded (r : Uniforms.t * WatchFileList) (m : Startup) : Startup :=
  on_world (fun w =>
    set_sandbox (set_uniforms (fst r) (sandbox w)) (set_files (snd r) w)) m.

(** What one turn of the loop does with the index [i]. *)
Inductive Turn :=
  | Stay (m : Startup)                (* no [i++] *)
  | Skip (m : Startup)                (* [i++], the value is not read *)
  | Read (f : string -> Startup).     (* [i++; argument = argv[i]] *)

(** The chain of [if ... else if ...] on one argument. *)
Definition turn (E : Env) (L : Loaders) (argument : string) (m : Startup)
  : Turn :=
  let sb := sandbox (world m) in
  if is_one_of argument ["-x"; "-y"; "-w"; "--width"; "-h"; "--height"]
  then Skip m
  else if is_one_of argument ["-l"; "--headless"] then Stay m
  else if is_one_of argument ["-f"; "--fullscreen"] then Stay m
  else if String.eqb argument "--verbose" then Stay m
  else if String.eqb argument "--nocursor" then Stay m
  else if String.eqb argument "--fxaa"
  then Stay (on_world (on_sandbox (set_fxaa true)) m)
  else if is_one_of argument ["-s"; "--sec"]
  then Read (fun argument => set_timeLimit (Text.toFloat argument) m)
  else if String.eqb argument "-o"
  then Read (fun argument =>
               if haveExt L argument "png"
               then on_world (set_outputFile argument) m
               else m)
  else if is_one_of argument ["-p"; "--port"] then Read (fun _ => m)
  else if String.eqb argument "-e"
  then Read (fun argument =>
               set_cmds_arguments (cmds_arguments m ++ [argument])%list m)
  else if String.eqb argument "-E"
  then Read (fun argument =>
               set_execute_exit true
                 (set_cmds_arguments (cmds_arguments m ++ [argument])%list m))
  else if String.eqb argument "--fullFps"
  then Stay (on_world (set_fullFps true) m)
  else if (frag_index sb =? -1)
          && (haveExt L argument "frag" || haveExt L argument "fs")
  then
    (* a file that is not there is created with the default shader; the
       [struct stat] is then left as it was *)
    let m := set_st (stat_mtime E argument (st m)) m in
    Stay (push_file FRAG_SHADER argument E set_frag_index m)
  else if (vert_index sb =? -1)
          && (haveExt L argument "vert" || haveExt L argument "vs")
  then
    let m := set_st (stat_mtime E argument (st m)) m in
    Stay (push_file VERT_SHADER argument E set_vert_index m)
  else if (geom_index sb =? -1)
          && (haveExt L argument "ply" || haveExt L argument "PLY"
              || haveExt L argument "obj" || haveExt L argument "OBJ"
              || haveExt L argument "glb" || haveExt L argument "GLB"
              || haveExt L argument "gltf" || haveExt L argument "GLTF")
  then
    match stat E argument with
    | None => Stay m
    | Some t => Stay (push_file GEOMETRY argument E set_geom_index (set_st t m))
    end
  else if is_one_of argument ["-vFlip"; "--vFlip"]
  then Stay (set_vFlip false m)
  else if haveExt L argument "hdr" || haveExt L argument "HDR"
          || haveExt L argument "png" || haveExt L argument "PNG"
          || haveExt L argument "jpg" || haveExt L argument "JPG"
          || haveExt L argument "jpeg" || haveExt L argument "JPEG"
  then
    let '(ok, r) :=
      addTexture L ("u_tex" +:+ Text.toString (textureCounter m)) argument
        (files (world m)) (vFlip m) (uniforms sb) in
    let m := loaded r m in
    Stay (if ok then set_textureCounter (S (textureCounter m)) m else m)
  else if is_one_of argument ["-c"; "-sh"]
  then Read (fun argument =>
               loaded (setCubeMap L argument (files (world m)) (uniforms sb)) m)
  else if String.eqb argument "-C"
  then Read (fun argument =>
               loaded (setCubeMap L argument (files (world m)) (uniforms sb)) m)
  else if String.prefix "-D" argument
  then Stay (set_cmds_arguments
               (cmds_arguments m ++ ["define," +:+ substr 2 argument])%list m)
  else if String.prefix "-I" argument
  then Stay (on_world (on_sandbox (fun s =>
               set_include_folders
                 (include_folders s ++ [substr 2 argument])%list s)) m)
  else if is_one_of argument ["-v"; "--version"] then Stay m
  else if String.prefix "-" argument
  then Read (fun value =>
               loaded (snd (addTexture L (parameterPair argument) value
                              (files (world m)) (vFlip m) (uniforms sb))) m)
  else Stay m.

(** [for (int i = 1; i < argc; i++) { ... }] over [argv[1..argc-1]].  A turn
    that reads [argv[i]] after its [i++] when no argument is left reads past
    the arguments, which is undefined in C++: the result is [None]. *)
Fixpoint load_resources (E : Env) (L : Loaders) (args : list string)
    (m : Startup) : option Startup :=
  match args with
  | [] => Some m
  | argument :: rest =>
      match turn E L argument m with
      | Stay m => load_resources E L rest m
      | Skip m =>
          match rest with
          | [] => Some m
          | _ :: rest => load_resources E L rest m
          end
      | Read f =>
          match rest with
          | [] => None
          | value :: rest => load_resources E L rest (f value)
          end
      end
  end.

(** The head of [cinWatcherThread], once the engine is ready: the commands
    of [-e] and [-E] in their order, then the time-out state if [-E] was
    given. *)
Definition startup_commands (m : Startup) (w : World) : World :=
  if (0 <? length (cmds_arguments m))%nat then
    let w := fold_left (fun w cmd => runCmd cmd w) (cmds_arguments m) w in
    (* If it's using -E exit after executing all commands *)
    if execute_exit m then set_timeOut true w else w
  else w.

End Main.

(* ===================================================================== *)
(** ** Properties the statements below are phrased with *)
(* ===================================================================== *)

(** [needle] literally occurs in [hay]. *)
Definition occurs (needle hay : string) : Prop :=
  exists before after, hay = before +:+ needle +:+ after.

(** In a registry built by this program the dependency entries come last:
    [main] registers the primary files, geometry and textures before
    [setup], and only [reloadShaders] pushes dependencies. *)
Fixpoint dependencies_last (files : WatchFileList) : bool :=
  match files with
  | [] => true
  | f :: rest =>
      if is_dependency f then forallb is_dependency rest
      else dependencies_last rest
  end.

Definition not_dependency (f : WatchFile) : bool := negb (is_dependency f).

(** The entries the insertion loop of [reloadShaders] creates. *)
Fixpoint dependency_entries (E : Env) (deps : list string) (st : Z)
  : WatchFileList :=
  match deps with
  | [] => []
  | p :: rest =>
      let st := stat_mtime E p st in
      mkWatchFile GLSL_DEPENDENCY p st (uninit_vFlip E)
        :: dependency_entries E rest st
  end.

(** The pass arrays and the pass count agree (what [_updateBuffers] restores
    and [addDefine]'s loop relies on). *)
Definition passes_ok (s : Sandbox) : Prop :=
  m_buffers_total s = Z.of_nat (length (m_buffers_shaders s)) /\
  length (Uniforms.buffers (uniforms s)) = length (m_buffers_shaders s).

(** A pass framebuffer as the allocation loop leaves it. *)
Definition fresh_buffer (E : Env) : Gl.Fbo :=
  Gl.allocate (getWindowWidth E) (getWindowHeight E) Gl.COLOR_TEXTURE
    Gl.Fbo_new.

(** Compiling pass [i]: the define [BUFFER_<i>], then the fragment source
    against the billboard vertex stage. *)
Definition compile_pass (E : Env) (frag : string) (i : nat) (sh : Gl.Shader)
  : Gl.Shader :=
  Gl.load frag (billboard_vert E) (Gl.addDefine (buffer_define i) "" sh).

(** The two cubemap defines [reloadShaders] hands to every shader when a
    cubemap is loaded. *)
Definition cubemap_defines (s : Sandbox) (sh : Gl.Shader) : Gl.Shader :=
  if Uniforms.cubemap (uniforms s)
  then Gl.addDefine "SCENE_CUBEMAP" "u_cubeMap"
         (Gl.addDefine "SCENE_SH_ARRAY" "u_SH" sh)
  else sh.

(** What a failed reload is expected to keep: the compiled programs and the
    allocated framebuffers. *)
Definition compiled_and_allocated (s : Sandbox) :=
  (m_canvas_shader s, m_buffers_shaders s, m_postprocessing_shader s,
   m_scene s, Uniforms.buffers (uniforms s), m_scene_fbo s, m_record_fbo s).

(** The fxaa fallback of [reloadShaders]: no post-processing marker in the
    fragment source, and [--fxaa] given. *)
Definition fxaa_fallback (E : Env) (s : Sandbox) : bool :=
  negb (check_for_postprocessing E (m_frag_source s)) && fxaa s.

(** [reloadShaders] up to "UPDATE Buffers": the state on which
    [_updateBuffers] is called. *)
Definition before_updateBuffers (E : Env) (s : Sandbox) : Sandbox :=
  let s := flagChange s in
  let s :=
    if geom_index s =? -1
    then set_m_canvas_shader
           (Gl.load (m_frag_source s) (m_vert_source s)
              (Gl.detach (m_canvas_shader s))) s
    else set_m_scene
           (Scene.loadShaders (m_frag_source s) (m_vert_source s)
              (m_scene s)) s in
  let s := set_uniforms
             (Uniforms.flagChange
                (Uniforms.checkPresenceIn (m_vert_source s) (m_frag_source s)
                   (uniforms s))) s in
  let s := if Uniforms.cubemap (uniforms s)
           then addDefine "SCENE_CUBEMAP" "u_cubeMap"
                  (addDefine "SCENE_SH_ARRAY" "u_SH" s)
           else s in
  set_m_buffers_total (Z.of_nat (count_buffers E (m_frag_source s))) s.

(** The block "UPDATE Postprocessing" of [reloadShaders]. *)
Definition update_postprocessing (E : Env) (s : Sandbox) : Sandbox :=
  let havePostprocessing :=
    check_for_postprocessing E (getSource FRAGMENT s) in
  if havePostprocessing then
    let s := set_m_postprocessing_shader
               (Gl.load (m_frag_source s) (billboard_vert E)
                  (Gl.addDefine "POSTPROCESSING" ""
                     (m_postprocessing_shader s))) s in
    set_m_postprocessing havePostprocessing s
  else if fxaa s then
    let s := set_m_postprocessing_shader
               (Gl.load (fxaa_frag E) (billboard_vert E)
                  (m_postprocessing_shader s)) s in
    let '(s, f) := function_at "u_scene" s in
    let s := set_function "u_scene" (Uniforms.set_present true f) s in
    set_m_postprocessing true s
  else set_m_postprocessing false s.

(** The last block of [reloadShaders]: the scene framebuffer. *)
Definition ensure_scene_fbo (E : Env) (s : Sandbox) : Sandbox :=
  if m_postprocessing s || m_histogram s then
    let '(s, f) := function_at "u_sceneDepth" s in
    let type := scene_fbo_type f in
    if negb (Gl.isAllocated (m_scene_fbo s))
       || negb (Gl.FboType_eqb (Gl.getType (m_scene_fbo s)) type)
    then set_m_scene_fbo
           (Gl.allocate (getWindowWidth E) (getWindowHeight E) type
              (m_scene_fbo s)) s
    else s
  else s.

(** [reloadShaders] from "UPDATE Postprocessing" on. *)
Definition after_updateBuffers (E : Env) (s : Sandbox) : Sandbox :=
  ensure_scene_fbo E (update_postprocessing E s).








(** The dispatcher in the words of the specification: commands are tried in
    registration order; one whose token is no prefix of the line is passed
    over; a handler that returns "handled" ends the search; one that does
    not hands the state it left to the rest of the list. *)
Inductive Dispatch (line : string)
  : list Command -> World -> World -> bool -> Prop :=
  | Dispatch_none w :
      Dispatch line [] w w false
  | Dispatch_no_match c rest w w' r :
      Text.beginsWith line (begins_with c) = false ->
      Dispatch line rest w w' r ->
      Dispatch line (c :: rest) w w' r
  | Dispatch_handled c rest w w' :
      Text.beginsWith line (begins_with c) = true ->
      exec c line w = (w', true) ->
      Dispatch line (c :: rest) w w' true
  | Dispatch_passed c rest w w1 w' r :
      Text.beginsWith line (begins_with c) = true ->
      exec c line w = (w1, false) ->
      Dispatch line rest w1 w' r ->
      Dispatch line (c :: rest) w w' r.

(** What is still to be written to disk: the screenshot asked for, the
    recording under way, and the images written so far. *)
Definition output_state (s : Sandbox) :=
  (screenshotFile s, saved s,
   (m_record s, m_record_counter s),
   (m_record_head s, m_record_end s, m_record_fdelta s)).

(** What a reload reads and does not write: the sources, their dependency
    lists and the start-up switches. *)
Definition reload_inputs (s : Sandbox) :=
  (m_frag_source s, m_vert_source s,
   (m_frag_dependencies s, m_vert_dependencies s),
   (fxaa s, geom_index s, m_histogram s)).


(** The screenshot path the frame will see: the time limit overwrites it
    with the output file. *)
Definition pending_shot (i : FrameInput) (w : World) : string :=
  if limit_reached i then outputFile w else screenshotFile (sandbox w).

(** The state on which the render loop decides whether to skip. *)
Definition at_decision (i : FrameInput) (w : World) : World :=
  consume_change (env i)
    (if limit_reached i
     then set_sandbox (set_screenshotFile (outputFile w) (sandbox w))
            (set_timeOut true w)
     else w).

(** An index of [Sandbox] into the registry: not set, or the place of an
    entry of the given type. *)
Definition index_ok (index : Z) (ty : FileType) (files : WatchFileList)
  : Prop :=
  index = -1 \/ exists f, file_at files index = Some f /\ type f = ty.

Definition indices_ok (w : World) : Prop :=
  index_ok (frag_index (sandbox w)) FRAG_SHADER (files w) /\
  index_ok (vert_index (sandbox w)) VERT_SHADER (files w) /\
  index_ok (geom_index (sandbox w)) GEOMETRY (files w).

(** What [main] expects of the loaders of the uniform registry: they only
    add to the watch registry, and what they add is no dependency. *)
Definition loaders_append (L : Main.Loaders) : Prop :=
  (forall name p fl flip u, exists more,
      snd (snd (Main.addTexture L name p fl flip u)) = (fl ++ more)%list /\
      forallb not_dependency more = true) /\
  (forall p fl u, exists more,
      snd (Main.setCubeMap L p fl u) = (fl ++ more)%list /\
      forallb not_dependency more = true).

(** The registry has grown by entries that are no dependencies, the indices
    still point where they should, and an index that was set has not
    moved. *)
Definition registered (w w' : World) : Prop :=
  (exists more, files w' = (files w ++ more)%list /\
                forallb not_dependency more = true) /\
  (indices_ok w -> indices_ok w') /\
  (frag_index (sandbox w) <> -1 ->
   frag_index (sandbox w') = frag_index (sandbox w)) /\
  (vert_index (sandbox w) <> -1 ->
   vert_index (sandbox w') = vert_index (sandbox w)) /\
  (geom_index (sandbox w) <> -1 ->
   geom_index (sandbox w') = geom_index (sandbox w)).

(** [-E] has queued the command it came with. *)
Definition exit_queued (m : Main.Startup) : Prop :=
  Main.execute_exit m = true -> Main.cmds_arguments m <> [].

(** What every turn of the loop keeps: [P] is [registered] from the state
    before the turn, or the queue invariant. *)
Definition turn_keeps (P : Main.Startup -> Prop) (t : Main.Turn) : Prop :=
  match t with
  | Main.Stay m | Main.Skip m => P m
  | Main.Read f => forall value, P (f value)
  end.

(* ===================================================================== *)
(** ** Fixtures for the examples *)
(* ===================================================================== *)

Fixpoint disk_lookup (p : string) (disk : list (string * string))
  : option string :=
  match disk with
  | [] => None
  | (q, content) :: rest =>
      if String.eqb p q then Some content else disk_lookup p rest
  end.

(** A small world outside: the files of [disk] are readable and hold no
    include directive; a pass is counted per [BUFFER_<n>] marker (up to
    two); the window is 500 x 500. *)
Definition example_env (disk : list (string * string)) : Env := {|
  count_buffers := fun src =>
    if Text.contains "BUFFER_1" src then 2%nat
    else if Text.contains "BUFFER_0" src then 1%nat else 0%nat;
  check_for_postprocessing := fun src => Text.contains "POSTPROCESSING" src;
  merge := fun a b => (a ++ b)%list;
  loadFromPath := fun p _ into deps =>
    match disk_lookup p disk with
    | Some content => (true, into +:+ content, deps)
    | None => (false, into, deps)
    end;
  stat := fun p =>
    match disk_lookup p disk with Some _ => Some 1 | None => None end;
  uninit_mtime := 0;
  uninit_vFlip := false;
  getWindowWidth := 500;
  getWindowHeight := 500;
  billboard_vert := "billboard_vert";
  fxaa_frag := "fxaa_frag"
|}.

Definition example_frag : WatchFile := mkWatchFile FRAG_SHADER "shader.frag" 1 true.
Definition example_dep : WatchFile := mkWatchFile GLSL_DEPENDENCY "noise.glsl" 1 true.

(** A sandbox that runs a fragment shader with one include. *)
Definition example_sandbox : Sandbox :=
  set_m_frag_dependencies ["noise.glsl"]
    (set_m_frag_source "void main() { }"
       (mkSandbox 0 (-1) (-1) false [] "" (uniforms Sandbox_new)
          "" "" [] [] 0 [] Gl.Shader_new false Gl.Shader_new
          Gl.Fbo_new Gl.Fbo_new 1 0 0 0 O false false Scene.empty O
          false true [])).

Definition example_world : World :=
  mkWorld true [example_frag; example_dep] (-1) "" false false example_sandbox.

(** A fragment source that declares two buffer passes. *)
Definition two_pass_sandbox : Sandbox :=
  set_m_frag_source
    "#ifdef BUFFER_0 ... #elif defined( BUFFER_1 ) ... #else ... #endif"
    example_sandbox.

(** The same program started with [--fxaa]. *)
Definition fxaa_sandbox : Sandbox :=
  mkSandbox 0 (-1) (-1) true [] "" (uniforms Sandbox_new)
    "void main() { }" "" [] [] 0 [] Gl.Shader_new false Gl.Shader_new
    Gl.Fbo_new Gl.Fbo_new 1 0 0 0 O false false Scene.empty O
    false true [].

(** A recording from second 0 to second 10 at 24 frames per second, no
    screenshot asked for. *)
Definition recording_world : World :=
  mkWorld true [example_frag] (-1) "" false false
    (record 0 10 24 example_sandbox).

(** A screenshot to "out.png" has been asked for. *)
Definition screenshot_world : World :=
  mkWorld true [example_frag] (-1) "" false false
    (set_screenshotFile "out.png" example_sandbox).

Definition open_window (disk : list (string * string)) : FrameInput :=
  mkFrameInput true false (example_env disk).

(** Loaders that register the file they are given as an image. *)
Definition example_loaders : Main.Loaders := {|
  Main.haveExt := fun p ext => Text.contains ("." +:+ ext) p;
  Main.addTexture := fun name p fl flip u =>
    (true, (u, (fl ++ [mkWatchFile IMAGE p 1 flip])%list));
  Main.setCubeMap := fun p fl u =>
    (Uniforms.mk (Uniforms.functions u) (Uniforms.data u) (Uniforms.buffers u)
       true (Uniforms.m_change u),
     (fl ++ [mkWatchFile CUBEMAP p 1 true])%list)
|}.

(* ===================================================================== *)
(** ** Tactics *)
(* ===================================================================== *)

(** Reads a member through the setters and the branches around it. *)
Ltac read_member :=
  repeat (cbn;
          match goal with
          | |- context [match ?m !! ?k with _ => _ end] => destruct (m !! k)
          | |- context [if ?c then _ else _] => destruct c
          end);
  cbn; try reflexivity.

(** Names the members of a [Sandbox] and of its uniform registry. *)
Ltac open_sandbox s :=
  let u := fresh "u" in
  destruct s as [? ? ? ? ? ? u ? ? ? ? ? ? ? ? ? ? ? ? ? ? ? ? ? ? ? ? ? ? ?];
  destruct u.

(** As [read_member], innermost branch first: a condition is split only
    when no other branch is left inside it. *)
Ltac read_inner :=
  repeat (cbn; rewrite ?andb_false_r, ?orb_true_r;
          match goal with
          | |- context [match ?m !! ?k with _ => _ end] =>
              lazymatch m with
              | context [if _ then _ else _] => fail
              | _ => destruct (m !! k)
              end
          | |- context [if ?c then _ else _] =>
              lazymatch c with
              | context [if _ then _ else _] => fail
              | context [_ !! _] => fail
              | _ => destruct c
              end
          end);
  cbn; try reflexivity.

(** Splits on whether a capture is pending, then names the members. *)
Ltac capture_cases s :=
  let Hrec := fresh "Hrec" in
  let Hshot := fresh "Hshot" in
  destruct (m_record s) eqn:Hrec;
  destruct (String.eqb_spec (screenshotFile s) "") as [Hshot | Hshot];
  open_sandbox s; cbn in Hrec, Hshot; subst;
  try match type of Hshot with
      | ?f <> "" => destruct f; [contradiction |]
      end.

(** Uses the fact that a framebuffer is allocated. *)
Ltac allocated H :=
  cbn in H;
  match type of H with
  | Gl.isAllocated ?b = _ => destruct b; cbn in H; subst
  end.

(* ===================================================================== *)
(** * Properties *)
(* ===================================================================== *)

(** ** Text *)

Lemma append_cons (c : ascii) (p a : string) :
  String c p +:+ a = String c (p +:+ a).
Proof. reflexivity. Qed.

Lemma prefix_occurs (p s : string) :
  String.prefix p s = true <-> exists after, s = p +:+ after.
Proof.
  revert s. induction p as [|c p IH]; intros s.
  - split; [intros _; exists s; reflexivity | intros _; now destruct s].
  - destruct s as [|d s]; simpl.
    + split; [discriminate | intros [a Ha]; discriminate].
    + destruct (ascii_dec c d) as [->|Hne].
      * rewrite IH. split; intros [a Ha]; exists a;
          rewrite append_cons in *; congruence.
      * split; [discriminate |].
        intros [a Ha]. rewrite append_cons in Ha. congruence.
Qed.

Lemma contains_occurs (needle hay : string) :
  Text.contains needle hay = true <-> occurs needle hay.
Proof.
  unfold occurs. induction hay as [|c hay IH]; cbn [Text.contains].
  - rewrite orb_false_r, prefix_occurs. split.
    + intros [a Ha]. exists "", a. exact Ha.
    + intros [b [a Ha]]. destruct b as [|d b]; [eauto |].
      rewrite append_cons in Ha. discriminate.
  - rewrite orb_true_iff, IH, prefix_occurs. split.
    + intros [[a Ha] | [b [a Ha]]].
      * exists "", a. exact Ha.
      * exists (String c b), a. rewrite append_cons. now rewrite Ha.
    + intros [b [a Ha]]. destruct b as [|d b].
      * left. eauto.
      * right. exists b, a. rewrite append_cons in Ha. congruence.
Qed.

Example split_line :
  Text.split "u_myColor,1,0,0" Text.comma false = ["u_myColor"; "1"; "0"; "0"].
Proof. reflexivity. Qed.

Example buffer_define_12 : buffer_define 12 = "BUFFER_12".
Proof. reflexivity. Qed.

Example toFloat_literal : Text.toFloat "2.5" = (25 # 10)%Q.
Proof. reflexivity. Qed.

Example frame_file_7 : frame_file 7 = "00007.png".
Proof. reflexivity. Qed.

(** ** The watch registry *)

Lemma erase_dependencies_filter (n : nat) (files : WatchFileList) :
  (n <= length files)%nat ->
  erase_dependencies n files
  = (List.filter not_dependency (take n files) ++ drop n files)%list.
Proof.
  revert files. induction n as [|i IH]; intros files Hn; simpl.
  - now rewrite drop_0.
  - destruct (lookup_lt_is_Some_2 files i ltac:(lia)) as [f Hf].
    rewrite Hf, (take_S_r _ _ _ Hf), List.filter_app. simpl.
    unfold not_dependency at 2.
    destruct (is_dependency f) eqn:Hdep; simpl.
    + rewrite IH by (rewrite length_delete; [lia | eauto]).
      rewrite app_nil_r.
      rewrite delete_take_drop.
      rewrite take_app_le by (rewrite length_take; lia).
      rewrite take_take, Nat.min_id.
      rewrite drop_app_le by (rewrite length_take; lia).
      rewrite drop_ge by (rewrite length_take; lia).
      reflexivity.
    + rewrite IH by lia. rewrite <- app_assoc. simpl.
      now rewrite <- (drop_S _ _ _ Hf).
Qed.

Lemma erase_all_dependencies (files : WatchFileList) :
  erase_dependencies (length files) files = List.filter not_dependency files.
Proof.
  rewrite erase_dependencies_filter by lia.
  now rewrite firstn_all, drop_all, app_nil_r.
Qed.

Lemma push_dependencies_app (E : Env) (deps : list string) (st : Z)
    (files : WatchFileList) :
  push_dependencies E deps st files
  = (files ++ dependency_entries E deps st)%list.
Proof.
  revert st files. induction deps as [|p deps IH]; intros st files; simpl.
  - now rewrite app_nil_r.
  - now rewrite IH, <- app_assoc.
Qed.

Lemma dependency_entries_all (E : Env) (deps : list string) (st : Z) :
  forallb is_dependency (dependency_entries E deps st) = true.
Proof.
  revert st. induction deps as [|p deps IH]; intros st; simpl; auto.
Qed.

Lemma replaceDependencies_eq (E : Env) (deps : list string)
    (files : WatchFileList) :
  replaceDependencies E deps files
  = (List.filter not_dependency files
     ++ dependency_entries E deps (uninit_mtime E))%list.
Proof.
  unfold replaceDependencies.
  now rewrite push_dependencies_app, erase_all_dependencies.
Qed.

Lemma all_dependencies_filter (files : WatchFileList) :
  forallb is_dependency files = true ->
  List.filter not_dependency files = [].
Proof.
  induction files as [|f files IH]; simpl; [reflexivity |].
  intros [Hf Hrest]%andb_true_iff. unfold not_dependency at 1.
  rewrite Hf. simpl. auto.
Qed.



Lemma filter_not_dependency_all (files : WatchFileList) :
  forallb not_dependency (List.filter not_dependency files) = true.
Proof.
  induction files as [|f files IH]; simpl; [reflexivity |].
  destruct (not_dependency f) eqn:Hf; simpl; [now rewrite Hf |]; auto.
Qed.

Lemma dependencies_last_app (pre suf : WatchFileList) :
  forallb not_dependency pre = true ->
  forallb is_dependency suf = true ->
  dependencies_last (pre ++ suf) = true.
Proof.
  intros Hpre Hsuf. induction pre as [|f pre IH]; simpl.
  - destruct suf as [|g suf]; simpl in *; [reflexivity |].
    apply andb_true_iff in Hsuf as [-> ?]. assumption.
  - simpl in Hpre. apply andb_true_iff in Hpre as [Hf Hpre].
    unfold not_dependency in Hf. apply negb_true_iff in Hf. rewrite Hf. auto.
Qed.

(** The registry a reload leaves has its dependency entries last, whatever
    it was before. *)
Lemma replaceDependencies_dependencies_last (E : Env) (deps : list string)
    (files : WatchFileList) :
  dependencies_last (replaceDependencies E deps files) = true.
Proof.
  rewrite replaceDependencies_eq. apply dependencies_last_app.
  - apply filter_not_dependency_all.
  - apply dependency_entries_all.
Qed.




(** ** The reload engine: the pass arrays *)

Lemma reloadShaders_stages (E : Env) (files : WatchFileList) (s : Sandbox) :
  reloadShaders E files s
  = (after_updateBuffers E (_updateBuffers E (before_updateBuffers E s)),
     replaceDependencies E
       (merge E (m_frag_dependencies s) (m_vert_dependencies s)) files).
Proof.
  unfold reloadShaders, after_updateBuffers, ensure_scene_fbo,
    update_postprocessing, before_updateBuffers.
  replace (geom_index (flagChange s)) with (geom_index s) by now destruct s.
  destruct (geom_index s =? -1); reflexivity.
Qed.

Lemma for_first_all (n : Z) (f : Gl.Shader -> Gl.Shader) (v : list Gl.Shader) :
  Z.of_nat (length v) <= n -> for_first n f v = f <$> v.
Proof.
  intros Hn. unfold for_first. apply list_eq. intros i.
  rewrite list_lookup_imap, list_lookup_fmap.
  destruct (v !! i) as [sh|] eqn:Hi; simpl; [| reflexivity].
  apply lookup_lt_Some in Hi.
  destruct (Z.ltb_spec (Z.of_nat i) n); [reflexivity | lia].
Qed.

Lemma for_first_length (n : Z) (f : Gl.Shader -> Gl.Shader) (v : list Gl.Shader) :
  length (for_first n f v) = length v.
Proof. apply length_imap. Qed.

Section BeforeUpdate.
Variables (E : Env) (s : Sandbox).

Lemma before_frag_source :
  m_frag_source (before_updateBuffers E s) = m_frag_source s.
Proof. unfold before_updateBuffers, addDefine. read_member. Qed.

Lemma before_vert_source :
  m_vert_source (before_updateBuffers E s) = m_vert_source s.
Proof. unfold before_updateBuffers, addDefine. read_member. Qed.

Lemma before_buffers :
  Uniforms.buffers (uniforms (before_updateBuffers E s))
  = Uniforms.buffers (uniforms s).
Proof. unfold before_updateBuffers, addDefine. read_member. Qed.

Lemma before_total :
  m_buffers_total (before_updateBuffers E s)
  = Z.of_nat (count_buffers E (m_frag_source s)).
Proof. unfold before_updateBuffers, addDefine. read_member. Qed.

Lemma before_fxaa : fxaa (before_updateBuffers E s) = fxaa s.
Proof. unfold before_updateBuffers, addDefine. read_member. Qed.

Lemma before_functions :
  Uniforms.functions (uniforms (before_updateBuffers E s))
  = Uniforms.functions
      (Uniforms.checkPresenceIn (m_vert_source s) (m_frag_source s)
         (uniforms s)).
Proof. unfold before_updateBuffers, addDefine. read_member. Qed.

Lemma before_shaders :
  passes_ok s ->
  m_buffers_shaders (before_updateBuffers E s)
  = cubemap_defines s <$> m_buffers_shaders s.
Proof.
  intros [Htotal _].
  unfold before_updateBuffers, addDefine, cubemap_defines.
  replace (Uniforms.cubemap (uniforms _)) with (Uniforms.cubemap (uniforms s))
    by read_member.
  destruct (Uniforms.cubemap (uniforms s)).
  - transitivity
      (for_first (m_buffers_total s) (Gl.addDefine "SCENE_CUBEMAP" "u_cubeMap")
         (for_first (m_buffers_total s) (Gl.addDefine "SCENE_SH_ARRAY" "u_SH")
            (m_buffers_shaders s))).
    { read_member. }
    rewrite (for_first_all _ _ (m_buffers_shaders s)) by lia.
    rewrite for_first_all by (rewrite length_fmap; lia).
    now rewrite <- list_fmap_compose.
  - transitivity (m_buffers_shaders s); [read_member |].
    symmetry. apply list_fmap_id.
Qed.

End BeforeUpdate.


Lemma alter_last {A : Type} (f : A -> A) (l : list A) (x : A) :
  alter f (length l) (l ++ [x])%list = (l ++ [f x])%list.
Proof.
  rewrite <- (Nat.add_0_r (length l)). now rewrite alter_app_r.
Qed.

(** The allocation loop of [_updateBuffers] in closed form. *)
Lemma push_pass_fold (E : Env) (s : Sandbox) (n : nat) :
  fold_left (push_pass E) (seq 0 n)
    (set_m_buffers_shaders []
       (set_uniforms (Uniforms.set_buffers [] (uniforms s)) s))
  = set_m_buffers_shaders
      ((fun i => compile_pass E (m_frag_source s) i Gl.Shader_new) <$> seq 0 n)
      (set_uniforms
         (Uniforms.set_buffers (replicate n (fresh_buffer E)) (uniforms s)) s).
Proof.
  induction n as [|n IH]; [reflexivity |].
  rewrite seq_S, fold_left_app, IH. cbn [fold_left Nat.add].
  unfold push_pass. cbn.
  pose proof (alter_last (Gl.allocate (getWindowWidth E) (getWindowHeight E)
                            Gl.COLOR_TEXTURE)
                (replicate n (fresh_buffer E)) Gl.Fbo_new) as Hb.
  rewrite length_replicate in Hb. rewrite Hb. clear Hb.
  set (shs := (fun i => compile_pass E (m_frag_source s) i Gl.Shader_new)
                <$> seq 0 n).
  assert (Hlen : length shs = n)
    by (unfold shs; now rewrite length_fmap, length_seq).
  pose proof (alter_last (Gl.addDefine (buffer_define n) "") shs
                Gl.Shader_new) as H1.
  pose proof (alter_last (Gl.load (m_frag_source s) (billboard_vert E)) shs
                (Gl.addDefine (buffer_define n) "" Gl.Shader_new)) as H2.
  rewrite Hlen in H1, H2. rewrite H1, H2. clear H1 H2.
  rewrite fmap_app, replicate_cons_app. reflexivity.
Qed.

Lemma _updateBuffers_eq (E : Env) (s : Sandbox) :
  _updateBuffers E s
  = if negb (m_buffers_total s
             =? Z.of_nat (length (Uniforms.buffers (uniforms s))))
    then
      let n := Z.to_nat (m_buffers_total s) in
      set_m_buffers_shaders
        ((fun i => compile_pass E (m_frag_source s) i Gl.Shader_new)
           <$> seq 0 n)
        (set_uniforms
           (Uniforms.set_buffers (replicate n (fresh_buffer E)) (uniforms s))
           s)
    else
      set_m_buffers_shaders
        (imap (compile_pass E (m_frag_source s)) (m_buffers_shaders s)) s.
Proof.
  unfold _updateBuffers. destruct (negb _); [| reflexivity].
  cbv zeta. rewrite <- push_pass_fold. reflexivity.
Qed.

Section AroundUpdate.
Variables (E : Env) (s : Sandbox).

Lemma _updateBuffers_frag_source :
  m_frag_source (_updateBuffers E s) = m_frag_source s.
Proof. rewrite _updateBuffers_eq. read_member. Qed.

Lemma _updateBuffers_vert_source :
  m_vert_source (_updateBuffers E s) = m_vert_source s.
Proof. rewrite _updateBuffers_eq. read_member. Qed.

Lemma _updateBuffers_total :
  m_buffers_total (_updateBuffers E s) = m_buffers_total s.
Proof. rewrite _updateBuffers_eq. read_member. Qed.

Lemma _updateBuffers_fxaa : fxaa (_updateBuffers E s) = fxaa s.
Proof. rewrite _updateBuffers_eq. read_member. Qed.

Lemma _updateBuffers_functions :
  Uniforms.functions (uniforms (_updateBuffers E s))
  = Uniforms.functions (uniforms s).
Proof. rewrite _updateBuffers_eq. read_member. Qed.

Lemma after_frag_source :
  m_frag_source (after_updateBuffers E s) = m_frag_source s.
Proof. unfold after_updateBuffers, ensure_scene_fbo, update_postprocessing,
    function_at, set_function, Uniforms.at_.
  read_member. Qed.

Lemma after_vert_source :
  m_vert_source (after_updateBuffers E s) = m_vert_source s.
Proof. unfold after_updateBuffers, ensure_scene_fbo, update_postprocessing,
    function_at, set_function, Uniforms.at_.
  read_member. Qed.

Lemma after_total :
  m_buffers_total (after_updateBuffers E s) = m_buffers_total s.
Proof. unfold after_updateBuffers, ensure_scene_fbo, update_postprocessing,
    function_at, set_function, Uniforms.at_.
  read_member. Qed.

Lemma after_shaders :
  m_buffers_shaders (after_updateBuffers E s) = m_buffers_shaders s.
Proof. unfold after_updateBuffers, ensure_scene_fbo, update_postprocessing,
    function_at, set_function, Uniforms.at_.
  read_member. Qed.

Lemma after_buffers :
  Uniforms.buffers (uniforms (after_updateBuffers E s))
  = Uniforms.buffers (uniforms s).
Proof. unfold after_updateBuffers, ensure_scene_fbo, update_postprocessing,
    function_at, set_function, Uniforms.at_.
  read_member. Qed.

End AroundUpdate.


(** What [_updateBuffers] leaves, given the count it is called with. *)
Lemma _updateBuffers_arrays (E : Env) (s : Sandbox) (n : nat) :
  m_buffers_total s = Z.of_nat n ->
  length (Uniforms.buffers (uniforms s)) = length (m_buffers_shaders s) ->
  let s' := _updateBuffers E s in
  (n <> length (Uniforms.buffers (uniforms s)) ->
     Uniforms.buffers (uniforms s') = replicate n (fresh_buffer E) /\
     m_buffers_shaders s'
     = (fun i => compile_pass E (m_frag_source s) i Gl.Shader_new) <$> seq 0 n)
  /\
  (n = length (Uniforms.buffers (uniforms s)) ->
     Uniforms.buffers (uniforms s') = Uniforms.buffers (uniforms s) /\
     m_buffers_shaders s'
     = imap (compile_pass E (m_frag_source s)) (m_buffers_shaders s)).
Proof.
  intros Htotal Hlen s'. subst s'. rewrite _updateBuffers_eq, Htotal.
  destruct (Z.eqb_spec (Z.of_nat n)
              (Z.of_nat (length (Uniforms.buffers (uniforms s)))))
    as [Heq | Hne]; cbn [negb]; split; intros Hn; try lia.
  - split; reflexivity.
  - cbv zeta. rewrite Nat2Z.id. split; reflexivity.
Qed.

Lemma _updateBuffers_lengths (E : Env) (s : Sandbox) (n : nat) :
  m_buffers_total s = Z.of_nat n ->
  (n = length (Uniforms.buffers (uniforms s)) ->
   length (m_buffers_shaders s) = n) ->
  length (Uniforms.buffers (uniforms (_updateBuffers E s))) = n /\
  length (m_buffers_shaders (_updateBuffers E s)) = n.
Proof.
  intros Htotal Hsame. rewrite _updateBuffers_eq, Htotal.
  destruct (Z.eqb_spec (Z.of_nat n)
              (Z.of_nat (length (Uniforms.buffers (uniforms s)))))
    as [Heq | Hne]; cbn [negb].
  - apply Nat2Z.inj in Heq. cbn. rewrite length_imap. auto.
  - cbv zeta. rewrite Nat2Z.id. cbn.
    now rewrite length_replicate, length_fmap, length_seq.
Qed.




(** The agreement of pass count and pass arrays is an invariant of the
    engine: it holds in a new [Sandbox] and every operation keeps it. *)
Lemma Sandbox_new_passes_ok : passes_ok Sandbox_new.
Proof. split; reflexivity. Qed.

Lemma reloadShaders_passes_ok (E : Env) (files : WatchFileList) (s : Sandbox) :
  passes_ok s -> passes_ok (fst (reloadShaders E files s)).
Proof.
  intros Hok. rewrite reloadShaders_stages. cbn [fst].
  set (b := before_updateBuffers E s).
  pose proof (before_total E s) as Htotal. fold b in Htotal.
  destruct (_updateBuffers_lengths E b _ Htotal) as [Hl1 Hl2].
  { intros Hn. unfold b in *.
    rewrite before_shaders, length_fmap by exact Hok.
    rewrite before_buffers in Hn. rewrite Hn. symmetry. apply Hok. }
  split.
  - rewrite after_total, _updateBuffers_total, after_shaders, Hl2.
    exact Htotal.
  - now rewrite after_buffers, after_shaders, Hl1, Hl2.
Qed.

Lemma addDefine_passes_ok (d v : string) (s : Sandbox) :
  passes_ok s -> passes_ok (addDefine d v s).
Proof.
  intros [Ht Hl]. unfold passes_ok, addDefine.
  destruct (geom_index _ =? -1); cbn; rewrite for_first_length; auto.
Qed.

Lemma delDefine_passes_ok (d : string) (s : Sandbox) :
  passes_ok s -> passes_ok (delDefine d s).
Proof.
  intros [Ht Hl]. unfold passes_ok, delDefine.
  destruct (geom_index _ =? -1); cbn; rewrite for_first_length; auto.
Qed.

Lemma onFileChange_passes_ok (E : Env) (files : WatchFileList) (index : Z)
    (s : Sandbox) :
  passes_ok s -> passes_ok (fst (onFileChange E files index s)).
Proof.
  intros Hok. unfold onFileChange.
  destruct (file_at files index) as [file|]; [| exact Hok].
  destruct (reroute files s file) as [ty filename].
  assert (Hflag : forall p : Sandbox * WatchFileList,
             passes_ok (fst p) ->
             passes_ok (fst (let '(s1, fl) := p in (flagChange s1, fl)))).
  { intros [s1 fl] H1. exact H1. }
  apply Hflag. destruct ty; try exact Hok.
  - destruct (loadFromPath E filename _ _ _) as [[ok into] deps].
    destruct ok; [apply reloadShaders_passes_ok |]; exact Hok.
  - destruct (loadFromPath E filename _ _ _) as [[ok into] deps].
    destruct ok; [apply reloadShaders_passes_ok |]; exact Hok.
Qed.


(** ** A reload whose primary source cannot be read *)

(** C2 (as amended).  When the file change is routed to a primary shader
    and [loadFromPath] fails on it, [onFileChange] leaves the registry, every
    compiled program, every allocated framebuffer and the uniform registry
    as they were, and so the source and dependency list of the other stage;
    the source string and dependency list of the stage that failed to load
    are what [loadFromPath] left of the emptied out-parameters, and the
    change flag is set. *)
Theorem onFileChange_unreadable (E : Env) (files : WatchFileList) (index : Z)
    (s : Sandbox) (file : WatchFile) (ty : FileType) (filename into : string)
    (deps : list string) :
  file_at files index = Some file ->
  reroute files s file = (ty, filename) ->
  ty = FRAG_SHADER \/ ty = VERT_SHADER ->
  loadFromPath E filename (include_folders s) "" [] = (false, into, deps) ->
  let s' := fst (onFileChange E files index s) in
  snd (onFileChange E files index s) = files /\
  compiled_and_allocated s' = compiled_and_allocated s /\
  uniforms s' = uniforms s /\
  m_change s' = true /\
  (ty = FRAG_SHADER ->
     m_frag_source s' = into /\ m_frag_dependencies s' = deps /\
     m_vert_source s' = m_vert_source s /\
     m_vert_dependencies s' = m_vert_dependencies s) /\
  (ty = VERT_SHADER ->
     m_vert_source s' = into /\ m_vert_dependencies s' = deps /\
     m_frag_source s' = m_frag_source s /\
     m_frag_dependencies s' = m_frag_dependencies s).
Proof.
  intros Hfile Hroute Hty Hload. unfold onFileChange.
  rewrite Hfile, Hroute.
  destruct Hty as [-> | ->]; cbn; rewrite Hload; cbn;
    repeat split; intros; try discriminate; reflexivity.
Qed.

Lemma onFileChange_unreadable_witness :
  let E := example_env [] in
  file_at (files example_world) 0 = Some example_frag /\
  loadFromPath E "shader.frag" [] "" [] = (false, "", []) /\
  compiled_and_allocated
    (fst (onFileChange E (files example_world) 0 example_sandbox))
  = compiled_and_allocated example_sandbox.
Proof.
  split; [reflexivity | split; [reflexivity |]].
  apply (onFileChange_unreadable (example_env []) (files example_world) 0
           example_sandbox example_frag FRAG_SHADER "shader.frag" "" []);
    [reflexivity | reflexivity | left; reflexivity | reflexivity].
Defined.

(** C2 (as stated) fails: the stored fragment source and its dependency
    list are emptied before the file is read, and stay so when it cannot be
    read. *)
Lemma onFileChange_unreadable_forgets_source :
  let E := example_env [] in
  let s' := fst (onFileChange E (files example_world) 0 example_sandbox) in
  loadFromPath E "shader.frag" [] "" [] = (false, "", []) /\
  m_frag_source example_sandbox = "void main() { }" /\
  m_frag_source s' = "" /\
  m_frag_dependencies example_sandbox = ["noise.glsl"] /\
  m_frag_dependencies s' = [].
Proof. repeat split. Qed.


(** ** Uniform presence after a reload *)

Lemma checkPresenceIn_lookup (vert frag name : string) (u : Uniforms.t) :
  Uniforms.functions (Uniforms.checkPresenceIn vert frag u) !! name
  = Uniforms.set_present
      (Text.contains name vert || Text.contains name frag)
    <$> Uniforms.functions u !! name.
Proof.
  unfold Uniforms.checkPresenceIn. cbn. rewrite map_lookup_imap.
  now destruct (Uniforms.functions u !! name).
Qed.

(** Evaluating [functions[key]] keeps every entry that is there. *)
Lemma function_at_keeps (key name : string) (s : Sandbox)
    (f : Uniforms.UniformFunction) :
  Uniforms.functions (uniforms s) !! name = Some f ->
  Uniforms.functions (uniforms (fst (function_at key s))) !! name = Some f.
Proof.
  intros Hf. unfold function_at, Uniforms.at_.
  destruct (Uniforms.functions (uniforms s) !! key) eqn:Hk; cbn;
    [exact Hf |].
  rewrite lookup_insert_ne; [exact Hf | congruence].
Qed.

Lemma ensure_scene_fbo_keeps (E : Env) (name : string) (s : Sandbox)
    (f : Uniforms.UniformFunction) :
  Uniforms.functions (uniforms s) !! name = Some f ->
  Uniforms.functions (uniforms (ensure_scene_fbo E s)) !! name = Some f.
Proof.
  intros Hf. unfold ensure_scene_fbo.
  destruct (_ || _); [| exact Hf].
  pose proof (function_at_keeps "u_sceneDepth" name s f Hf) as Hk.
  destruct (function_at "u_sceneDepth" s) as [s1 g]. cbn [fst] in Hk.
  cbv zeta. destruct (_ || _); exact Hk.
Qed.

Lemma update_postprocessing_other (E : Env) (s : Sandbox) (name : string)
    (f : Uniforms.UniformFunction) :
  Uniforms.functions (uniforms s) !! name = Some f ->
  fxaa_fallback E s && String.eqb name "u_scene" = false ->
  Uniforms.functions (uniforms (update_postprocessing E s)) !! name = Some f.
Proof.
  intros Hf Hother. unfold update_postprocessing, fxaa_fallback in *.
  cbn [getSource].
  destruct (check_for_postprocessing E (m_frag_source s)); [exact Hf |].
  destruct (fxaa s); [| exact Hf].
  cbn in Hother. apply String.eqb_neq in Hother.
  unfold function_at, Uniforms.at_. cbn.
  destruct (Uniforms.functions (uniforms s) !! "u_scene"); cbn;
    rewrite ?lookup_insert_ne by congruence; exact Hf.
Qed.

Lemma update_postprocessing_fallback (E : Env) (s : Sandbox) :
  fxaa_fallback E s = true ->
  exists f,
    Uniforms.functions (uniforms (update_postprocessing E s)) !! "u_scene"
    = Some f /\ Uniforms.present f = true.
Proof.
  intros Hfb. unfold fxaa_fallback in Hfb.
  apply andb_true_iff in Hfb as [Hpost Hfxaa].
  apply negb_true_iff in Hpost.
  unfold update_postprocessing. cbn [getSource]. rewrite Hpost, Hfxaa.
  unfold function_at, Uniforms.at_. cbn.
  destruct (Uniforms.functions (uniforms s) !! "u_scene") as [g|]; cbn;
    rewrite lookup_insert_eq; eauto.
Qed.

(** C4 (as amended).  After a reload, every uniform function that was
    registered before it is still registered, and its [present] flag is true
    exactly when its name literally occurs in the vertex or the fragment
    source, with one exception: when the fragment source has no
    post-processing marker and [--fxaa] was given, [u_scene] is marked
    present whatever the sources say. *)
Theorem reload_presence (E : Env) (files : WatchFileList) (s : Sandbox)
    (name : string) (f : Uniforms.UniformFunction) :
  Uniforms.functions (uniforms s) !! name = Some f ->
  let s' := fst (reloadShaders E files s) in
  m_vert_source s' = m_vert_source s /\
  m_frag_source s' = m_frag_source s /\
  exists f',
    Uniforms.functions (uniforms s') !! name = Some f' /\
    if fxaa_fallback E s && String.eqb name "u_scene"
    then Uniforms.present f' = true
    else Uniforms.present f' = true <->
         occurs name (m_vert_source s') \/ occurs name (m_frag_source s').
Proof.
  intros Hf s'. subst s'. rewrite reloadShaders_stages. cbn [fst].
  rewrite after_vert_source, after_frag_source, _updateBuffers_vert_source,
    _updateBuffers_frag_source, before_vert_source, before_frag_source.
  split; [reflexivity | split; [reflexivity |]].
  set (u := _updateBuffers E (before_updateBuffers E s)).
  set (f0 := Uniforms.set_present
               (Text.contains name (m_vert_source s)
                || Text.contains name (m_frag_source s)) f).
  assert (Hu : Uniforms.functions (uniforms u) !! name = Some f0).
  { unfold u. rewrite _updateBuffers_functions, before_functions,
      checkPresenceIn_lookup, Hf. reflexivity. }
  assert (Hfb : fxaa_fallback E u = fxaa_fallback E s).
  { unfold fxaa_fallback, u.
    now rewrite _updateBuffers_frag_source, _updateBuffers_fxaa,
      before_frag_source, before_fxaa. }
  unfold after_updateBuffers.
  destruct (fxaa_fallback E s && String.eqb name "u_scene") eqn:Hcase.
  - apply andb_true_iff in Hcase as [Hfall Hname].
    apply String.eqb_eq in Hname. subst name.
    rewrite <- Hfb in Hfall.
    destruct (update_postprocessing_fallback E u Hfall) as [g [Hg Hp]].
    exists g. split; [| exact Hp]. now apply ensure_scene_fbo_keeps.
  - exists f0. split.
    + apply ensure_scene_fbo_keeps, update_postprocessing_other;
        [exact Hu | now rewrite Hfb].
    + unfold f0. cbn. rewrite orb_true_iff, !contains_occurs. reflexivity.
Qed.

Lemma reload_presence_witness :
  Uniforms.functions (uniforms fxaa_sandbox) !! "u_time"
  = Some (Uniforms.mkFunction "float" false) /\
  exists f',
    Uniforms.functions
      (uniforms (fst (reloadShaders (example_env []) [example_frag]
                        fxaa_sandbox))) !! "u_time" = Some f' /\
    (Uniforms.present f' = true <->
     occurs "u_time" "" \/ occurs "u_time" "void main() { }").
Proof.
  assert (H : Uniforms.functions (uniforms fxaa_sandbox) !! "u_time"
              = Some (Uniforms.mkFunction "float" false))
    by (vm_compute; reflexivity).
  split; [exact H |].
  destruct (reload_presence (example_env []) [example_frag] fxaa_sandbox
              "u_time" _ H) as (_ & _ & f' & Hf' & Hp).
  exists f'. split; [exact Hf' | exact Hp].
Defined.

(** C4 (as stated) fails: with [--fxaa] and a fragment source without a
    post-processing marker, [u_scene] is present after the reload although
    its name occurs in neither source. *)
Lemma reload_forces_u_scene_present :
  let s' := fst (reloadShaders (example_env []) [example_frag] fxaa_sandbox) in
  Uniforms.functions (uniforms s') !! "u_scene"
  = Some (Uniforms.mkFunction "sampler2D" true) /\
  Text.contains "u_scene" (m_vert_source s') = false /\
  Text.contains "u_scene" (m_frag_source s') = false /\
  ~ (occurs "u_scene" (m_vert_source s')
     \/ occurs "u_scene" (m_frag_source s')).
Proof.
  intros s'.
  assert (Hvs : m_vert_source s' = "") by (vm_compute; reflexivity).
  assert (Hfs : m_frag_source s' = "void main() { }")
    by (vm_compute; reflexivity).
  rewrite Hvs, Hfs.
  assert (Hv : Text.contains "u_scene" "" = false) by reflexivity.
  assert (Hf : Text.contains "u_scene" "void main() { }" = false)
    by reflexivity.
  split; [vm_compute; reflexivity |].
  split; [exact Hv | split; [exact Hf |]].
  intros [H | H]; apply contains_occurs in H; congruence.
Qed.


(** ** The command dispatcher *)

Lemma runCmd_search_Dispatch (cmds : list Command) (line : string)
    (w w' : World) (r : bool) :
  runCmd_search cmds line false w = (w', r) <-> Dispatch line cmds w w' r.
Proof.
  split.
  - revert w. induction cmds as [|c rest IH]; intros w; cbn.
    + intros [= <- <-]. constructor.
    + destruct (Text.beginsWith line (begins_with c)) eqn:Hm.
      * destruct (exec c line w) as [w1 [|]] eqn:He.
        -- intros [= <- <-]. now apply Dispatch_handled.
        -- intros H. eapply Dispatch_passed; eauto.
      * intros H. apply Dispatch_no_match; auto.
  - induction 1 as [w | c rest w w' r Hm _ IH | c rest w w' Hm He
                   | c rest w w1 w' r Hm He _ IH]; cbn.
    + reflexivity.
    + now rewrite Hm.
    + now rewrite Hm, He.
    + now rewrite Hm, He.
Qed.

Lemma no_match_search (cmds : list Command) (line : string) (w : World) :
  forallb (fun c => negb (Text.beginsWith line (begins_with c))) cmds = true ->
  runCmd_search cmds line false w = (w, false).
Proof.
  induction cmds as [|c rest IH]; cbn; [reflexivity |].
  intros [Hc Hrest]%andb_true_iff. apply negb_true_iff in Hc.
  rewrite Hc. auto.
Qed.

(** C5.  [runCmd] tries the registered commands in registration order,
    invokes the handler of each one whose token is a prefix of the line and
    stops at the first handler that returns "handled" (the search is exactly
    the relation [Dispatch]); when no handler did, the line goes to the
    uniform registry's parser.  No token of the command table is a prefix of
    "u_myColor,1,0,0": no handler runs, and the line leaves a uniform
    [u_myColor] of arity 3 with the values (1, 0, 0), marked changed,
    whether or not it existed before. *)
Theorem runCmd_dispatch (cmds : list Command) (line : string) (w : World) :
  (forall w' r,
     runCmd_search cmds line false w = (w', r) <-> Dispatch line cmds w w' r)
  /\
  runCmd_with cmds line w
  = (if snd (runCmd_search cmds line false w)
     then fst (runCmd_search cmds line false w)
     else parse_uniform line (fst (runCmd_search cmds line false w)))
  /\
  forallb (fun c => negb (Text.beginsWith "u_myColor,1,0,0" (begins_with c)))
    commands = true
  /\
  Dispatch "u_myColor,1,0,0" commands w w false
  /\
  runCmd "u_myColor,1,0,0" w = parse_uniform "u_myColor,1,0,0" w
  /\
  Uniforms.data (uniforms (sandbox (runCmd "u_myColor,1,0,0" w)))
    !! "u_myColor"
  = Some (Uniforms.mkData 3 [1%Q; 0%Q; 0%Q] true).
Proof.
  assert (Hnone :
            forallb (fun c =>
                       negb (Text.beginsWith "u_myColor,1,0,0" (begins_with c)))
              commands = true) by reflexivity.
  pose proof (no_match_search commands "u_myColor,1,0,0" w Hnone) as Hsearch.
  assert (Hrun : runCmd "u_myColor,1,0,0" w
                 = parse_uniform "u_myColor,1,0,0" w).
  { unfold runCmd, runCmd_with. now rewrite Hsearch. }
  split; [intros w' r; apply runCmd_search_Dispatch |].
  split.
  { unfold runCmd_with. now destruct (runCmd_search cmds line false w) as [w1 [|]]. }
  split; [exact Hnone |].
  split; [now apply runCmd_search_Dispatch |].
  split; [exact Hrun |].
  rewrite Hrun. unfold parse_uniform, on_sandbox. cbn.
  apply lookup_insert_eq.
Qed.


(** ** The render loop: what a frame does to the pending output *)

Lemma reloadShaders_output_state (E : Env) (files : WatchFileList)
    (s : Sandbox) :
  output_state (fst (reloadShaders E files s)) = output_state s.
Proof.
  rewrite reloadShaders_stages. cbn [fst].
  transitivity (output_state (_updateBuffers E (before_updateBuffers E s))).
  { generalize (_updateBuffers E (before_updateBuffers E s)). intros s1.
    open_sandbox s1.
    unfold output_state, after_updateBuffers, ensure_scene_fbo,
      update_postprocessing, function_at, set_function, Uniforms.at_.
    read_member. }
  transitivity (output_state (before_updateBuffers E s)).
  { rewrite _updateBuffers_eq. generalize (before_updateBuffers E s).
    intros s1. open_sandbox s1. unfold output_state. read_member. }
  open_sandbox s.
  unfold output_state, before_updateBuffers, addDefine. read_member.
Qed.

Lemma onFileChange_output_state (E : Env) (files : WatchFileList) (index : Z)
    (s : Sandbox) :
  output_state (fst (onFileChange E files index s)) = output_state s.
Proof.
  unfold onFileChange.
  destruct (file_at files index) as [file|]; [| reflexivity].
  destruct (reroute files s file) as [ty filename].
  destruct ty; try reflexivity.
  - destruct (loadFromPath E filename _ _ _) as [[ok into] deps].
    destruct ok; [| reflexivity].
    pose proof (reloadShaders_output_state E files
                  (set_m_frag_dependencies deps
                     (set_m_frag_source into
                        (set_m_frag_dependencies []
                           (set_m_frag_source "" s))))) as H.
    destruct (reloadShaders E files _) as [s1 fl]. exact H.
  - destruct (loadFromPath E filename _ _ _) as [[ok into] deps].
    destruct ok; [| reflexivity].
    pose proof (reloadShaders_output_state E files
                  (set_m_vert_dependencies deps
                     (set_m_vert_source into
                        (set_m_vert_dependencies []
                           (set_m_vert_source "" s))))) as H.
    destruct (reloadShaders E files _) as [s1 fl]. exact H.
Qed.

Lemma consume_change_output_state (E : Env) (w : World) :
  output_state (sandbox (consume_change E w)) = output_state (sandbox w).
Proof.
  unfold consume_change. destruct (negb _); [| reflexivity].
  pose proof (onFileChange_output_state E (files w) (fileChanged w)
                (sandbox w)) as H.
  destruct (onFileChange E (files w) (fileChanged w) (sandbox w)) as [s fl].
  exact H.
Qed.

Lemma consume_change_flags (E : Env) (w : World) :
  bRun (consume_change E w) = bRun w /\
  timeOut (consume_change E w) = timeOut w /\
  fullFps (consume_change E w) = fullFps w /\
  outputFile (consume_change E w) = outputFile w.
Proof.
  unfold consume_change. destruct (negb _); [| auto].
  destruct (onFileChange E (files w) (fileChanged w) (sandbox w)) as [s fl].
  auto.
Qed.

Lemma at_decision_flags (i : FrameInput) (w : World) :
  bRun (at_decision i w) = bRun w /\
  timeOut (at_decision i w) = timeOut w || limit_reached i /\
  fullFps (at_decision i w) = fullFps w.
Proof.
  unfold at_decision.
  destruct (consume_change_flags (env i)
              (if limit_reached i
               then set_sandbox
                      (set_screenshotFile (outputFile w) (sandbox w))
                      (set_timeOut true w)
               else w)) as (-> & -> & -> & _).
  destruct (limit_reached i); cbn; rewrite ?orb_true_r, ?orb_false_r; auto.
Qed.

Lemma at_decision_output_state (i : FrameInput) (w : World) :
  output_state (sandbox (at_decision i w))
  = output_state (set_screenshotFile (pending_shot i w) (sandbox w)).
Proof.
  unfold at_decision, pending_shot. rewrite consume_change_output_state.
  destruct (limit_reached i); [reflexivity |].
  now destruct (sandbox w).
Qed.

Lemma render_output_state (E : Env) (s : Sandbox) :
  output_state (render E s) = output_state s.
Proof.
  open_sandbox s.
  unfold output_state, render, pending_output, function_at, Uniforms.at_.
  read_member.
Qed.

Lemma loop_body_eq (i : FrameInput) (w : World) :
  loop_body i w
  = if negb (isGL i && bRun w) then (w, LoopExit)
    else
      let w1 := at_decision i w in
      if skip_frame w1 then (w1, Skipped)
      else
        let s := renderDone (isGL i) (render (env i) (sandbox w1)) in
        if timeOut w1 && String.eqb (screenshotFile s) ""
        then (set_bRun false (set_sandbox s w1), Rendered)
        else (set_sandbox s w1, Rendered).
Proof. reflexivity. Qed.


Lemma frame_file_not_empty (n : nat) : String.eqb (frame_file n) "" = false.
Proof.
  unfold frame_file. generalize (zeros (5 - String.length (Text.toString n))).
  intros z. destruct z as [|c z]; [| reflexivity].
  destruct (Text.toString n); reflexivity.
Qed.

Lemma renderDone_no_record (s : Sandbox) :
  m_record s = false ->
  screenshotFile (renderDone true s) = "" /\
  saved (renderDone true s)
  = (if String.eqb (screenshotFile s) "" then saved s
     else screenshotFile s :: saved s).
Proof.
  intros Hr. unfold renderDone, onScreenshot, unflagChange, flagChange.
  rewrite Hr. destruct (String.eqb (screenshotFile s) "") eqn:He.
  - apply String.eqb_eq in He. split; read_member; exact He.
  - split; read_member; try rewrite He; reflexivity.
Qed.

Lemma renderDone_record (s : Sandbox) :
  m_record s = true ->
  screenshotFile (renderDone true s) = screenshotFile s /\
  saved (renderDone true s) = frame_file (m_record_counter s) :: saved s.
Proof.
  intros Hr. unfold renderDone, onScreenshot, unflagChange, flagChange.
  rewrite Hr, frame_file_not_empty. split; read_member.
Qed.

Lemma render_loop_stopped (inputs : list FrameInput) (w : World) (n : nat) :
  bRun w = false -> render_loop inputs w n = (w, n).
Proof.
  intros Hrun. destruct inputs as [|i rest]; [reflexivity |].
  cbn. rewrite loop_body_eq, Hrun, andb_false_r. reflexivity.
Qed.

(** C6 (as amended).  "q" clears the running flag, and the render loop then
    draws no further frame.  "quit" leaves the running flag as it is and
    sets the time-out state.  From then on a turn of the loop is never
    skipped, and it clears the running flag exactly when it ends with no
    screenshot path pending: a frame outside a recording writes the pending
    screenshot, if any, and stops the loop; a frame of a recording writes
    the next image of the recording and leaves the screenshot path pending,
    so the recording is carried on only as long as a screenshot is asked
    for as well. *)
Theorem quit_commands (w : World) (i : FrameInput) (inputs : list FrameInput) :
  (runCmd "q" w = set_bRun false w /\
   render_loop inputs (runCmd "q" w) 0 = (runCmd "q" w, 0%nat)) /\
  (runCmd "quit" w = set_timeOut true w /\
   bRun (runCmd "quit" w) = bRun w /\
   timeOut (runCmd "quit" w) = true) /\
  (isGL i = true -> bRun w = true -> timeOut w = true ->
   let w' := fst (loop_body i w) in
   snd (loop_body i w) = Rendered /\
   bRun w' = negb (String.eqb (screenshotFile (sandbox w')) "") /\
   (m_record (sandbox w) = false ->
      screenshotFile (sandbox w') = "" /\
      saved (sandbox w')
      = (if String.eqb (pending_shot i w) "" then saved (sandbox w)
         else pending_shot i w :: saved (sandbox w))) /\
   (m_record (sandbox w) = true ->
      screenshotFile (sandbox w') = pending_shot i w /\
      saved (sandbox w')
      = frame_file (m_record_counter (sandbox w)) :: saved (sandbox w))).
Proof.
  split; [| split].
  - split; [reflexivity |]. now apply render_loop_stopped.
  - repeat split.
  - intros Hgl Hrun Htime w'. subst w'. rewrite loop_body_eq, Hgl, Hrun.
    cbn [andb negb]. cbv zeta.
    destruct (at_decision_flags i w) as (Hb & Ht & Hf).
    rewrite Htime in Ht. cbn in Ht.
    assert (Hskip : skip_frame (at_decision i w) = false)
      by (unfold skip_frame; now rewrite Ht).
    rewrite Hskip, Ht. cbn [andb].
    pose proof (at_decision_output_state i w) as Hout.
    rewrite <- (render_output_state (env i)) in Hout.
    set (s1 := render (env i) (sandbox (at_decision i w))) in *.
    assert (Hfields : screenshotFile s1 = pending_shot i w /\
                      saved s1 = saved (sandbox w) /\
                      m_record s1 = m_record (sandbox w) /\
                      m_record_counter s1 = m_record_counter (sandbox w)).
    { unfold output_state in Hout. cbn in Hout.
      injection Hout as H1 H2 H3 H4 _ _ _. auto. }
    destruct Hfields as (Hshot & Hsaved & Hrec & Hcount).
    destruct (String.eqb (screenshotFile (renderDone true s1)) "") eqn:Hs;
      cbn [fst snd]; (split; [reflexivity |]);
      (split; [cbn; rewrite ?Hs, ?Hb; auto |]);
      (split; intros Hr; rewrite <- Hrec in Hr;
       [destruct (renderDone_no_record s1 Hr) as [H1 H2]
       | destruct (renderDone_record s1 Hr) as [H1 H2]];
       cbn; rewrite H1, H2, ?Hshot, ?Hsaved, ?Hcount; auto).
Qed.


Lemma quit_commands_witness :
  let w := runCmd "quit" screenshot_world in
  let w' := fst (loop_body (open_window []) w) in
  isGL (open_window []) = true /\ bRun w = true /\ timeOut w = true /\
  snd (loop_body (open_window []) w) = Rendered /\
  bRun w' = false /\
  saved (sandbox w') = ["out.png"].
Proof.
  intros w w'.
  assert (Hgl : isGL (open_window []) = true) by reflexivity.
  assert (Hrun : bRun w = true) by reflexivity.
  assert (Htime : timeOut w = true) by reflexivity.
  destruct (quit_commands w (open_window []) []) as (_ & _ & Hframe).
  destruct (Hframe Hgl Hrun Htime) as (Hres & Hstop & Hshot & _).
  destruct (Hshot eq_refl) as [Hnone Hsaved].
  fold w' in Hstop, Hnone, Hsaved.
  split; [exact Hgl | split; [exact Hrun | split; [exact Htime |]]].
  split; [exact Hres |].
  split; [rewrite Hstop, Hnone; reflexivity | exact Hsaved].
Defined.

(** C6 (as stated) fails for a pending recording: with a recording under
    way and no screenshot asked for, the frame after "quit" writes one more
    image and clears the running flag although the recording has not reached
    its end. *)
Lemma quit_cuts_recording :
  let w := runCmd "quit" recording_world in
  let w' := fst (loop_body (open_window []) w) in
  bRun w = true /\ m_record (sandbox w) = true /\
  bRun w' = false /\
  m_record (sandbox w') = true /\
  (m_record_head (sandbox w') < m_record_end (sandbox w'))%Q /\
  saved (sandbox w') = ["00000.png"].
Proof. vm_compute. repeat split. Qed.


(** ** Change tracking *)

(** C7.  [haveChange] is the disjunction of the five dirty components: it
    is false exactly when the explicit flag is down, no recording is active,
    no screenshot path is pending, and neither the scene nor the uniforms
    report a change.  A turn of the render loop (window open, program
    running) skips the frame exactly when that predicate is false on the
    state the turn decides on and neither the full-FPS mode nor the time-out
    state is set; a skipped turn draws nothing and clears no flag. *)
Theorem skip_exactly_when_clean (i : FrameInput) (w : World) (s : Sandbox) :
  haveChange s
  = (m_change s || m_record s || negb (String.eqb (screenshotFile s) "")
     || Scene.haveChange (m_scene s) || Uniforms.haveChange (uniforms s))
  /\
  (haveChange s = false <->
   m_change s = false /\ m_record s = false /\ screenshotFile s = "" /\
   Scene.haveChange (m_scene s) = false /\
   Uniforms.haveChange (uniforms s) = false)
  /\
  (snd (loop_body i w) = Skipped <->
   isGL i = true /\ bRun w = true /\
   haveChange (sandbox (at_decision i w)) = false /\
   fullFps w = false /\
   timeOut w = false /\ limit_reached i = false)
  /\
  (snd (loop_body i w) = Skipped -> fst (loop_body i w) = at_decision i w).
Proof.
  split; [reflexivity |]. split.
  - unfold haveChange. rewrite !orb_false_iff, negb_false_iff, String.eqb_eq.
    tauto.
  - rewrite loop_body_eq.
    destruct (at_decision_flags i w) as (_ & Ht & Hf).
    unfold skip_frame. rewrite Ht, Hf.
    destruct (isGL i), (bRun w); cbn [andb negb snd fst].
    2-4: split; [split; [discriminate | intros (? & ? & _); discriminate]
                | discriminate].
    cbv zeta.
    destruct (timeOut w), (limit_reached i), (fullFps w),
      (haveChange (sandbox (at_decision i w)));
      cbn [andb orb negb];
      repeat match goal with
        | |- context [if ?c then _ else _] => destruct c
        end;
      cbn [fst snd];
      (split; [split; [try discriminate; tauto
                      | intros (_ & _ & ? & ? & ? & ?);
                        try discriminate; reflexivity]
              | try discriminate; reflexivity]).
Qed.

(** ** The "reload" and "screenshot" commands *)

Lemma publish_all_keeps (n : nat) (w : World) :
  fullFps (publish_all n w) = fullFps w /\
  files (publish_all n w) = files w /\
  sandbox (publish_all n w) = sandbox w /\
  fileChanged (publish_all n w)
  = match n with O => fileChanged w | S k => Z.of_nat k end.
Proof.
  unfold publish_all. induction n as [|n IH]; [auto |].
  rewrite seq_S, fold_left_app. cbn.
  destruct IH as (-> & -> & -> & _). auto.
Qed.

(** C9.  "reload" and "reload,all" set the full-FPS flag, publish one index
    per registry entry with the flag up during every turn of that loop, and
    then clear the flag: it is false afterwards whatever it was before. *)
Theorem reload_all_clears_fullFps (w : World) (k : nat) :
  runCmd "reload" w
  = set_fullFps false (publish_all (length (files w)) (set_fullFps true w))
  /\
  runCmd "reload,all" w = runCmd "reload" w
  /\
  fullFps (publish_all k (set_fullFps true w)) = true
  /\
  fullFps (runCmd "reload" w) = false
  /\
  fullFps (runCmd "reload,all" w) = false.
Proof.
  repeat split. apply publish_all_keeps.
Qed.

Lemma parse_uniform_ignored (line : string) (w : World) :
  Uniforms.parseLine line (uniforms (sandbox w)) = uniforms (sandbox w) ->
  parse_uniform line w = w.
Proof.
  intros H. unfold parse_uniform, on_sandbox. rewrite H.
  destruct w as [? ? ? ? ? ? s]. cbn. f_equal. open_sandbox s. reflexivity.
Qed.

(** C10.  The bare line "screenshot" is handled exactly when an output
    file was configured: then the handler asks for a screenshot to that
    file.  Otherwise the handler returns [false] without touching anything,
    no command of the table handles the line, and it falls through to the
    uniform parser, which ignores it: the dispatcher returns with every
    part of the state as it was. *)
Theorem bare_screenshot (w : World) :
  (snd (runCmd_search commands "screenshot" false w) = true
   <-> outputFile w <> "")
  /\
  (outputFile w <> "" ->
   cmd_screenshot "screenshot" w
   = (on_sandbox (set_screenshotFile (outputFile w)) w, true) /\
   runCmd "screenshot" w = on_sandbox (set_screenshotFile (outputFile w)) w)
  /\
  (outputFile w = "" ->
   cmd_screenshot "screenshot" w = (w, false) /\
   runCmd_search commands "screenshot" false w = (w, false) /\
   runCmd "screenshot" w = parse_uniform "screenshot" w /\
   runCmd "screenshot" w = w).
Proof.
  assert (Hcmd : cmd_screenshot "screenshot" w
                 = if String.eqb (outputFile w) "" then (w, false)
                   else (on_sandbox (set_screenshotFile (outputFile w)) w,
                         true)).
  { unfold cmd_screenshot. cbn.
    now destruct (String.eqb (outputFile w) ""). }
  assert (Hsearch : runCmd_search commands "screenshot" false w
                    = cmd_screenshot "screenshot" w).
  { cbn. rewrite Hcmd. now destruct (String.eqb (outputFile w) ""). }
  unfold runCmd, runCmd_with. rewrite Hsearch, Hcmd.
  destruct (String.eqb_spec (outputFile w) "") as [He | Hne]; cbn.
  - assert (Hp : parse_uniform "screenshot" w = w)
      by (apply (parse_uniform_ignored "screenshot"); reflexivity).
    repeat split; try congruence; try discriminate.
  - repeat split; try congruence; intros; congruence.
Qed.

Lemma skip_exactly_when_clean_witness :
  snd (loop_body (open_window []) example_world) = Skipped /\
  fst (loop_body (open_window []) example_world)
  = at_decision (open_window []) example_world.
Proof.
  assert (H : snd (loop_body (open_window []) example_world) = Skipped)
    by reflexivity.
  split; [exact H |].
  destruct (skip_exactly_when_clean (open_window []) example_world
              example_sandbox) as (_ & _ & _ & Hskip).
  exact (Hskip H).
Defined.

Lemma bare_screenshot_witness :
  outputFile example_world = "" /\
  runCmd "screenshot" example_world = example_world.
Proof.
  assert (H : outputFile example_world = "") by reflexivity.
  split; [exact H |].
  destruct (bare_screenshot example_world) as (_ & _ & Hnone).
  destruct (Hnone H) as (_ & _ & _ & Hsame). exact Hsame.
Defined.


(** ** The changed-file slot *)





Lemma consume_change_slot (E : Env) (w : World) :
  fileChanged (consume_change E w) = -1.
Proof.
  unfold consume_change.
  destruct (Z.eqb_spec (fileChanged w) (-1)) as [He | Hne]; cbn [negb];
    [exact He |].
  now destruct (onFileChange E (files w) (fileChanged w) (sandbox w)).
Qed.



















(** The engine's invariant on a file change that reloads the fragment
    shader from a readable file. *)
Lemma onFileChange_passes_ok_witness :
  let disk := [("shader.frag", "#ifdef BUFFER_0 ... #endif")] in
  let s' := fst (onFileChange (example_env disk) (files example_world) 0
                   example_sandbox) in
  passes_ok example_sandbox /\ passes_ok s' /\
  length (m_buffers_shaders s') = 1%nat.
Proof.
  intros disk s'.
  assert (H : passes_ok example_sandbox) by (split; reflexivity).
  split; [exact H | split].
  - exact (onFileChange_passes_ok (example_env disk) (files example_world) 0
             example_sandbox H).
  - vm_compute. reflexivity.
Defined.


(** ** Further properties of the reload engine *)

Lemma filter_not_dependency_entries (E : Env) (deps : list string) (st : Z) :
  List.filter not_dependency (dependency_entries E deps st) = [].
Proof. apply all_dependencies_filter, dependency_entries_all. Qed.

Lemma filter_is_dependency_entries (E : Env) (deps : list string) (st : Z) :
  List.filter is_dependency (dependency_entries E deps st)
  = dependency_entries E deps st.
Proof.
  revert st. induction deps as [|p deps IH]; intros st; cbn; [reflexivity |].
  now rewrite IH.
Qed.

Lemma filter_dependency_of_others (files : WatchFileList) :
  List.filter is_dependency (List.filter not_dependency files) = [].
Proof.
  induction files as [|f files IH]; cbn; [reflexivity |].
  unfold not_dependency at 1.
  destruct (is_dependency f) eqn:Hf; cbn; [exact IH |].
  now rewrite Hf.
Qed.

Lemma filter_filter_not_dependency (files : WatchFileList) :
  List.filter not_dependency (List.filter not_dependency files)
  = List.filter not_dependency files.
Proof.
  induction files as [|f files IH]; cbn; [reflexivity |].
  destruct (not_dependency f) eqn:Hf; cbn; [rewrite Hf |]; now rewrite ?IH.
Qed.

Lemma dependency_entries_paths (E : Env) (deps : list string) (st : Z) :
  path <$> dependency_entries E deps st = deps.
Proof.
  revert st. induction deps as [|p deps IH]; intros st; cbn; [reflexivity |].
  now rewrite IH.
Qed.

Lemma dependency_entries_statted (E : Env) (deps : list string) (st : Z)
    (f : WatchFile) (t : Z) :
  f ∈ dependency_entries E deps st ->
  stat E (path f) = Some t -> lastChange f = t.
Proof.
  revert st. induction deps as [|p deps IH]; intros st; cbn.
  - intros H. inversion H.
  - intros [-> | Hin]%elem_of_cons Hstat; [| eauto].
    cbn in *. unfold stat_mtime. now rewrite Hstat.
Qed.

(** X3.  The registry a reload leaves consists of the entries of other
    kinds it had, in their order, followed by one dependency entry per path
    of the merged dependency lists, in the order of that list; a dependency
    entry whose file can be statted carries the time [stat] reports. *)
Theorem reload_registry_contents (E : Env) (files : WatchFileList)
    (s : Sandbox) :
  let files' := snd (reloadShaders E files s) in
  List.filter not_dependency files' = List.filter not_dependency files /\
  path <$> List.filter is_dependency files'
  = merge E (m_frag_dependencies s) (m_vert_dependencies s) /\
  (forall f t,
     f ∈ files' -> is_dependency f = true -> stat E (path f) = Some t ->
     lastChange f = t).
Proof.
  rewrite reloadShaders_stages. cbn [snd]. rewrite replaceDependencies_eq.
  rewrite !List.filter_app, filter_filter_not_dependency,
    filter_not_dependency_entries, filter_dependency_of_others,
    filter_is_dependency_entries, app_nil_r, app_nil_l,
    dependency_entries_paths.
  split; [reflexivity | split; [reflexivity |]].
  intros f t [Hin | Hin]%elem_of_app Hdep Hstat.
  - apply list_elem_of_In, List.filter_In in Hin as [_ Hnd].
    unfold not_dependency in Hnd. rewrite Hdep in Hnd. discriminate.
  - eapply dependency_entries_statted; eauto.
Qed.


Lemma FboType_eqb_eq (a b : Gl.FboType) :
  Gl.FboType_eqb a b = true <-> a = b.
Proof. destruct a, b; cbn; split; congruence. Qed.

Lemma reloadShaders_inputs (E : Env) (files : WatchFileList) (s : Sandbox) :
  reload_inputs (fst (reloadShaders E files s)) = reload_inputs s.
Proof.
  rewrite reloadShaders_stages. cbn [fst].
  transitivity (reload_inputs (_updateBuffers E (before_updateBuffers E s))).
  { generalize (_updateBuffers E (before_updateBuffers E s)). intros s1.
    open_sandbox s1.
    unfold reload_inputs, after_updateBuffers, ensure_scene_fbo,
      update_postprocessing, function_at, set_function, Uniforms.at_.
    read_member. }
  transitivity (reload_inputs (before_updateBuffers E s)).
  { rewrite _updateBuffers_eq. generalize (before_updateBuffers E s).
    intros s1. open_sandbox s1. unfold reload_inputs. read_member. }
  open_sandbox s.
  unfold reload_inputs, before_updateBuffers, addDefine. read_member.
Qed.

Lemma update_postprocessing_flag (E : Env) (s : Sandbox) :
  m_postprocessing (update_postprocessing E s)
  = check_for_postprocessing E (m_frag_source s) || fxaa s /\
  m_histogram (update_postprocessing E s) = m_histogram s /\
  m_scene_fbo (update_postprocessing E s) = m_scene_fbo s.
Proof.
  open_sandbox s.
  unfold update_postprocessing, function_at, set_function, Uniforms.at_.
  cbn. destruct (check_for_postprocessing E _); cbn; [auto |].
  match goal with |- context [if ?c then _ else _] => destruct c end; cbn;
    [| auto].
  match goal with |- context [?m !! ?k] => destruct (m !! k) end; cbn; auto.
Qed.

Lemma ensure_scene_fbo_spec (E : Env) (s : Sandbox) :
  m_postprocessing (ensure_scene_fbo E s) = m_postprocessing s /\
  m_histogram (ensure_scene_fbo E s) = m_histogram s /\
  (m_postprocessing s || m_histogram s = false ->
   ensure_scene_fbo E s = s) /\
  (m_postprocessing s || m_histogram s = true ->
   exists f,
     Uniforms.functions (uniforms (ensure_scene_fbo E s)) !! "u_sceneDepth"
     = Some f /\
     Gl.isAllocated (m_scene_fbo (ensure_scene_fbo E s)) = true /\
     Gl.getType (m_scene_fbo (ensure_scene_fbo E s)) = scene_fbo_type f /\
     (Gl.isAllocated (m_scene_fbo s) = true ->
      Gl.getType (m_scene_fbo s) = scene_fbo_type f ->
      m_scene_fbo (ensure_scene_fbo E s) = m_scene_fbo s)).
Proof.
  open_sandbox s. unfold ensure_scene_fbo, function_at, Uniforms.at_. cbn.
  match goal with |- context [if ?c || ?d then _ else _] =>
    destruct (c || d) end; cbn.
  2: { repeat split; auto; discriminate. }
  match goal with |- context [?m !! ?k] =>
    destruct (m !! k) as [g|] eqn:Hg end; cbn.
  - match goal with |- context [if ?c then _ else _] =>
      destruct c eqn:Hc end; cbn; repeat split; try discriminate;
      intros _; exists g; rewrite ?Hg; cbn.
    + repeat split; auto. intros Ha Ht. rewrite Ha in Hc. cbn in Hc.
      apply negb_true_iff in Hc.
      apply FboType_eqb_eq in Ht. congruence.
    + apply orb_false_iff in Hc as [Ha Ht].
      apply negb_false_iff in Ha, Ht. apply FboType_eqb_eq in Ht.
      repeat split; auto.
  - match goal with |- context [if ?c then _ else _] =>
      destruct c eqn:Hc end; cbn; repeat split; try discriminate;
      intros _; exists Uniforms.UniformFunction_default;
      rewrite lookup_insert_eq; cbn.
    + repeat split; auto. intros Ha Ht. rewrite Ha in Hc. cbn in Hc.
      apply negb_true_iff in Hc.
      apply FboType_eqb_eq in Ht. congruence.
    + apply orb_false_iff in Hc as [Ha Ht].
      apply negb_false_iff in Ha, Ht. apply FboType_eqb_eq in Ht.
      repeat split; auto.
Qed.

Lemma _updateBuffers_scene (E : Env) (s : Sandbox) :
  m_scene_fbo (_updateBuffers E s) = m_scene_fbo s /\
  m_histogram (_updateBuffers E s) = m_histogram s.
Proof. rewrite _updateBuffers_eq. split; read_member. Qed.

Lemma before_scene (E : Env) (s : Sandbox) :
  m_scene_fbo (before_updateBuffers E s) = m_scene_fbo s /\
  m_histogram (before_updateBuffers E s) = m_histogram s.
Proof.
  open_sandbox s. unfold before_updateBuffers, addDefine. split; read_member.
Qed.

(** X4.  After a reload the post-processing flag is "the fragment source has
    the marker, or [--fxaa] was given".  When post-processing or the
    histogram is on, the scene framebuffer is allocated and its layout is
    the one the [u_sceneDepth] entry asks for (two textures when it is
    present, a colour texture with a depth buffer otherwise); a framebuffer
    that already had that layout is kept, not allocated again.  When both
    are off, the reload leaves the scene framebuffer alone. *)
Theorem reload_scene_framebuffer (E : Env) (files : WatchFileList)
    (s : Sandbox) :
  let s' := fst (reloadShaders E files s) in
  m_postprocessing s'
  = check_for_postprocessing E (m_frag_source s) || fxaa s /\
  m_histogram s' = m_histogram s /\
  (m_postprocessing s' || m_histogram s' = false ->
   m_scene_fbo s' = m_scene_fbo s) /\
  (m_postprocessing s' || m_histogram s' = true ->
   exists f,
     Uniforms.functions (uniforms s') !! "u_sceneDepth" = Some f /\
     Gl.isAllocated (m_scene_fbo s') = true /\
     Gl.getType (m_scene_fbo s') = scene_fbo_type f /\
     (Gl.isAllocated (m_scene_fbo s) = true ->
      Gl.getType (m_scene_fbo s) = scene_fbo_type f ->
      m_scene_fbo s' = m_scene_fbo s)).
Proof.
  intros s'. subst s'. rewrite reloadShaders_stages. cbn [fst].
  unfold after_updateBuffers.
  set (u := _updateBuffers E (before_updateBuffers E s)).
  assert (Hfrag : m_frag_source u = m_frag_source s)
    by (unfold u; now rewrite _updateBuffers_frag_source, before_frag_source).
  assert (Hfxaa : fxaa u = fxaa s)
    by (unfold u; now rewrite _updateBuffers_fxaa, before_fxaa).
  assert (Hscene : m_scene_fbo u = m_scene_fbo s /\ m_histogram u = m_histogram s).
  { unfold u. destruct (_updateBuffers_scene E (before_updateBuffers E s))
      as [-> ->]. apply before_scene. }
  destruct Hscene as [Hfbo Hhist].
  destruct (update_postprocessing_flag E u) as (Hp & Hh & Hf).
  set (p := update_postprocessing E u) in *.
  destruct (ensure_scene_fbo_spec E p) as (Hp' & Hh' & Hoff & Hon).
  rewrite Hp', Hh', Hp, Hh, Hfrag, Hfxaa, Hhist in *.
  split; [reflexivity | split; [reflexivity | split]].
  - intros H. rewrite (Hoff H). congruence.
  - intros H. destruct (Hon H) as (f & Hlook & Ha & Ht & Hkeep).
    exists f. rewrite Hf, Hfbo in Hkeep. repeat split; auto.
Qed.


Lemma replaceDependencies_again (E : Env) (deps : list string)
    (files : WatchFileList) :
  replaceDependencies E deps (replaceDependencies E deps files)
  = replaceDependencies E deps files.
Proof.
  rewrite !replaceDependencies_eq, List.filter_app,
    filter_filter_not_dependency, filter_not_dependency_entries, app_nil_r.
  reflexivity.
Qed.

Lemma reloadShaders_postprocessing (E : Env) (files : WatchFileList)
    (s : Sandbox) :
  m_postprocessing (fst (reloadShaders E files s))
  = check_for_postprocessing E (m_frag_source s) || fxaa s.
Proof.
  rewrite reloadShaders_stages. cbn [fst]. unfold after_updateBuffers.
  destruct (ensure_scene_fbo_spec E
              (update_postprocessing E
                 (_updateBuffers E (before_updateBuffers E s)))) as (-> & _).
  destruct (update_postprocessing_flag E
              (_updateBuffers E (before_updateBuffers E s))) as (-> & _).
  now rewrite _updateBuffers_frag_source, _updateBuffers_fxaa,
    before_frag_source, before_fxaa.
Qed.

Lemma reloadShaders_total (E : Env) (files : WatchFileList) (s : Sandbox) :
  m_buffers_total (fst (reloadShaders E files s))
  = Z.of_nat (count_buffers E (m_frag_source s)).
Proof.
  rewrite reloadShaders_stages. cbn [fst].
  now rewrite after_total, _updateBuffers_total, before_total.
Qed.

Lemma reloadShaders_in_place (E : Env) (files : WatchFileList) (s : Sandbox) :
  passes_ok s ->
  count_buffers E (m_frag_source s) = length (Uniforms.buffers (uniforms s)) ->
  Uniforms.buffers (uniforms (fst (reloadShaders E files s)))
  = Uniforms.buffers (uniforms s).
Proof.
  intros Hok Hn. rewrite reloadShaders_stages. cbn [fst].
  rewrite after_buffers.
  set (b := before_updateBuffers E s).
  assert (Hbuf : Uniforms.buffers (uniforms b) = Uniforms.buffers (uniforms s))
    by apply before_buffers.
  assert (Hlen : length (Uniforms.buffers (uniforms b))
                 = length (m_buffers_shaders b)).
  { unfold b. rewrite before_buffers, before_shaders, length_fmap by exact Hok.
    apply Hok. }
  destruct (_updateBuffers_arrays E b _ (before_total E s) Hlen) as [_ Hsame].
  rewrite Hbuf in Hsame. destruct (Hsame Hn) as [-> _]. reflexivity.
Qed.

(** X5.  Reloading twice in a row (nothing re-read in between) changes
    nothing of the topology the second time: the registry, the pass count
    and the post-processing flag stay what the first reload made them, and
    the pass framebuffers are the very ones the first reload left - the
    second reload recompiles in place and allocates none. *)
Theorem reload_twice (E : Env) (files : WatchFileList) (s : Sandbox) :
  passes_ok s ->
  let s1 := fst (reloadShaders E files s) in
  let files1 := snd (reloadShaders E files s) in
  let s2 := fst (reloadShaders E files1 s1) in
  snd (reloadShaders E files1 s1) = files1 /\
  m_buffers_total s2 = m_buffers_total s1 /\
  Uniforms.buffers (uniforms s2) = Uniforms.buffers (uniforms s1) /\
  length (m_buffers_shaders s2) = length (m_buffers_shaders s1) /\
  m_postprocessing s2 = m_postprocessing s1.
Proof.
  intros Hok s1 files1 s2.
  pose proof (reloadShaders_inputs E files s) as Hin. fold s1 in Hin.
  unfold reload_inputs in Hin.
  injection Hin as Hfrag Hvert Hfd Hvd Hfx _ _.
  pose proof (reloadShaders_passes_ok E files s Hok) as Hok1. fold s1 in Hok1.
  pose proof (reloadShaders_total E files s) as Ht1. fold s1 in Ht1.
  pose proof (reloadShaders_passes_ok E files1 s1 Hok1) as Hok2. fold s2 in Hok2.
  pose proof (reloadShaders_total E files1 s1) as Ht2. fold s2 in Ht2.
  rewrite Hfrag in Ht2.
  assert (Hn : count_buffers E (m_frag_source s1)
               = length (Uniforms.buffers (uniforms s1))).
  { rewrite Hfrag. destruct Hok1 as [Htot Hlen]. rewrite Hlen.
    apply Nat2Z.inj. congruence. }
  split; [| split; [congruence | split; [| split]]].
  - subst files1. rewrite !reloadShaders_stages. cbn [snd fst].
    fold s1. rewrite Hfd, Hvd. apply replaceDependencies_again.
  - apply reloadShaders_in_place; assumption.
  - destruct Hok1 as [Ha _], Hok2 as [Hb _]. apply Nat2Z.inj. congruence.
  - subst s2. rewrite reloadShaders_postprocessing, Hfrag, Hfx.
    symmetry. apply reloadShaders_postprocessing.
Qed.

Lemma reload_twice_witness :
  let E := example_env [] in
  let s1 := fst (reloadShaders E [example_frag] two_pass_sandbox) in
  let files1 := snd (reloadShaders E [example_frag] two_pass_sandbox) in
  passes_ok two_pass_sandbox /\
  Uniforms.buffers (uniforms (fst (reloadShaders E files1 s1)))
  = Uniforms.buffers (uniforms s1) /\
  length (Uniforms.buffers (uniforms s1)) = 2%nat.
Proof.
  intros E s1 files1.
  assert (H : passes_ok two_pass_sandbox) by (split; reflexivity).
  split; [exact H | split].
  - destruct (reload_twice E [example_frag] two_pass_sandbox H)
      as (_ & _ & Hb & _). exact Hb.
  - vm_compute. reflexivity.
Defined.


(** ** Further properties of [onFileChange] and the render loop *)

Lemma mem_string_elem (x : string) (l : list string) :
  mem_string x l = true <-> x ∈ l.
Proof.
  unfold mem_string. rewrite existsb_exists, list_elem_of_In. split.
  - intros (y & Hy & ->%String.eqb_eq). exact Hy.
  - intros H. exists x. split; [exact H | apply String.eqb_refl].
Qed.

Lemma mem_string_not_elem (x : string) (l : list string) :
  mem_string x l = false <-> x ∉ l.
Proof.
  rewrite <- mem_string_elem. destruct (mem_string x l); split; congruence.
Qed.

Lemma onFileChange_load (E : Env) (files : WatchFileList) (index : Z)
    (s : Sandbox) (file : WatchFile) (filename : string) :
  file_at files index = Some file ->
  reroute files s file = (FRAG_SHADER, filename) ->
  let '(ok, into, deps) :=
    loadFromPath E filename (include_folders s) "" [] in
  let s' := fst (onFileChange E files index s) in
  m_frag_source s' = into /\ m_frag_dependencies s' = deps /\
  m_vert_source s' = m_vert_source s /\
  m_vert_dependencies s' = m_vert_dependencies s.
Proof.
  intros Hfile Hroute. unfold onFileChange. rewrite Hfile, Hroute. cbn.
  destruct (loadFromPath E filename (include_folders s) "" [])
    as [[ok into] deps].
  destruct ok; [| cbn; auto].
  set (s0 := set_m_frag_dependencies deps _).
  pose proof (reloadShaders_inputs E files s0) as Hin.
  destruct (reloadShaders E files s0) as [s1 files1]. cbn in Hin |- *.
  unfold reload_inputs in Hin. injection Hin as -> -> -> -> _ _ _.
  auto.
Qed.

(** X6.  How [onFileChange] routes a change.  A changed dependency that the
    fragment shader includes reloads the fragment shader from the primary
    fragment file - also when the vertex shader includes it too: the vertex
    source and its dependency list are then not read again.  A changed
    dependency that neither stage lists, and a changed geometry file, reload
    nothing: the sandbox is only marked changed and the registry stays. *)
Theorem onFileChange_routing (E : Env) (files : WatchFileList) (index : Z)
    (s : Sandbox) (file : WatchFile) :
  file_at files index = Some file ->
  (type file = GLSL_DEPENDENCY ->
   path file ∈ m_frag_dependencies s ->
   let '(ok, into, deps) :=
     loadFromPath E (path_at files (frag_index s)) (include_folders s) "" [] in
   let s' := fst (onFileChange E files index s) in
   m_frag_source s' = into /\ m_frag_dependencies s' = deps /\
   m_vert_source s' = m_vert_source s /\
   m_vert_dependencies s' = m_vert_dependencies s) /\
  (type file = GEOMETRY \/
   (type file = GLSL_DEPENDENCY /\
    (path file ∉ m_frag_dependencies s) /\
    (path file ∉ m_vert_dependencies s)) ->
   onFileChange E files index s = (flagChange s, files)).
Proof.
  intros Hfile. split.
  - intros Hty Hin. apply mem_string_elem in Hin.
    apply (onFileChange_load E files index s file); [exact Hfile |].
    unfold reroute. now rewrite Hty, Hin.
  - intros [Hty | (Hty & Hf & Hv)]; unfold onFileChange, reroute;
      rewrite Hfile, Hty; cbn; [reflexivity |].
    apply mem_string_not_elem in Hf, Hv. now rewrite Hf, Hv.
Qed.

Lemma onFileChange_routing_witness :
  let E := example_env [("shader.frag", "void main() { }")] in
  let s := set_m_vert_dependencies ["noise.glsl"]
             (set_m_vert_source "attribute vec4 a;" example_sandbox) in
  let s' := fst (onFileChange E (files example_world) 1 s) in
  file_at (files example_world) 1 = Some example_dep /\
  path example_dep ∈ m_frag_dependencies s /\
  path example_dep ∈ m_vert_dependencies s /\
  m_frag_source s' = "void main() { }" /\
  m_vert_source s' = "attribute vec4 a;" /\
  m_vert_dependencies s' = ["noise.glsl"].
Proof.
  intros E s s'.
  assert (Hfile : file_at (files example_world) 1 = Some example_dep)
    by reflexivity.
  assert (Hin : path example_dep ∈ m_frag_dependencies s)
    by (apply mem_string_elem; reflexivity).
  assert (Hinv : path example_dep ∈ m_vert_dependencies s)
    by (apply mem_string_elem; reflexivity).
  destruct (onFileChange_routing E (files example_world) 1 s example_dep Hfile)
    as [Hroute _].
  specialize (Hroute eq_refl Hin). cbn in Hroute.
  destruct Hroute as (Hf & _ & Hv & Hvd).
  repeat split; assumption.
Defined.


Lemma onFileChange_flags (E : Env) (files : WatchFileList) (index : Z)
    (s : Sandbox) (file : WatchFile) :
  file_at files index = Some file ->
  m_change (fst (onFileChange E files index s)) = true.
Proof.
  intros Hfile. unfold onFileChange. rewrite Hfile.
  destruct (reroute files s file) as [ty filename].
  assert (Hflag : forall p : Sandbox * WatchFileList,
             m_change (fst (let '(s1, fl) := p in (flagChange s1, fl)))
             = true) by (intros [s1 fl]; reflexivity).
  apply Hflag.
Qed.

Lemma file_at_pending (files : WatchFileList) (index : Z) (file : WatchFile) :
  file_at files index = Some file -> index <> -1.
Proof.
  unfold file_at. destruct (Z.ltb_spec index 0); [discriminate | lia].
Qed.

(** X7.  A turn of the render loop that finds a change pending on a
    registry entry never skips the frame: [onFileChange] ends by marking the
    sandbox changed, so the turn draws, and the slot is free again
    afterwards. *)
Theorem pending_change_is_drawn (i : FrameInput) (w : World)
    (file : WatchFile) :
  isGL i = true -> bRun w = true ->
  file_at (files w) (fileChanged w) = Some file ->
  snd (loop_body i w) = Rendered /\
  fileChanged (fst (loop_body i w)) = -1 /\
  m_frame (sandbox (fst (loop_body i w)))
  = S (m_frame (sandbox (at_decision i w))).
Proof.
  intros Hgl Hrun Hfile. rewrite loop_body_eq, Hgl, Hrun. cbn [andb negb].
  cbv zeta.
  assert (Hchange : m_change (sandbox (at_decision i w)) = true).
  { unfold at_decision, consume_change.
    set (w0 := if limit_reached i then _ else w).
    assert (Hf0 : files w0 = files w) by (unfold w0; now destruct (limit_reached i)).
    assert (Hs0 : fileChanged w0 = fileChanged w)
      by (unfold w0; now destruct (limit_reached i)).
    rewrite Hf0, Hs0.
    destruct (Z.eqb_spec (fileChanged w) (-1)) as [He | _].
    { now apply file_at_pending in Hfile. }
    cbn [negb].
    pose proof (onFileChange_flags (env i) (files w) (fileChanged w)
                  (sandbox w0) file Hfile) as Hm.
    destruct (onFileChange (env i) (files w) (fileChanged w) (sandbox w0)).
    exact Hm. }
  assert (Hskip : skip_frame (at_decision i w) = false).
  { unfold skip_frame, haveChange. rewrite Hchange. cbn.
    now rewrite !andb_false_r. }
  rewrite Hskip.
  assert (Hslot : fileChanged (at_decision i w) = -1)
    by apply consume_change_slot.
  assert (Hframe : m_frame (renderDone true
                              (render (env i) (sandbox (at_decision i w))))
                   = S (m_frame (sandbox (at_decision i w)))).
  { generalize (sandbox (at_decision i w)). intros s.
    transitivity (S (m_frame (render (env i) s))).
    - generalize (render (env i) s). intros s1. open_sandbox s1.
      unfold renderDone, onScreenshot, unflagChange, flagChange. read_member.
    - f_equal. open_sandbox s.
      unfold render, pending_output, function_at, Uniforms.at_. read_member. }
  destruct (_ && _); cbn [fst snd]; repeat split; auto.
Qed.

Lemma pending_change_is_drawn_witness :
  let disk := [("shader.frag", "void main() { }")] in
  let w := set_fileChanged 0 example_world in
  isGL (open_window disk) = true /\ bRun w = true /\
  file_at (files w) (fileChanged w) = Some example_frag /\
  snd (loop_body (open_window disk) w) = Rendered /\
  fileChanged (fst (loop_body (open_window disk) w)) = -1.
Proof.
  intros disk w.
  destruct (pending_change_is_drawn (open_window disk) w example_frag
              eq_refl eq_refl eq_refl) as (Hr & Hs & _).
  repeat split; assumption.
Defined.


(** ** Recording *)





(** ** Further properties of the commands *)

Lemma index_of_path_found (p : string) (fl : WatchFileList) (k i : nat)
    (f : WatchFile) :
  fl !! i = Some f -> path f = p ->
  (forall j g, (j < i)%nat -> fl !! j = Some g -> path g <> p) ->
  index_of_path p fl k = Some (k + i)%nat.
Proof.
  revert k i. induction fl as [|g fl IH]; intros k i Hi Hp Hfirst;
    [discriminate |].
  cbn. destruct i as [|i]; cbn in Hi.
  - injection Hi as ->. rewrite Hp, String.eqb_refl. f_equal. lia.
  - destruct (String.eqb_spec (path g) p) as [He | _].
    + exfalso. apply (Hfirst 0%nat g); [lia | reflexivity | exact He].
    + rewrite (IH (S k) i Hi Hp).
      * f_equal. lia.
      * intros j h Hj Hh. apply (Hfirst (S j) h); [lia | exact Hh].
Qed.

Lemma index_of_path_missing (p : string) (fl : WatchFileList) (k : nat) :
  (forall f, f ∈ fl -> path f <> p) -> index_of_path p fl k = None.
Proof.
  revert k. induction fl as [|g fl IH]; intros k Hnone; [reflexivity |].
  cbn. destruct (String.eqb_spec (path g) p) as [He | _].
  - exfalso. apply (Hnone g); [left | exact He].
  - apply IH. intros f Hf. apply Hnone. now right.
Qed.

(** X9.  "reload,<path>": when the line splits at its comma into "reload"
    and a path, the handler publishes the index of the first registry entry
    with that path and reports the line handled - whether or not another
    change was pending, which it overwrites; when no entry has that path it
    changes nothing and reports the line not handled. *)
Theorem reload_path (line p : string) (w : World) :
  values_of line = ["reload"; p] ->
  line <> "reload" -> line <> "reload,all" ->
  (forall i f,
     files w !! i = Some f -> path f = p ->
     (forall j g, (j < i)%nat -> files w !! j = Some g -> path g <> p) ->
     cmd_reload line w = (set_fileChanged (Z.of_nat i) w, true)) /\
  ((forall f, f ∈ files w -> path f <> p) ->
   cmd_reload line w = (w, false)).
Proof.
  intros Hvalues H1 H2. unfold cmd_reload.
  apply String.eqb_neq in H1, H2. rewrite H1, H2, Hvalues. cbn.
  split.
  - intros i f Hi Hp Hfirst.
    now rewrite (index_of_path_found p (files w) 0 i f Hi Hp Hfirst).
  - intros Hnone. now rewrite index_of_path_missing.
Qed.

Lemma reload_path_witness :
  let w := set_fileChanged 1 example_world in
  values_of "reload,shader.frag" = ["reload"; "shader.frag"] /\
  files w !! 0%nat = Some example_frag /\
  cmd_reload "reload,shader.frag" w = (set_fileChanged 0 w, true).
Proof.
  intros w.
  assert (Hv : values_of "reload,shader.frag" = ["reload"; "shader.frag"])
    by reflexivity.
  assert (Hf : files w !! 0%nat = Some example_frag) by reflexivity.
  destruct (reload_path "reload,shader.frag" "shader.frag" w Hv)
    as [Hfound _]; [discriminate | discriminate |].
  split; [exact Hv | split; [exact Hf |]].
  apply (Hfound 0%nat example_frag Hf eq_refl). intros j g Hj. lia.
Defined.

(** X10.  The handlers of "uniforms", of the four light commands and of the
    four camera commands end every branch with [return true]: a line that
    begins with one of these tokens is always reported handled, so it never
    reaches the uniform parser and no user uniform is created or changed by
    it, whatever follows the token. *)
Theorem always_handled_tokens (tok line : string) (w : World) :
  tok ∈ ["uniforms"; "light_position"; "light_color"; "light_falloff";
         "light_intensity"; "camera_distance"; "camera_fov";
         "camera_position"; "camera_exposure"] ->
  Text.beginsWith line tok = true ->
  snd (runCmd_search commands line false w) = true /\
  Uniforms.data (uniforms (sandbox (runCmd line w)))
  = Uniforms.data (uniforms (sandbox w)).
Proof.
  intros Htok Hbegins. unfold Text.beginsWith in Hbegins.
  apply prefix_occurs in Hbegins as [rest ->].
  assert (Hrun : runCmd_search commands (tok +:+ rest) false w = (w, true)).
  { destruct rest as [|c rest];
      repeat (apply elem_of_cons in Htok as [-> | Htok];
              [vm_compute; reflexivity |]);
      inversion Htok. }
  unfold runCmd, runCmd_with. rewrite Hrun. split; reflexivity.
Qed.

Lemma always_handled_tokens_witness :
  Text.beginsWith "light_color2,1,0,0" "light_color" = true /\
  Uniforms.data
    (uniforms (sandbox (runCmd "light_color2,1,0,0" example_world)))
  = ∅.
Proof.
  assert (H : Text.beginsWith "light_color2,1,0,0" "light_color" = true)
    by reflexivity.
  split; [exact H |].
  destruct (always_handled_tokens "light_color" "light_color2,1,0,0"
              example_world) as [_ Hdata]; [| exact H | exact Hdata].
  apply list_elem_of_In. cbn. tauto.
Defined.


(** ** One sweep of the file watcher *)






(** ** Framebuffers: resizing and lazy allocation *)

Lemma onViewportResize_idle_record (width height : Z) (s : Sandbox) :
  pending_output s = false ->
  m_record_fbo (onViewportResize width height s) = m_record_fbo s.
Proof.
  intros Hoff. unfold pending_output in Hoff.
  unfold onViewportResize, function_at, Uniforms.at_.
  capture_cases s; cbn in Hoff; try discriminate Hoff. read_inner.
Qed.

Lemma render_keeps_record (E : Env) (s : Sandbox) :
  Gl.isAllocated (m_record_fbo s) = true ->
  m_record_fbo (render E s) = m_record_fbo s.
Proof.
  intros Ha. unfold render, pending_output, function_at, Uniforms.at_.
  open_sandbox s. allocated Ha. read_inner.
Qed.

(** X12.  [onViewportResize]: every pass framebuffer is reallocated at the
    new size as a colour texture, and the pass arrays keep their lengths, so
    the engine's invariant survives a resize; the scene framebuffer is
    reallocated exactly when post-processing or the histogram is on, with the
    layout the presence of "u_sceneDepth" asks for; the record framebuffer is
    reallocated exactly when a screenshot or a recording is pending, and is
    otherwise left at its old size; the engine is marked dirty, so the next
    frame is drawn. *)
Theorem onViewportResize_effect (width height : Z) (s : Sandbox) :
  let s' := onViewportResize width height s in
  (passes_ok s -> passes_ok s') /\
  m_buffers_shaders s' = m_buffers_shaders s /\
  Uniforms.buffers (uniforms s')
  = replicate (length (Uniforms.buffers (uniforms s)))
      (Gl.mkFbo true width height Gl.COLOR_TEXTURE) /\
  haveChange s' = true /\
  (m_postprocessing s || m_histogram s = false ->
   m_scene_fbo s' = m_scene_fbo s) /\
  (m_postprocessing s || m_histogram s = true ->
   exists f,
     Uniforms.functions (uniforms s') !! "u_sceneDepth" = Some f /\
     m_scene_fbo s' = Gl.mkFbo true width height (scene_fbo_type f)) /\
  (pending_output s = false -> m_record_fbo s' = m_record_fbo s) /\
  (pending_output s = true ->
   m_record_fbo s'
   = Gl.mkFbo true width height Gl.COLOR_TEXTURE_DEPTH_BUFFER).
Proof.
  assert (Hall : forall l : list Gl.Fbo,
            Gl.allocate width height Gl.COLOR_TEXTURE <$> l
            = replicate (length l)
                (Gl.mkFbo true width height Gl.COLOR_TEXTURE)).
  { induction l as [|b l IH]; [reflexivity |]. cbn. now rewrite <- IH. }
  intros s'. subst s'. unfold passes_ok, pending_output.
  unfold onViewportResize, function_at, Uniforms.at_.
  split_and!.
  - intros [Ht Hl]. open_sandbox s. cbn in Ht, Hl.
    read_member; rewrite ?length_fmap; auto.
  - open_sandbox s. read_member.
  - open_sandbox s. read_member; apply Hall.
  - open_sandbox s. read_member.
  - intros Hoff. open_sandbox s. cbn in Hoff. cbn. rewrite Hoff. read_member.
  - intros Hon. open_sandbox s. cbn in Hon. cbn. rewrite Hon.
    match goal with
    | |- context [match ?m !! "u_sceneDepth" with _ => _ end] =>
        destruct (m !! "u_sceneDepth") as [f|] eqn:Hf
    end.
    + exists f. split; [| read_member]. read_member; exact Hf.
    + exists Uniforms.UniformFunction_default.
      split; [| read_member]. read_member; apply lookup_insert_eq.
  - apply onViewportResize_idle_record.
  - intros Hon. capture_cases s; cbn in Hon; try discriminate Hon; read_inner.
Qed.

(** X13.  [render], as far as the engine's members go, only allocates: the
    pass arrays, the pass count, the flags, the engine's own change flag, the
    frame counter and the images written are as before; a framebuffer that
    is already allocated is never reallocated, whatever its size or layout;
    and after the call the record framebuffer is allocated whenever a
    screenshot or a recording is pending, the scene framebuffer whenever
    post-processing or the histogram is on. *)
Theorem render_only_allocates (E : Env) (s : Sandbox) :
  let s' := render E s in
  (m_buffers_shaders s', m_buffers_total s', Uniforms.buffers (uniforms s'),
   m_postprocessing s', m_histogram s', m_record s', screenshotFile s',
   m_change s', m_frame s', saved s')
  = (m_buffers_shaders s, m_buffers_total s, Uniforms.buffers (uniforms s),
     m_postprocessing s, m_histogram s, m_record s, screenshotFile s,
     m_change s, m_frame s, saved s) /\
  (Gl.isAllocated (m_record_fbo s) = true ->
   m_record_fbo s' = m_record_fbo s) /\
  (Gl.isAllocated (m_scene_fbo s) = true -> m_scene_fbo s' = m_scene_fbo s) /\
  (pending_output s = true -> Gl.isAllocated (m_record_fbo s') = true) /\
  (pending_output s = false -> m_record_fbo s' = m_record_fbo s) /\
  (m_postprocessing s || m_histogram s = true ->
   Gl.isAllocated (m_scene_fbo s') = true) /\
  (m_postprocessing s || m_histogram s = false ->
   m_scene_fbo s' = m_scene_fbo s).
Proof.
  intros s'. subst s'.
  unfold render, pending_output, function_at, Uniforms.at_.
  split_and!.
  - open_sandbox s. read_inner.
  - apply render_keeps_record.
  - intros Ha. open_sandbox s. allocated Ha. read_inner.
  - intros Hon. destruct (Gl.isAllocated (m_record_fbo s)) eqn:Ha;
      capture_cases s; cbn in Hon; try discriminate Hon;
      allocated Ha; read_inner.
  - intros Hoff. capture_cases s; cbn in Hoff; try discriminate Hoff.
    read_inner.
  - intros Hon. destruct (Gl.isAllocated (m_scene_fbo s)) eqn:Ha;
      open_sandbox s; cbn in Hon; allocated Ha; read_inner;
      cbn in Hon; discriminate Hon.
  - intros Hoff. open_sandbox s. cbn in Hoff. read_inner;
      cbn in Hoff; discriminate Hoff.
Qed.

(** X14.  A resize that happens while nothing is being captured leaves the
    record framebuffer alone, and the lazy allocation of [render] leaves an
    allocated framebuffer alone: a capture asked for after the resize is
    drawn into the record framebuffer of the size the window had when it was
    first allocated. *)
Theorem capture_after_resize (E : Env) (width height : Z) (file : string)
    (s : Sandbox) :
  Gl.isAllocated (m_record_fbo s) = true ->
  pending_output s = false ->
  m_record_fbo
    (render E (set_screenshotFile file (onViewportResize width height s)))
  = m_record_fbo s.
Proof.
  intros Ha Hoff.
  rewrite render_keeps_record;
    cbn [m_record_fbo set_screenshotFile];
    rewrite onViewportResize_idle_record by exact Hoff;
    [reflexivity | exact Ha].
Qed.

Lemma capture_after_resize_witness :
  let E := example_env [] in
  let s := render E (set_screenshotFile "a.png" example_sandbox) in
  let s := renderDone true s in
  Gl.isAllocated (m_record_fbo s) = true /\
  pending_output s = false /\
  Gl.fbo_width
    (m_record_fbo
       (render E (set_screenshotFile "b.png" (onViewportResize 1024 768 s))))
  = getWindowWidth E.
Proof.
  intros E s0 s.
  assert (Ha : Gl.isAllocated (m_record_fbo s) = true) by reflexivity.
  assert (Hoff : pending_output s = false) by reflexivity.
  split; [exact Ha | split; [exact Hoff |]].
  rewrite (capture_after_resize E 1024 768 "b.png" s Ha Hoff). reflexivity.
Defined.


(** ** Defines and the pass shaders *)

Lemma reloadShaders_pass_shaders (E : Env) (files : WatchFileList)
    (s : Sandbox) :
  passes_ok s ->
  let n := count_buffers E (m_frag_source s) in
  let s' := fst (reloadShaders E files s) in
  (n <> length (m_buffers_shaders s) ->
   m_buffers_shaders s'
   = (fun i => compile_pass E (m_frag_source s) i Gl.Shader_new) <$> seq 0 n)
  /\
  (n = length (m_buffers_shaders s) ->
   m_buffers_shaders s'
   = imap (compile_pass E (m_frag_source s))
       (cubemap_defines s <$> m_buffers_shaders s)).
Proof.
  intros [Htot Hlen] n s'. subst s'. rewrite reloadShaders_stages. cbn [fst].
  rewrite after_shaders.
  set (b := before_updateBuffers E s).
  assert (Htotal : m_buffers_total b = Z.of_nat n) by apply before_total.
  assert (Hbuf : Uniforms.buffers (uniforms b) = Uniforms.buffers (uniforms s))
    by apply before_buffers.
  assert (Hsh : m_buffers_shaders b = cubemap_defines s <$> m_buffers_shaders s)
    by (apply before_shaders; split; assumption).
  assert (Hfrag : m_frag_source b = m_frag_source s) by apply before_frag_source.
  assert (Hl : length (Uniforms.buffers (uniforms b))
               = length (m_buffers_shaders b))
    by (rewrite Hbuf, Hsh, length_fmap; exact Hlen).
  destruct (_updateBuffers_arrays E b n Htotal Hl) as [Hnew Hsame].
  rewrite Hbuf, Hfrag, Hsh, Hlen in *.
  split; intros Hn; [apply (Hnew Hn) | apply (Hsame Hn)].
Qed.

Lemma addDefine_members (d v : string) (s : Sandbox) :
  m_frag_source (addDefine d v s) = m_frag_source s /\
  Uniforms.cubemap (uniforms (addDefine d v s)) = Uniforms.cubemap (uniforms s)
  /\ m_change (addDefine d v s) = m_change s
  /\ m_postprocessing_shader (addDefine d v s)
     = Gl.addDefine d v (m_postprocessing_shader s).
Proof.
  unfold addDefine. open_sandbox s. cbn.
  match goal with |- context [if ?c then _ else _] => destruct c end;
    repeat split.
Qed.

Lemma addDefine_pass_shaders (d v : string) (s : Sandbox) :
  passes_ok s ->
  m_buffers_shaders (addDefine d v s) = Gl.addDefine d v <$> m_buffers_shaders s.
Proof.
  intros [Htot _]. unfold addDefine.
  transitivity (for_first (m_buffers_total s) (Gl.addDefine d v)
                  (m_buffers_shaders s)).
  - open_sandbox s. cbn.
    match goal with |- context [if ?c then _ else _] => destruct c end;
      reflexivity.
  - apply for_first_all. lia.
Qed.

(** X15.  A define given with [addDefine] and the reload that follows it.
    [addDefine] hands the define to every pass shader and to the
    post-processing shader without marking the engine dirty.  When the
    reload finds the number of passes the engine already has, the pass
    shaders it recompiles are the ones that carry the define.  When it finds
    another number, the pass shaders are built anew and are the ones a
    reload without the define would have built: the define does not reach
    them. *)
Theorem define_then_reload (E : Env) (files : WatchFileList) (d v : string)
    (s : Sandbox) :
  passes_ok s ->
  let n := count_buffers E (m_frag_source s) in
  let s1 := addDefine d v s in
  let s2 := fst (reloadShaders E files s1) in
  passes_ok s1 /\
  m_buffers_shaders s1 = Gl.addDefine d v <$> m_buffers_shaders s /\
  m_postprocessing_shader s1 = Gl.addDefine d v (m_postprocessing_shader s) /\
  m_change s1 = m_change s /\
  (n = length (m_buffers_shaders s) ->
   m_buffers_shaders s2
   = imap (fun i sh => compile_pass E (m_frag_source s) i
                         (cubemap_defines s (Gl.addDefine d v sh)))
       (m_buffers_shaders s)) /\
  (n <> length (m_buffers_shaders s) ->
   m_buffers_shaders s2 = m_buffers_shaders (fst (reloadShaders E files s))).
Proof.
  intros Hok n s1 s2.
  pose proof (addDefine_passes_ok d v s Hok) as Hok1.
  pose proof (addDefine_pass_shaders d v s Hok) as Hsh.
  destruct (addDefine_members d v s) as (Hfrag & Hcube & Hchange & Hpost).
  destruct (reloadShaders_pass_shaders E files s1 Hok1) as [Hnew1 Hsame1].
  destruct (reloadShaders_pass_shaders E files s Hok) as [Hnew _].
  fold s2 in Hnew1, Hsame1. subst s1.
  rewrite Hfrag, Hsh, length_fmap in Hnew1, Hsame1. fold n in Hnew1, Hsame1.
  split_and!; try assumption.
  - intros Hn. rewrite (Hsame1 Hn), <- list_fmap_compose, imap_fmap.
    apply imap_ext. intros i sh _. cbn. unfold cubemap_defines.
    now rewrite Hcube.
  - intros Hn. now rewrite (Hnew1 Hn), (Hnew Hn).
Qed.

Lemma define_then_reload_witness :
  let E := example_env [] in
  let s1 := addDefine "FAST" "1" two_pass_sandbox in
  passes_ok two_pass_sandbox /\
  m_postprocessing_shader s1
  = Gl.addDefine "FAST" "1" (m_postprocessing_shader two_pass_sandbox) /\
  m_buffers_shaders (fst (reloadShaders E [example_frag] s1))
  = m_buffers_shaders (fst (reloadShaders E [example_frag] two_pass_sandbox)).
Proof.
  intros E s1.
  assert (Hok : passes_ok two_pass_sandbox) by (split; reflexivity).
  destruct (define_then_reload E [example_frag] "FAST" "1" two_pass_sandbox
              Hok) as (_ & _ & Hpost & _ & _ & Hnew).
  split; [exact Hok | split; [exact Hpost |]].
  apply Hnew. vm_compute. discriminate.
Defined.


(** ** The render loop at rest *)

Lemma at_decision_idle (i : FrameInput) (w : World) :
  limit_reached i = false -> fileChanged w = -1 -> at_decision i w = w.
Proof.
  intros Hl Hf. unfold at_decision, consume_change. now rewrite Hl, Hf.
Qed.

Lemma render_loop_idle (inputs : list FrameInput) (w : World) (drawn : nat) :
  List.Forall (fun j => limit_reached j = false) inputs ->
  fileChanged w = -1 -> timeOut w = false -> fullFps w = false ->
  haveChange (sandbox w) = false ->
  render_loop inputs w drawn = (w, drawn).
Proof.
  intros Hin Hf Ht Hfull Hclean.
  induction Hin as [|j inputs Hj _ IH]; [reflexivity |].
  cbn [render_loop]. rewrite loop_body_eq.
  destruct (negb (isGL j && bRun w)); [reflexivity |].
  cbv zeta. rewrite (at_decision_idle j w Hj Hf).
  unfold skip_frame. rewrite Ht, Hfull, Hclean. cbn [negb andb]. exact IH.
Qed.

Lemma render_initialized (E : Env) (s : Sandbox) :
  m_initialized (render E s) = m_initialized s /\
  m_record (render E s) = m_record s /\
  m_frame (render E s) = m_frame s.
Proof.
  unfold render, pending_output, function_at, Uniforms.at_.
  open_sandbox s. cbn.
  repeat match goal with
         | |- context [match ?m !! ?k with _ => _ end] => destruct (m !! k)
         | |- context [if ?c then _ else _] => destruct c
         end; split_and!; reflexivity.
Qed.

Lemma renderDone_settles (gl : bool) (s : Sandbox) :
  m_record s = false ->
  m_change (renderDone gl s) = negb (m_initialized s) /\
  m_record (renderDone gl s) = false /\
  screenshotFile (renderDone gl s) = "" /\
  m_initialized (renderDone gl s) = true /\
  m_frame (renderDone gl s) = S (m_frame s).
Proof.
  intros Hr.
  destruct s as [? ? ? ? ? shot u ? ? ? ? ? ? ? ? ? ? ? ? ? ? ? ? rec ? ? ? ?
                 init ?].
  cbn in Hr. subst rec.
  destruct u, gl, init, shot as [|c shot]; split_and!; reflexivity.
Qed.

(** X16.  The loop comes to rest.  A turn that draws a frame outside a
    recording (no time limit, no file change pending) leaves the engine
    initialised, with no screenshot pending and its own change flag down:
    only the first frame of an engine raises the flag once more.  From an
    initialised engine, with neither the full-FPS mode nor the time-out
    state set, and a scene and a uniform registry that report no change
    after the frame, the turns that follow draw nothing, however many there
    are: one request to redraw is one frame. *)
Theorem loop_settles (i : FrameInput) (inputs : list FrameInput) (w : World)
    (drawn : nat) :
  isGL i = true -> bRun w = true -> limit_reached i = false ->
  List.Forall (fun j => limit_reached j = false) inputs ->
  fileChanged w = -1 -> timeOut w = false -> fullFps w = false ->
  m_record (sandbox w) = false ->
  haveChange (sandbox w) = true ->
  let w' := fst (loop_body i w) in
  snd (loop_body i w) = Rendered /\
  m_change (sandbox w') = negb (m_initialized (sandbox w)) /\
  m_record (sandbox w') = false /\
  screenshotFile (sandbox w') = "" /\
  m_initialized (sandbox w') = true /\
  m_frame (sandbox w') = S (m_frame (sandbox w)) /\
  (m_initialized (sandbox w) = true ->
   Scene.haveChange (m_scene (sandbox w')) = false ->
   Uniforms.haveChange (uniforms (sandbox w')) = false ->
   render_loop (i :: inputs) w drawn = (w', S drawn)).
Proof.
  intros Hgl Hrun Hl Hin Hf Ht Hfull Hrec Hdirty w'.
  assert (Hbody : loop_body i w
                  = (set_sandbox
                       (renderDone true (render (env i) (sandbox w))) w,
                     Rendered)).
  { rewrite loop_body_eq, Hgl, Hrun. cbn [andb negb]. cbv zeta.
    rewrite (at_decision_idle i w Hl Hf).
    unfold skip_frame. rewrite Ht, Hfull, Hdirty. reflexivity. }
  subst w'. rewrite Hbody. cbn [fst snd].
  destruct (render_initialized (env i) (sandbox w)) as (Hi & Hr & Hfr).
  destruct (renderDone_settles true (render (env i) (sandbox w)))
    as (Hc & Hrec' & Hshot & Hinit & Hframe); [now rewrite Hr |].
  rewrite Hi in Hc. rewrite Hfr in Hframe.
  assert (Hsb : forall s, sandbox (set_sandbox s w) = s) by reflexivity.
  rewrite !Hsb.
  split_and!; try assumption; [reflexivity |].
  intros Hready Hscene Huniforms. cbn [render_loop]. rewrite Hbody.
  apply render_loop_idle; try assumption.
  rewrite Hsb. unfold haveChange.
  now rewrite Hc, Hready, Hrec', Hshot, Hscene, Huniforms.
Qed.

Lemma loop_settles_witness :
  let i := open_window [] in
  let w := set_sandbox (flagChange example_sandbox) example_world in
  haveChange (sandbox w) = true /\
  snd (render_loop [i; i; i; i] w 0) = 1%nat.
Proof.
  intros i w.
  assert (Hdirty : haveChange (sandbox w) = true) by reflexivity.
  split; [exact Hdirty |].
  assert (Hin : List.Forall (fun j => limit_reached j = false) [i; i; i])
    by (repeat constructor).
  destruct (loop_settles i [i; i; i] w 0 eq_refl eq_refl eq_refl Hin
              eq_refl eq_refl eq_refl eq_refl Hdirty)
    as (_ & _ & _ & _ & _ & _ & Hloop).
  rewrite (Hloop eq_refl eq_refl eq_refl). reflexivity.
Defined.


(** ** The resources [main] loads *)

Lemma registered_refl (w : World) : registered w w.
Proof.
  split; [exists []; now rewrite app_nil_r | tauto].
Qed.

Lemma registered_trans (w1 w2 w3 : World) :
  registered w1 w2 -> registered w2 w3 -> registered w1 w3.
Proof.
  intros ((m1 & Hf1 & Hd1) & Hi1 & Ha1 & Hb1 & Hc1)
         ((m2 & Hf2 & Hd2) & Hi2 & Ha2 & Hb2 & Hc2).
  split; [| split; [tauto | split_and!]].
  - exists (m1 ++ m2)%list. rewrite Hf2, Hf1, <- app_assoc.
    split; [reflexivity |]. now rewrite forallb_app, Hd1, Hd2.
  - intros H. rewrite Ha2; rewrite (Ha1 H); [reflexivity | exact H].
  - intros H. rewrite Hb2; rewrite (Hb1 H); [reflexivity | exact H].
  - intros H. rewrite Hc2; rewrite (Hc1 H); [reflexivity | exact H].
Qed.

Lemma index_ok_app (index : Z) (ty : FileType) (fl more : WatchFileList) :
  index_ok index ty fl -> index_ok index ty (fl ++ more)%list.
Proof.
  intros [-> | (f & Hf & Hty)]; [now left | right].
  exists f. split; [| exact Hty]. unfold file_at in *.
  destruct (index <? 0); [discriminate |].
  now apply lookup_app_l_Some.
Qed.

Lemma index_ok_last (ty : FileType) (fl : WatchFileList) (f : WatchFile) :
  type f = ty ->
  index_ok (Z.of_nat (length (fl ++ [f])%list) - 1) ty (fl ++ [f])%list.
Proof.
  intros Hty. right. exists f. split; [| exact Hty]. unfold file_at.
  rewrite length_app. cbn [length].
  destruct (Z.ltb_spec (Z.of_nat (length fl + 1) - 1) 0) as [Hlt | _];
    [lia |].
  replace (Z.to_nat (Z.of_nat (length fl + 1) - 1)) with (length fl) by lia.
  now rewrite lookup_app_r, Nat.sub_diag by lia.
Qed.

(** A step that leaves the registry and the three indices alone. *)
Lemma registered_same (w w' : World) :
  files w' = files w ->
  frag_index (sandbox w') = frag_index (sandbox w) ->
  vert_index (sandbox w') = vert_index (sandbox w) ->
  geom_index (sandbox w') = geom_index (sandbox w) ->
  registered w w'.
Proof.
  intros Hf Ha Hb Hc. unfold registered, indices_ok.
  rewrite Hf, Ha, Hb, Hc.
  split; [exists []; now rewrite app_nil_r | tauto].
Qed.

(** A loader that has added entries to the registry. *)
Lemma registered_loaded (r : Uniforms.t * WatchFileList) (m : Main.Startup) :
  (exists more, snd r = (files (Main.world m) ++ more)%list /\
                forallb not_dependency more = true) ->
  registered (Main.world m) (Main.world (Main.loaded r m)).
Proof.
  intros (more & Hr & Hd). unfold registered, indices_ok. cbn.
  rewrite Hr. split; [now exists more |].
  split; [| tauto].
  intros (Ha & Hb & Hc). split_and!; now apply index_ok_app.
Qed.

Section Turn.

Variables (E : Env) (L : Main.Loaders).
Hypothesis Happend : loaders_append L.

Lemma push_frag_registered (argument : string) (m : Main.Startup) :
  frag_index (sandbox (Main.world m)) = -1 ->
  registered (Main.world m)
    (Main.world (Main.push_file FRAG_SHADER argument E set_frag_index m)).
Proof.
  intros Hfree. unfold registered, indices_ok. cbn.
  split; [now eexists |].
  split; [| split_and!; [contradiction | reflexivity | reflexivity]].
  intros (_ & Hb & Hc). split_and!.
  - now apply index_ok_last.
  - now apply index_ok_app.
  - now apply index_ok_app.
Qed.

Lemma push_vert_registered (argument : string) (m : Main.Startup) :
  vert_index (sandbox (Main.world m)) = -1 ->
  registered (Main.world m)
    (Main.world (Main.push_file VERT_SHADER argument E set_vert_index m)).
Proof.
  intros Hfree. unfold registered, indices_ok. cbn.
  split; [now eexists |].
  split; [| split_and!; [reflexivity | contradiction | reflexivity]].
  intros (Ha & _ & Hc). split_and!.
  - now apply index_ok_app.
  - now apply index_ok_last.
  - now apply index_ok_app.
Qed.

Lemma push_geom_registered (argument : string) (m : Main.Startup) :
  geom_index (sandbox (Main.world m)) = -1 ->
  registered (Main.world m)
    (Main.world (Main.push_file GEOMETRY argument E set_geom_index m)).
Proof.
  intros Hfree. unfold registered, indices_ok. cbn.
  split; [now eexists |].
  split; [| split_and!; [reflexivity | reflexivity | contradiction]].
  intros (Ha & Hb & _). split_and!.
  - now apply index_ok_app.
  - now apply index_ok_app.
  - now apply index_ok_last.
Qed.

Lemma turn_registered (argument : string) (m : Main.Startup) :
  turn_keeps (fun m' => registered (Main.world m) (Main.world m'))
    (Main.turn E L argument m).
Proof.
  destruct Happend as [Htex Hcube].
  unfold Main.turn.
  repeat match goal with
         | |- turn_keeps _ (if ?c then _ else _) => destruct c eqn:?
         end;
    try (cbn; intros; apply registered_refl);
    try (cbn; intros; apply registered_same; reflexivity).
  - cbn. intros value. destruct (Main.haveExt L value "png");
      [apply registered_same; reflexivity | apply registered_refl].
  - match goal with
    | H : (frag_index _ =? -1) && _ = true |- _ =>
        apply andb_true_iff in H as [Hfree _]
    end.
    apply Z.eqb_eq in Hfree. cbn.
    apply (push_frag_registered argument
             (Main.set_st (stat_mtime E argument (Main.st m)) m) Hfree).
  - match goal with
    | H : (vert_index _ =? -1) && _ = true |- _ =>
        apply andb_true_iff in H as [Hfree _]
    end.
    apply Z.eqb_eq in Hfree. cbn.
    apply (push_vert_registered argument
             (Main.set_st (stat_mtime E argument (Main.st m)) m) Hfree).
  - match goal with
    | H : (geom_index _ =? -1) && _ = true |- _ =>
        apply andb_true_iff in H as [Hfree _]
    end.
    apply Z.eqb_eq in Hfree.
    destruct (stat E argument) as [t|]; cbn; [| apply registered_refl].
    apply (push_geom_registered argument (Main.set_st t m) Hfree).
  - pose proof (Htex ("u_tex" +:+ Text.toString (Main.textureCounter m))
                  argument (files (Main.world m)) (Main.vFlip m)
                  (uniforms (sandbox (Main.world m)))) as Hmore.
    destruct (Main.addTexture L _ argument _ _ _) as [ok r].
    cbn [snd] in Hmore. cbn [turn_keeps].
    destruct ok; apply (registered_loaded r m Hmore).
  - cbn. intros value. apply registered_loaded. apply Hcube.
  - cbn. intros value. apply registered_loaded. apply Hcube.
  - cbn [turn_keeps]. intros value. apply registered_loaded. apply Htex.
Qed.

Lemma turn_exit_queued (argument : string) (m : Main.Startup) :
  exit_queued m -> turn_keeps exit_queued (Main.turn E L argument m).
Proof.
  intros Hq. unfold Main.turn.
  repeat match goal with
         | |- turn_keeps _ (if ?c then _ else _) => destruct c eqn:?
         | |- turn_keeps _ (match ?c with _ => _ end) => destruct c
         | |- turn_keeps _ (let '(_, _) := ?c in _) => destruct c
         end;
    cbn; intros; try exact Hq;
    try (intros _; cbn; now destruct (Main.cmds_arguments m)).
  - destruct (Main.haveExt L value "png"); exact Hq.
  - destruct b; exact Hq.
Qed.

Lemma load_resources_keeps (P : Main.Startup -> Main.Startup -> Prop) :
  (forall m, P m m) ->
  (forall m1 m2 m3, P m1 m2 -> P m2 m3 -> P m1 m3) ->
  (forall argument m, turn_keeps (P m) (Main.turn E L argument m)) ->
  forall args m m',
    Main.load_resources E L args m = Some m' -> P m m'.
Proof.
  intros Hrefl Htrans Hturn args.
  assert (Hall : forall n args m m',
             (length args <= n)%nat ->
             Main.load_resources E L args m = Some m' -> P m m').
  { induction n as [|n IH]; intros [|argument rest] m m' Hn Hload;
      cbn in Hn; try lia.
    - injection Hload as <-. apply Hrefl.
    - injection Hload as <-. apply Hrefl.
    - cbn [Main.load_resources] in Hload.
      pose proof (Hturn argument m) as Hk.
      destruct (Main.turn E L argument m) as [m1 | m1 | f]; cbn in Hk.
      + apply (Htrans _ m1); [exact Hk |]. apply (IH rest); [lia | exact Hload].
      + destruct rest as [|value rest].
        * injection Hload as <-. exact Hk.
        * apply (Htrans _ m1); [exact Hk |].
          apply (IH rest); [cbn in Hn; lia | exact Hload].
      + destruct rest as [|value rest]; [discriminate |].
        apply (Htrans _ (f value)); [apply Hk |].
        apply (IH rest); [cbn in Hn; lia | exact Hload]. }
  intros m m'. now apply (Hall (length args)).
Qed.

End Turn.

(** X17.  The loop of [main] that loads the resources, given loaders that
    only add to the registry.  Whatever the arguments, when the loop comes
    to its end the registry has only grown, by entries that are no
    dependencies; each of the three indices of the engine is still unset or
    is the place of an entry of its own type (fragment shader, vertex
    shader, geometry); and an index that was set is never set again: the
    first fragment shader, the first vertex shader and the first geometry on
    the command line are the ones the engine runs. *)
Theorem load_resources_registers (E : Env) (L : Main.Loaders)
    (args : list string) (m m' : Main.Startup) :
  loaders_append L ->
  Main.load_resources E L args m = Some m' ->
  registered (Main.world m) (Main.world m').
Proof.
  intros Happend.
  apply (load_resources_keeps E L
           (fun m1 m2 => registered (Main.world m1) (Main.world m2))).
  - intros m1. apply registered_refl.
  - intros m1 m2 m3. apply registered_trans.
  - intros argument m1. now apply turn_registered.
Qed.

Lemma load_resources_registers_witness :
  let E := example_env [("a.frag", "void main() { }")] in
  let args := ["-w"; "640"; "a.frag"; "tex.png"; "b.frag"; "-e"; "fps"] in
  exists m',
    Main.load_resources E example_loaders args (Main.start E) = Some m' /\
    frag_index (sandbox (Main.world m')) = 0 /\
    path <$> files (Main.world m') = ["a.frag"; "tex.png"] /\
    indices_ok (Main.world m').
Proof.
  intros E args.
  assert (Happend : loaders_append example_loaders).
  { split; intros; eexists; (split; [reflexivity |]); reflexivity. }
  destruct (Main.load_resources E example_loaders args (Main.start E))
    as [m'|] eqn:Hload; [| vm_compute in Hload; discriminate Hload].
  exists m'. split; [reflexivity |].
  destruct (load_resources_registers E example_loaders args _ m' Happend Hload)
    as (_ & Hok & _).
  split_and!.
  - vm_compute in Hload. injection Hload as <-. reflexivity.
  - vm_compute in Hload. injection Hload as <-. reflexivity.
  - apply Hok. repeat split; now left.
Defined.

(** X18.  [-E] and the start-up commands.  The loop of [main] sets
    [execute_exit] only together with a command it queues, so the test of
    [cinWatcherThread] that guards the start-up commands never hides it:
    whenever [-E] was read, the console thread ends the start-up commands by
    setting the time-out state, whatever those commands did. *)
Theorem execute_exit_times_out (E : Env) (L : Main.Loaders)
    (args : list string) (m m' : Main.Startup) (w : World) :
  exit_queued m ->
  Main.load_resources E L args m = Some m' ->
  exit_queued m' /\
  (Main.execute_exit m' = true ->
   timeOut (Main.startup_commands m' w) = true).
Proof.
  intros Hq Hload.
  assert (Hq' : exit_queued m').
  { revert Hq.
    apply (load_resources_keeps E L
             (fun m1 m2 => exit_queued m1 -> exit_queued m2))
      with (args := args); [tauto | tauto | | exact Hload].
    intros argument m1.
    pose proof (turn_exit_queued E L argument m1) as Hk.
    destruct (Main.turn E L argument m1); cbn in *; auto. }
  split; [exact Hq' |].
  intros Hexit. unfold Main.startup_commands.
  pose proof (Hq' Hexit) as Hne.
  destruct (Main.cmds_arguments m') as [|c cs]; [contradiction |].
  cbn [length Nat.ltb Nat.leb]. rewrite Hexit. reflexivity.
Qed.

Lemma execute_exit_times_out_witness :
  let E := example_env [("a.frag", "void main() { }")] in
  let args := ["a.frag"; "-E"; "screenshot,out.png"] in
  exists m',
    Main.load_resources E example_loaders args (Main.start E) = Some m' /\
    timeOut (Main.startup_commands m' example_world) = true.
Proof.
  intros E args.
  assert (Hq : exit_queued (Main.start E)) by (intros H; discriminate H).
  destruct (Main.load_resources E example_loaders args (Main.start E))
    as [m'|] eqn:Hload; [| vm_compute in Hload; discriminate Hload].
  exists m'. split; [reflexivity |].
  destruct (execute_exit_times_out E example_loaders args _ m' example_world
              Hq Hload) as [_ Hout].
  apply Hout. vm_compute in Hload. injection Hload as <-. reflexivity.
Defined.


(** ** A screenshot from the console *)

Lemma drawn_frame (i : FrameInput) (w : World) :
  isGL i = true -> bRun w = true -> limit_reached i = false ->
  fileChanged w = -1 -> timeOut w = false ->
  haveChange (sandbox w) = true ->
  loop_body i w
  = (set_sandbox (renderDone true (render (env i) (sandbox w))) w, Rendered).
Proof.
  intros Hgl Hrun Hl Hf Ht Hdirty.
  rewrite loop_body_eq, Hgl, Hrun. cbn [andb negb]. cbv zeta.
  rewrite (at_decision_idle i w Hl Hf).
  unfold skip_frame. rewrite Ht, Hdirty. cbn [negb andb].
  now rewrite andb_false_r.
Qed.

(** A frame with nothing to write: no recording, no screenshot pending. *)
Lemma frame_writes_nothing (E : Env) (gl : bool) (s : Sandbox) :
  m_record s = false -> screenshotFile s = "" ->
  let s' := renderDone gl (render E s) in
  m_record s' = false /\ screenshotFile s' = "" /\ saved s' = saved s.
Proof.
  intros Hrec Hshot s'. subst s'.
  pose proof (render_output_state E s) as Hout. unfold output_state in Hout.
  set (s1 := render E s) in *.
  assert (Hrec1 : m_record s1 = false) by (rewrite <- Hrec; congruence).
  assert (Hshot1 : screenshotFile s1 = "") by (rewrite <- Hshot; congruence).
  assert (Hsaved1 : saved s1 = saved s) by congruence.
  destruct (renderDone_settles gl s1 Hrec1) as (_ & Hr & Hs & _).
  split_and!; [exact Hr | exact Hs |].
  rewrite <- Hsaved1. clear Hout Hsaved1 Hr Hs. clearbody s1.
  destruct s1 as [? ? ? ? ? shot u ? ? ? ? ? ? ? ? ? ? ? ? ? ? ? ? rec ? ? ? ?
                  init ?].
  cbn in Hrec1, Hshot1. subst rec shot.
  destruct u, gl, init; reflexivity.
Qed.

Lemma idle_turn_outputs (i : FrameInput) (w : World) :
  limit_reached i = false -> fileChanged w = -1 -> timeOut w = false ->
  m_record (sandbox w) = false -> screenshotFile (sandbox w) = "" ->
  let w' := fst (loop_body i w) in
  fileChanged w' = -1 /\ timeOut w' = false /\
  m_record (sandbox w') = false /\ screenshotFile (sandbox w') = "" /\
  saved (sandbox w') = saved (sandbox w).
Proof.
  intros Hl Hf Ht Hrec Hshot w'. subst w'. rewrite loop_body_eq.
  destruct (negb (isGL i && bRun w)); [cbn [fst]; auto |].
  cbv zeta. rewrite (at_decision_idle i w Hl Hf).
  destruct (skip_frame w); [cbn [fst]; auto |].
  rewrite Ht. cbn [andb fst].
  destruct (frame_writes_nothing (env i) (isGL i) (sandbox w) Hrec Hshot)
    as (Hr & Hs & Hsv).
  split_and!; assumption.
Qed.

Lemma idle_loop_outputs (inputs : list FrameInput) (w : World) (drawn : nat) :
  List.Forall (fun j => limit_reached j = false) inputs ->
  fileChanged w = -1 -> timeOut w = false ->
  m_record (sandbox w) = false -> screenshotFile (sandbox w) = "" ->
  let r := render_loop inputs w drawn in
  saved (sandbox (fst r)) = saved (sandbox w) /\
  screenshotFile (sandbox (fst r)) = "" /\
  (drawn <= snd r)%nat.
Proof.
  intros Hin. revert w drawn.
  induction Hin as [|i inputs Hi _ IH]; intros w drawn Hf Ht Hrec Hshot r;
    subst r; [cbn; auto |].
  cbn [render_loop].
  destruct (idle_turn_outputs i w Hi Hf Ht Hrec Hshot)
    as (Hf' & Ht' & Hrec' & Hshot' & Hsaved').
  destruct (loop_body i w) as [w' res]. cbn [fst] in *.
  destruct res; cbn [fst snd].
  - split_and!; [exact Hsaved' | exact Hshot' | lia].
  - destruct (IH w' drawn Hf' Ht' Hrec' Hshot') as (Hs & Hn & Hd).
    split_and!; [congruence | exact Hn | exact Hd].
  - destruct (IH w' (S drawn) Hf' Ht' Hrec' Hshot') as (Hs & Hn & Hd).
    split_and!; [congruence | exact Hn | lia].
Qed.

(** X19.  "screenshot,<name>" from the console to the image on disk.  A line
    that splits at its comma into two values hands the second to the engine
    as the pending screenshot and is reported handled.  Outside a recording
    the next turn of the loop then draws a frame, which writes the image
    under the given name and clears the pending screenshot; and however many
    turns follow and whatever they draw, no further image is written: the
    request is served once. *)
Theorem screenshot_written_once (line tok name : string) (i : FrameInput)
    (inputs : list FrameInput) (w : World) (drawn : nat) :
  values_of line = [tok; name] -> name <> "" ->
  isGL i = true -> bRun w = true -> limit_reached i = false ->
  List.Forall (fun j => limit_reached j = false) inputs ->
  fileChanged w = -1 -> timeOut w = false ->
  m_record (sandbox w) = false ->
  let w1 := fst (cmd_screenshot line w) in
  let r := render_loop (i :: inputs) w1 drawn in
  cmd_screenshot line w = (on_sandbox (set_screenshotFile name) w, true) /\
  snd (loop_body i w1) = Rendered /\
  saved (sandbox (fst (loop_body i w1))) = name :: saved (sandbox w) /\
  saved (sandbox (fst r)) = name :: saved (sandbox w) /\
  screenshotFile (sandbox (fst r)) = "" /\
  (S drawn <= snd r)%nat.
Proof.
  intros Hvalues Hname Hgl Hrun Hl Hin Hf Ht Hrec w1 r.
  assert (Hcmd : cmd_screenshot line w
                 = (on_sandbox (set_screenshotFile name) w, true)).
  { unfold cmd_screenshot.
    destruct (String.eqb_spec line "screenshot") as [-> | _];
      [discriminate Hvalues |].
    cbn [andb]. rewrite Hvalues. reflexivity. }
  subst r w1. rewrite Hcmd. cbn [fst].
  set (w1 := on_sandbox (set_screenshotFile name) w).
  set (s1 := sandbox w1).
  assert (Hshot : screenshotFile s1 = name) by reflexivity.
  assert (Hsaved : saved s1 = saved (sandbox w)) by reflexivity.
  assert (Hrec1 : m_record s1 = false) by exact Hrec.
  assert (Hdirty : haveChange s1 = true).
  { unfold haveChange. rewrite Hshot.
    destruct (String.eqb_spec name ""); [contradiction |].
    cbn. now rewrite orb_true_r. }
  cbn [render_loop].
  rewrite (drawn_frame i w1 Hgl Hrun Hl Hf Ht Hdirty). cbn [fst snd].
  pose proof (render_output_state (env i) s1) as Hout.
  unfold output_state in Hout. fold s1.
  set (s2 := render (env i) s1) in *.
  assert (Hshot2 : screenshotFile s2 = name) by (rewrite <- Hshot; congruence).
  assert (Hsaved2 : saved s2 = saved (sandbox w))
    by (rewrite <- Hsaved; congruence).
  assert (Hrec2 : m_record s2 = false) by (rewrite <- Hrec1; congruence).
  destruct (renderDone_no_record s2 Hrec2) as [Hclear Hwritten].
  destruct (renderDone_settles true s2 Hrec2) as (_ & Hrec3 & _).
  rewrite Hshot2, Hsaved2 in Hwritten.
  destruct (String.eqb_spec name ""); [contradiction |].
  destruct (idle_loop_outputs inputs (set_sandbox (renderDone true s2) w1)
              (S drawn) Hin Hf Ht Hrec3 Hclear) as (Hs & Hn & Hd).
  split_and!; try reflexivity; try assumption.
  rewrite Hs. exact Hwritten.
Qed.

Lemma screenshot_written_once_witness :
  let i := open_window [] in
  values_of "screenshot,shot.png" = ["screenshot"; "shot.png"] /\
  saved (sandbox (fst (render_loop [i; i; i]
                         (fst (cmd_screenshot "screenshot,shot.png"
                                 example_world)) 0)))
  = ["shot.png"].
Proof.
  intros i.
  assert (Hv : values_of "screenshot,shot.png" = ["screenshot"; "shot.png"])
    by reflexivity.
  split; [exact Hv |].
  assert (Hin : List.Forall (fun j => limit_reached j = false) [i; i])
    by (repeat constructor).
  assert (Hname : "shot.png" <> "") by discriminate.
  destruct (screenshot_written_once "screenshot,shot.png" "screenshot"
              "shot.png" i [i; i] example_world 0 Hv Hname eq_refl eq_refl
              eq_refl Hin eq_refl eq_refl eq_refl)
    as (_ & _ & _ & Hsaved & _).
  exact Hsaved.
Defined.
